(** * comfy_pack.core.run: engine lifecycle and job execution

    A shallow embedding of [src/comfy_pack/core/run.py]: the
    [ComfyUIServer] class ([start], [stop], [execute_workflow]) and the
    free functions [_probe_comfyui_server], [_is_port_in_use],
    [_wait_for_startup], [run_workflow] and [execute_remote_workflow].

    The Python code talks to the outside (sockets, HTTP, a child process,
    the clock, the random generator, the file system).  Every such call is
    an effect of a small state-and-exception monad: it asks an environment
    [Env] for the outcome, advances the clock and appends one [Event] to
    the trace of the [World].  Loops that the source writes as [while] take
    fuel; running out of fuel is an outcome of its own, distinct from a
    return and from a raised exception.

    On top of it come the callers and neighbours of the module: the
    class [ComfyLitAPI] of [src/comfy_pack/litserve/api.py] ([setup],
    [predict], [cleanup]) with the settings and the request of
    [src/comfy_pack/schema], the validator of the request's inputs
    ([schema/workflow.py]) and the inputs that the command [run] of
    [src/comfy_pack/cli.py] makes of its arguments. *)

From Stdlib Require Import ZArith Lia Ascii.
From stdpp Require Import base list strings pretty.

Local Open Scope Z_scope.

Set Warnings "-register-all".

(** ** Python values *)

(** What [json.loads] produces, and what a workflow document is made of.
    Numbers are kept as integers. *)
Inductive Json : Type :=
| JNull
| JBool (b : bool)
| JNum (n : Z)
| JStr (s : string)
| JArr (xs : list Json)
| JObj (kvs : list (string * Json)).

(** Python truth value of a decoded JSON value ([if history["outputs"]:]). *)
Definition truthy (j : Json) : bool :=
  match j with
  | JNull => false
  | JBool b => b
  | JNum n => negb (n =? 0)
  | JStr s => negb (String.eqb s EmptyString)
  | JArr xs => match xs with [] => false | _ :: _ => true end
  | JObj kvs => match kvs with [] => false | _ :: _ => true end
  end.



Fixpoint dict_get (k : string) (kvs : list (string * Json)) : option Json :=
  match kvs with
  | [] => None
  | (k', v) :: rest => if String.eqb k k' then Some v else dict_get k rest
  end.

(** The exception classes the module raises or can meet.  [RuntimeError]
    carries the exception that was being handled when it was raised
    (Python's implicit [__context__]). *)
Inductive Exn : Type :=
| KeyError (key : string)
| TypeError (msg : string)
| ValueError (msg : string)
| JSONDecodeError (msg : string)
| OSError (msg : string)
| URLError (reason : string)
| HTTPError (code : Z) (reason : string)
| TimeoutExpired (timeout : Z)
| TimeoutError (msg : string)
| RuntimeError (msg : string) (context : option Exn).

(** [str(e)], as used by the f-strings of the handlers. *)
Definition str_exn (e : Exn) : string :=
  match e with
  | KeyError k => "'" +:+ k +:+ "'"
  | TypeError m | ValueError m | JSONDecodeError m | OSError m => m
  | URLError r => "<urlopen error " +:+ r +:+ ">"
  | HTTPError c r => "HTTP Error " +:+ pretty c +:+ ": " +:+ r
  | TimeoutExpired t => "Command timed out after " +:+ pretty t +:+ " seconds"
  | TimeoutError m => m
  | RuntimeError m _ => m
  end.

(** [isinstance(e, TimeoutError)] *)
Definition is_TimeoutError (e : Exn) : bool :=
  match e with TimeoutError _ => true | _ => false end.

(** [isinstance(e, subprocess.TimeoutExpired)] *)
Definition is_TimeoutExpired (e : Exn) : bool :=
  match e with TimeoutExpired _ => true | _ => false end.

(** Errors of the transport layer: what [urlopen] raises on its own. *)
Definition is_transport (e : Exn) : bool :=
  match e with
  | OSError _ | URLError _ | HTTPError _ _ => true
  | _ => false
  end.

(** [j[k]] for a string key [k]. *)
Definition getitem (j : Json) (k : string) : Exn + Json :=
  match j with
  | JObj kvs =>
      match dict_get k kvs with
      | Some v => inr v
      | None => inl (KeyError k)
      end
  | JArr _ => inl (TypeError "list indices must be integers or slices, not str")
  | JStr _ => inl (TypeError "string indices must be integers, not 'str'")
  | JNull => inl (TypeError "'NoneType' object is not subscriptable")
  | JBool _ => inl (TypeError "'bool' object is not subscriptable")
  | JNum _ => inl (TypeError "'int' object is not subscriptable")
  end.

(** [pathlib.Path], as its segments. *)
Definition Path : Type := list string.

(** Keyword arguments ([**inputs], [**kwargs]), in call order. *)
Definition Kwargs : Type := list (string * Json).

(** A value handed to a parameter that the callee turns into a [Path]:
    either a [Path] object already, or any other Python value. *)
Inductive PyArg : Type :=
| ArgPath (p : Path)
| ArgVal (j : Json).

(** [x is None] *)
Definition is_None (a : PyArg) : bool :=
  match a with ArgVal JNull => true | _ => false end.

(** [Path(x)] *)
Definition to_Path (a : PyArg) : Exn + Path :=
  match a with
  | ArgPath p => inr p
  | ArgVal (JStr s) => inr [s]
  | ArgVal _ => inl (TypeError "expected str, bytes or os.PathLike object")
  end.

(** ** The outside world *)

(** [subprocess.PIPE], [subprocess.DEVNULL] and [None] (inherit the
    parent's stream) as values of a [Popen] stream argument. *)
Inductive Stdio : Type := PIPE | DEVNULL | INHERIT.

Record PopenArgs : Type := mkPopenArgs {
  command : list string;
  env_COMFY_PORT : Z;
  cwd : string;
  stdout : Stdio;
  stderr : Stdio }.

(** A [subprocess.Popen] object. *)
Record Popen : Type := mkPopen {
  pid : nat;
  args : PopenArgs }.

(** Outcome of [socket.connect]: accepted, [ConnectionRefusedError], or
    any other exception. *)
Inductive ConnectOutcome : Type := Accepted | Refused | ConnectFailed.

(** The four HTTP calls of the module. *)
Inductive Request : Type :=
| GetMappings (port : Z)
    (* GET http://127.0.0.1:{port}/api/customnode/getmappings?mode=nickname *)
| ObjectInfo (port : Z)
    (* GET http://127.0.0.1:{port}/api/object_info *)
| Prompt (host : string) (port : Z) (body : Json)
    (* POST http://{host}:{port}/prompt *)
| History (host : string) (port : Z) (prompt_id : Json).
    (* GET http://{host}:{port}/history/{prompt_id} *)

(** What [urlopen] gives: an exception, or a body, which [json.loads]
    either decodes ([Some]) or rejects ([None]). *)
Definition HttpResult : Type := Exn + option Json.


(** Result of [urllib.parse.urlparse]; reading [.port] can raise. *)
Record ParsedUrl : Type := mkParsedUrl {
  hostname : option string;
  url_port : Exn + option Z }.

(** What [populate_workflow] (module [..utils]) does to the dictionary it
    is given ([pw_mutated]: its content afterwards) and what it hands
    back: an exception, the dictionary itself ([None]) or a new object. *)
Record PopulateResult : Type := mkPopulateResult {
  pw_mutated : Json;
  pw_result : Exn + option Json }.

Inductive Event : Type :=
| EvConnect (host : string) (port : Z) (r : ConnectOutcome)
| EvRandint (v : Z)
| EvSpawn (p : Popen)
| EvSpawnFailed (a : PopenArgs)
| EvTerminate (pid : nat)
| EvWait (pid : nat) (timeout : Z) (exited : bool)
| EvKill (pid : nat)
| EvHttp (req : Request) (res : HttpResult)
| EvSleep (secs : Z)
| EvMkdir (p : Path)
| EvUuid (u : string)
| EvPopulate (output_dir : Path) (kwargs : Kwargs)
| EvRetrieve (output_dir : Path).

(** The environment answers every effect.  The first argument of each
    oracle is the number of effects performed so far, so an answer may
    change from one call to the next.
    - [latency]: the seconds an effect takes (beyond what it asks for);
    - [sock_connect]: the outcome of connecting to a host and port;
    - [random_draw]: the random source behind [random.randint];
    - [os_spawn]: [None] when the child is launched, or the [OSError];
    - [exit_delay]: when a child is waited for, the seconds until it has
      exited, [None] when it does not exit;
    - [http]: the answer to a request;
    - [fs_mkdir]: [None] when the directory is there afterwards;
    - [uuid4]: the UUIDs;
    - [urlparse]: [urllib.parse.urlparse];
    - [populate_workflow], [retrieve_workflow_outputs]: the two functions
      of the module [..utils], which this development takes as it finds
      them: they may do anything with the dictionary they are given. *)
Record Env : Type := mkEnv {
  latency : nat → nat;
  sock_connect : nat → string → Z → ConnectOutcome;
  random_draw : nat → Z;
  os_spawn : nat → PopenArgs → option Exn;
  exit_delay : nat → nat → option nat;
  http : nat → Request → HttpResult;
  fs_mkdir : nat → Path → option Exn;
  uuid4 : nat → string;
  urlparse : string → Exn + ParsedUrl;
  populate_workflow : nat → Json → Path → Kwargs → PopulateResult;
  retrieve_workflow_outputs : nat → Json → Path → Exn + Json }.

(** [now]: [time.time()] in whole seconds, which no effect sets back;
    [trace]: the effects so far, newest first; [running]: the child
    processes that are alive; [heap]: the dictionaries, which Python
    passes by reference, each at its address. *)
Record World : Type := mkWorld {
  now : Z;
  trace : list Event;
  running : list nat;
  heap : list Json }.

Definition tick (w : World) : nat := length (trace w).

Definition emit (e : Event) (dt : Z) (w : World) : World :=
  {| now := now w + dt; trace := e :: trace w;
     running := running w; heap := heap w |}.

Definition set_running (r : list nat) (w : World) : World :=
  {| now := now w; trace := trace w; running := r; heap := heap w |}.

Definition set_heap (h : list Json) (w : World) : World :=
  {| now := now w; trace := trace w; running := running w; heap := h |}.

Definition remove_pid (p : nat) (l : list nat) : list nat :=
  filter (λ q, q ≠ p) l.

(** ** The monad *)

Inductive Outcome (A : Type) : Type :=
| Return (a : A)
| Raise (e : Exn)
| OutOfFuel.
Arguments Return {A} a.
Arguments Raise {A} e.
Arguments OutOfFuel {A}.

Definition M (S A : Type) : Type := S → Outcome A * S.

#[global] Instance M_ret (S : Type) : MRet (M S) :=
  λ A a s, (Return a, s).

#[global] Instance M_bind (S : Type) : MBind (M S) :=
  λ A B f m s,
    match m s with
    | (Return a, s') => f a s'
    | (Raise e, s') => (Raise e, s')
    | (OutOfFuel, s') => (OutOfFuel, s')
    end.

Definition raise {S A : Type} (e : Exn) : M S A := λ s, (Raise e, s).

Definition out_of_fuel {S A : Type} : M S A := λ s, (OutOfFuel, s).

(** [try: body / except Exception as e: handler e] *)
Definition try_except {S A : Type} (body : M S A) (handler : Exn → M S A)
  : M S A :=
  λ s,
    match body s with
    | (Raise e, s') => handler e s'
    | r => r
    end.

(** [try: body / except C as e: handler e] for the class recognised by
    [cls]; other exceptions pass. *)
Definition try_except_only {S A : Type} (cls : Exn → bool) (body : M S A)
  (handler : Exn → M S A) : M S A :=
  try_except body (λ e, if cls e then handler e else raise e).

Definition lift_sum {S A : Type} (r : Exn + A) : M S A :=
  match r with
  | inl e => raise e
  | inr a => mret a
  end.

(** ** Effects *)

Section Program.

Context (E : Env).

(** [time.time()] *)
Definition time_time : M World Z := λ w, (Return (now w), w).

(** [time.sleep(secs)]: the clock advances by [secs] at least. *)
Definition time_sleep (secs : Z) : M World unit :=
  λ w, (Return tt,
        emit (EvSleep secs) (secs + Z.of_nat (latency E (tick w))) w).

(** [s.connect((host, port))] on a fresh TCP socket. *)
Definition socket_connect (host : string) (port : Z) : M World ConnectOutcome :=
  λ w,
    let r := sock_connect E (tick w) host port in
    (Return r, emit (EvConnect host port r) (Z.of_nat (latency E (tick w))) w).

(** [random.randint(a, b)] *)
Definition random_randint (a b : Z) : M World Z :=
  λ w,
    let v := a + random_draw E (tick w) `mod` (b - a + 1) in
    (Return v, emit (EvRandint v) 0 w).

(** [subprocess.Popen(...)]: the child is alive once it is spawned. *)
Definition subprocess_Popen (a : PopenArgs) : M World Popen :=
  λ w,
    let dt := Z.of_nat (latency E (tick w)) in
    match os_spawn E (tick w) a with
    | Some e => (Raise e, emit (EvSpawnFailed a) dt w)
    | None =>
        let p := {| pid := tick w; args := a |} in
        (Return p, set_running (pid p :: running w) (emit (EvSpawn p) dt w))
    end.

(** [p.terminate()] *)
Definition Popen_terminate (p : Popen) : M World unit :=
  λ w, (Return tt, emit (EvTerminate (pid p)) 0 w).

(** [p.wait(timeout=t)]: returns once the child has exited, raises
    [TimeoutExpired] when it has not after [t] seconds. *)
Definition Popen_wait (p : Popen) (t : Z) : M World unit :=
  λ w,
    match exit_delay E (tick w) (pid p) with
    | Some d =>
        if Z.of_nat d <=? t
        then (Return tt,
              set_running (remove_pid (pid p) (running w))
                (emit (EvWait (pid p) t true) (Z.of_nat d) w))
        else (Raise (TimeoutExpired t), emit (EvWait (pid p) t false) t w)
    | None => (Raise (TimeoutExpired t), emit (EvWait (pid p) t false) t w)
    end.

(** [p.kill()] *)
Definition Popen_kill (p : Popen) : M World unit :=
  λ w, (Return tt,
        set_running (remove_pid (pid p) (running w)) (emit (EvKill (pid p)) 0 w)).

(** [request.urlopen(req)] followed, where the source does it, by
    [resp.read()]. *)
Definition request_urlopen (req : Request) : M World (option Json) :=
  λ w,
    let r := http E (tick w) req in
    let w' := emit (EvHttp req r) (Z.of_nat (latency E (tick w))) w in
    match r with
    | inl e => (Raise e, w')
    | inr body => (Return body, w')
    end.

(** [json.loads(body)] *)
Definition json_loads (body : option Json) : M World Json :=
  match body with
  | Some j => mret j
  | None => raise (JSONDecodeError "Expecting value")
  end.

(** [p.mkdir(parents=True, exist_ok=True)] *)
Definition Path_mkdir (p : Path) : M World unit :=
  λ w,
    let w' := emit (EvMkdir p) (Z.of_nat (latency E (tick w))) w in
    match fs_mkdir E (tick w) p with
    | Some e => (Raise e, w')
    | None => (Return tt, w')
    end.

(** [str(uuid.uuid4())] *)
Definition uuid_uuid4 : M World string :=
  λ w, let u := uuid4 E (tick w) in (Return u, emit (EvUuid u) 0 w).

(** Content of the dictionary at a reference. *)
Definition deref (w : World) (l : nat) : Json := default JNull (heap w !! l).

Definition read (l : nat) : M World Json := λ w, (Return (deref w l), w).

(** [copy.deepcopy(x)]: a new object with the same content, sharing
    nothing with [x]. *)
Definition copy_deepcopy (l : nat) : M World nat :=
  λ w, (Return (length (heap w)), set_heap (heap w ++ [deref w l]) w).

(** [populate_workflow(workflow, output_dir, **kwargs)]: may change the
    dictionary it is given, in place. *)
Definition utils_populate_workflow (workflow : nat) (output_dir : Path)
  (kwargs : Kwargs) : M World nat :=
  λ w,
    let r := populate_workflow E (tick w) (deref w workflow) output_dir kwargs in
    let w1 :=
      set_heap (<[workflow := pw_mutated r]> (heap w))
        (emit (EvPopulate output_dir kwargs) (Z.of_nat (latency E (tick w))) w) in
    match pw_result r with
    | inl e => (Raise e, w1)
    | inr None => (Return workflow, w1)
    | inr (Some j) => (Return (length (heap w1)), set_heap (heap w1 ++ [j]) w1)
    end.

(** [retrieve_workflow_outputs(workflow, output_dir)] *)
Definition utils_retrieve_workflow_outputs (workflow : nat) (output_dir : Path)
  : M World Json :=
  λ w,
    let w' := emit (EvRetrieve output_dir) (Z.of_nat (latency E (tick w))) w in
    match retrieve_workflow_outputs E (tick w) (deref w workflow) output_dir with
    | inl e => (Raise e, w')
    | inr v => (Return v, w')
    end.

(** ** The module *)

(** [_probe_comfyui_server] *)
Definition _probe_comfyui_server (port : Z) : M World unit :=
  request_urlopen (GetMappings port);;
  request_urlopen (ObjectInfo port);;
  mret tt.

(** [_is_port_in_use] *)
Definition _is_port_in_use (port : Z) (host : string) : M World bool :=
  r ← socket_connect host port;
  match r with
  | Accepted => mret true
  | Refused => mret false
  | ConnectFailed => mret true
  end.

(** The [while] loop of [_wait_for_startup]. *)
Fixpoint _wait_for_startup_loop (fuel : nat) (port start_time timeout : Z)
  : M World unit :=
  match fuel with
  | O => out_of_fuel
  | S fuel' =>
      t ← time_time;
      if t - start_time <? timeout then
        ready ← try_except (_probe_comfyui_server port;; mret true)
                  (λ _, time_sleep 1;; mret false);
        if ready : bool then mret tt
        else _wait_for_startup_loop fuel' port start_time timeout
      else raise (TimeoutError "ComfyUI server failed to start")
  end.

(** [_wait_for_startup] *)
Definition _wait_for_startup (fuel : nat) (host : string) (port timeout : Z)
  : M World unit :=
  start_time ← time_time;
  _wait_for_startup_loop fuel port start_time timeout.

(** *** class ComfyUIServer *)

(** The attributes of the object.  A port is an integer here: the source
    also takes it as a string, which [_is_port_in_use] turns into an
    integer before use. *)
Record ComfyUIServer : Type := mkComfyUIServer {
  workspace : string;
  input_dir : string;
  port : Z;
  verbose : Z;
  host : string;
  proc : option Popen }.

Definition with_port (p : Z) (s : ComfyUIServer) : ComfyUIServer :=
  {| workspace := workspace s; input_dir := input_dir s; port := p;
     verbose := verbose s; host := host s; proc := proc s |}.

Definition with_proc (p : option Popen) (s : ComfyUIServer) : ComfyUIServer :=
  {| workspace := workspace s; input_dir := input_dir s; port := port s;
     verbose := verbose s; host := host s; proc := p |}.

(** A method runs on the object and the world. *)
Definition Self : Type := ComfyUIServer * World.

Definition lift {A : Type} (m : M World A) : M Self A :=
  λ sw, let (r, w') := m sw.2 in (r, (sw.1, w')).

Definition get_self : M Self ComfyUIServer := λ sw, (Return sw.1, sw).

Definition set_port (p : Z) : M Self unit :=
  λ sw, (Return tt, (with_port p sw.1, sw.2)).

Definition set_proc (p : option Popen) : M Self unit :=
  λ sw, (Return tt, (with_proc p sw.1, sw.2)).

(** [_ensure_directories] *)
Definition _ensure_directories (workspace input_dir : string) : M World unit :=
  Path_mkdir [workspace];;
  Path_mkdir [input_dir].

(** [__init__] *)
Definition __init__ (workspace input_dir : string) (port : option Z)
  (verbose : Z) : M World ComfyUIServer :=
  p ← match port with
      | Some n => if n =? 0 then random_randint 10000 65535 else mret n
      | None => random_randint 10000 65535
      end;
  _ensure_directories workspace input_dir;;
  mret {| workspace := workspace; input_dir := input_dir; port := p;
          verbose := verbose; host := "127.0.0.1"; proc := None |}.

(** [s * n] for a string [s] *)
Fixpoint str_times (s : string) (n : nat) : string :=
  match n with
  | O => EmptyString
  | S k => s +:+ str_times s k
  end.

(** [stop] *)
Definition stop : M Self unit :=
  self ← get_self;
  match proc self with
  | Some p =>
      lift (Popen_terminate p);;
      try_except_only is_TimeoutExpired
        (lift (Popen_wait p 5))
        (λ _, lift (Popen_kill p));;
      set_proc None
  | None => mret tt
  end.

(** The [while _is_port_in_use(...)] loop of [start]. *)
Fixpoint start_port_loop (fuel : nat) : M Self unit :=
  match fuel with
  | O => out_of_fuel
  | S fuel' =>
      self ← get_self;
      in_use ← lift (_is_port_in_use (port self) (host self));
      if in_use : bool then
        p ← lift (random_randint 10000 65535);
        set_port p;;
        start_port_loop fuel'
      else mret tt
  end.

(** The argument list of the [Popen] call of [start]. *)
Definition start_popen_args (self : ComfyUIServer) : PopenArgs :=
  {| command :=
       ["python"; "-m"; "comfy.cli.main"] ++
       (if verbose self =? 0 then []
        else ["-" +:+ str_times "v" (Z.to_nat (verbose self))]);
     env_COMFY_PORT := port self;
     cwd := workspace self;
     stdout := if verbose self =? 0 then PIPE else INHERIT;
     stderr := if verbose self =? 0 then PIPE else INHERIT |}.

(** [start] *)
Definition start (fuel : nat) : M Self unit :=
  self ← get_self;
  match proc self with
  | Some _ => mret tt
  | None =>
      start_port_loop fuel;;
      self ← get_self;
      p ← lift (subprocess_Popen (start_popen_args self));
      set_proc (Some p);;
      try_except
        (lift (_wait_for_startup fuel (host self) (port self) 1800))
        (λ e,
           stop;;
           raise (RuntimeError ("Failed to start ComfyUI server: " +:+ str_exn e)
                    (Some e)))
  end.

(** *** run_workflow *)

(** The [while ... else] loop of [run_workflow]: leaving through [break]
    is a return, the [else] branch raises. *)
Fixpoint run_workflow_poll (fuel : nat) (host : string) (port : Z)
  (prompt_id : Json) (start_time timeout : Z) : M World unit :=
  match fuel with
  | O => out_of_fuel
  | S fuel' =>
      t ← time_time;
      if t - start_time <? timeout then
        resp ← request_urlopen (History host port prompt_id);
        history ← json_loads resp;
        outputs ← lift_sum (getitem history "outputs");
        if truthy outputs then mret tt
        else
          time_sleep 1;;
          run_workflow_poll fuel' host port prompt_id start_time timeout
      else raise (TimeoutError "Workflow execution timed out")
  end.

(** The body of the [try] statement of [run_workflow]. *)
Definition run_workflow_try (fuel : nat) (host : string) (port : Z)
  (workflow : nat) (output_dir : Path) (timeout : Z) : M World Json :=
  prompt ← read workflow;
  resp ← request_urlopen (Prompt host port (JObj [("prompt", prompt)]));
  body ← json_loads resp;
  prompt_id ← lift_sum (getitem body "prompt_id");
  start_time ← time_time;
  run_workflow_poll fuel host port prompt_id start_time timeout;;
  utils_retrieve_workflow_outputs workflow output_dir.

(** The [except Exception as e] clause of [run_workflow]. *)
Definition run_workflow_except {A : Type} (e : Exn) : M World A :=
  if is_TimeoutError e then raise e
  else raise (RuntimeError ("Workflow execution failed: " +:+ str_exn e) (Some e)).

(** Lines 236-244 of [run_workflow]: the output directory, then the copy
    of the workflow with the inputs filled in. *)
Definition run_workflow_prepare (workflow : nat) (output_dir : PyArg)
  (workspace : PyArg) (kwargs : Kwargs) : M World (nat * Path) :=
  output_dir ←
    (if is_None output_dir then
       ws ← lift_sum (to_Path workspace);
       u ← uuid_uuid4;
       let d := ws ++ ["output"; u] in
       Path_mkdir d;;
       mret d
     else lift_sum (to_Path output_dir));
  workflow ← copy_deepcopy workflow;
  workflow ← utils_populate_workflow workflow output_dir kwargs;
  mret (workflow, output_dir).

(** [run_workflow]; [workflow] is a reference to the caller's dictionary. *)
Definition run_workflow (fuel : nat) (host : string) (port : Z)
  (workflow : nat) (output_dir : PyArg) (timeout : Z) (verbose : Json)
  (workspace : PyArg) (kwargs : Kwargs) : M World Json :=
  prepared ← run_workflow_prepare workflow output_dir workspace kwargs;
  try_except
    (run_workflow_try fuel host port prepared.1 prepared.2 timeout)
    run_workflow_except.

(** Binding [**inputs] at a call of [run_workflow]: a key that names a
    parameter the call already fills is a [TypeError]. *)
Definition duplicate_keyword (taken : list string) (inputs : Kwargs)
  : option string :=
  fst <$> List.find (λ kv, existsb (String.eqb kv.1) taken) inputs.

Definition bind_inputs (taken : list string) (inputs : Kwargs) : M World unit :=
  match duplicate_keyword taken inputs with
  | Some k =>
      raise (TypeError
               ("run_workflow() got multiple values for keyword argument '"
                  +:+ k +:+ "'"))
  | None => mret tt
  end.

(** The keys of [**inputs] that reach [**kwargs] of the callee. *)
Definition rest_kwargs (named : list string) (inputs : Kwargs) : Kwargs :=
  List.filter (λ kv, negb (existsb (String.eqb kv.1) named)) inputs.

(** Lines 136-140 of [execute_workflow]: the session's output directory. *)
Definition execute_workflow_output_dir (self : ComfyUIServer)
  (session_id : string) : M World Path :=
  session_id ←
    (if String.eqb session_id EmptyString then uuid_uuid4 else mret session_id);
  let output_dir := [workspace self; "output"; session_id] in
  Path_mkdir output_dir;;
  mret output_dir.

(** The call of [run_workflow] inside the [try] of [execute_workflow]. *)
Definition execute_workflow_call (fuel : nat) (self : ComfyUIServer)
  (workflow : nat) (inputs : Kwargs) (output_dir : Path) (timeout : Z)
  : M World Json :=
  bind_inputs
    ["host"; "port"; "workflow"; "output_dir"; "timeout"; "verbose";
     "workspace"] inputs;;
  run_workflow fuel (host self) (port self) workflow (ArgPath output_dir)
    timeout (JNum (verbose self)) (ArgVal (JStr (workspace self))) inputs.

(** The [except Exception as e] clause of [execute_workflow]. *)
Definition execute_workflow_except {A : Type} (e : Exn) : M World A :=
  raise (RuntimeError ("Workflow execution failed: " +:+ str_exn e) (Some e)).

(** [ComfyUIServer.execute_workflow] *)
Definition execute_workflow (fuel : nat) (self : ComfyUIServer)
  (workflow : nat) (inputs : Kwargs) (session_id : string) (timeout : Z)
  : M World Json :=
  output_dir ← execute_workflow_output_dir self session_id;
  try_except
    (execute_workflow_call fuel self workflow inputs output_dir timeout)
    execute_workflow_except.

(** [execute_remote_workflow]; the call of [run_workflow] leaves
    [output_dir], [verbose] and [workspace] to their defaults unless
    [**inputs] names them. *)
Definition execute_remote_workflow (fuel : nat) (server_url : string)
  (workflow : nat) (inputs : Kwargs) (session_id : string) (timeout : Z)
  : M World Json :=
  try_except
    (parsed ← lift_sum (urlparse E server_url);
     let host :=
       match hostname parsed with
       | Some h => if String.eqb h EmptyString then "localhost" else h
       | None => "localhost"
       end in
     p ← lift_sum (url_port parsed);
     let port :=
       match p with
       | Some n => if n =? 0 then 8188 else n
       | None => 8188
       end in
     bind_inputs ["host"; "port"; "workflow"; "timeout"] inputs;;
     run_workflow fuel host port workflow
       (ArgVal (default JNull (dict_get "output_dir" inputs)))
       timeout
       (default (JNum 0) (dict_get "verbose" inputs))
       (ArgVal (default (JStr ".") (dict_get "workspace" inputs)))
       (rest_kwargs ["output_dir"; "verbose"; "workspace"] inputs))
    (λ e,
       raise (RuntimeError ("Remote workflow execution failed: " +:+ str_exn e)
                (Some e))).

End Program.

(** ** comfy_pack.schema *)

Module schema.

(** [config.ComfyPackSettings].  A field of type [Path] is held as the
    string the path is written as, which is what [str] gives back. *)
Record ComfyPackSettings : Type := mkComfyPackSettings {
  workspace_root : string;
  input_dir : string;
  model_cache_dir : string;
  host : string;
  port : Z;
  request_timeout : Z;
  gpu_enabled : bool;
  max_batch_size : Z;
  verbose : bool;
  log_level : string;
  comfyui_server_url : option string }.

(** [workflow.WorkflowMetadata] *)
Record WorkflowMetadata : Type := mkWorkflowMetadata {
  version : string;
  created_at : string;
  tags : list string;
  description : option string }.

(** [metadata.dict()] *)
Definition WorkflowMetadata_dict (m : WorkflowMetadata)
  : list (string * Json) :=
  [("version", JStr (version m));
   ("created_at", JStr (created_at m));
   ("tags", JArr (JStr <$> tags m));
   ("description", from_option JStr JNull (description m))].

(** [workflow.WorkflowExecutionRequest], once validated. *)
Record WorkflowExecutionRequest : Type := mkWorkflowExecutionRequest {
  workflow_id : string;
  inputs : Kwargs;
  session_id : string;
  metadata : option WorkflowMetadata }.

End schema.

(** ** comfy_pack.litserve.api: class ComfyLitAPI

    The calls of [logger] are left out: they change nothing the methods
    or their callers read. *)

Module api.

(** The attributes of the object.  [server] is the [ComfyUIServer] the
    object refers to, which no one else holds. *)
Record ComfyLitAPI : Type := mkComfyLitAPI {
  settings : schema.ComfyPackSettings;
  server : option ComfyUIServer }.

Definition with_server (s : option ComfyUIServer) (a : ComfyLitAPI)
  : ComfyLitAPI :=
  {| settings := settings a; server := s |}.

(** A method runs on the object and the world. *)
Definition Self : Type := ComfyLitAPI * World.

Definition lift {A : Type} (m : M World A) : M Self A :=
  λ aw, let (r, w') := m aw.2 in (r, (aw.1, w')).

Definition get_self : M Self ComfyLitAPI := λ aw, (Return aw.1, aw).

Definition set_server (s : ComfyUIServer) : M Self unit :=
  λ aw, (Return tt, (with_server (Some s) aw.1, aw.2)).

(** [self.server.m()] for the server object [s] that [self.server]
    refers to: what the method does to the server is seen through
    [self.server] afterwards, whatever the outcome. *)
Definition on_server {A : Type} (s : ComfyUIServer)
  (m : M (ComfyUIServer * World) A) : M Self A :=
  λ aw,
    let '(r, (s', w')) := m (s, aw.2) in
    (r, (with_server (Some s') aw.1, w')).

(** Truth value of [self.settings.comfyui_server_url], an optional
    string. *)
Definition url_given (st : schema.ComfyPackSettings) : bool :=
  match schema.comfyui_server_url st with
  | Some u => negb (String.eqb u EmptyString)
  | None => false
  end.

(** A new object with the given content, at a fresh address. *)
Definition new_object (j : Json) : M World nat :=
  λ w, (Return (length (heap w)), set_heap (heap w ++ [j]) w).

(** The ["metadata"] entry of both answers of [predict]. *)
Definition predict_metadata (request : schema.WorkflowExecutionRequest)
  : Json :=
  JObj (("workflow_id", JStr (schema.workflow_id request)) ::
        match schema.metadata request with
        | Some m => schema.WorkflowMetadata_dict m
        | None => []
        end).

(** The dictionary [predict] returns from its [try]. *)
Definition predict_completed (request : schema.WorkflowExecutionRequest)
  (result : Json) : Json :=
  JObj [("session_id", JStr (schema.session_id request));
        ("status", JStr "completed");
        ("outputs", result);
        ("metadata", predict_metadata request)].

(** The dictionary [predict] returns from its [except] clause, which uses
    [str(e)] only. *)
Definition predict_failed (request : schema.WorkflowExecutionRequest)
  (error : string) : Json :=
  JObj [("session_id", JStr (schema.session_id request));
        ("status", JStr "failed");
        ("outputs", JObj []);
        ("error", JStr error);
        ("metadata", predict_metadata request)].

Section Api.

Context (E : Env).

(** [_ensure_directories] *)
Definition _ensure_directories (st : schema.ComfyPackSettings)
  : M World unit :=
  Path_mkdir E [schema.workspace_root st];;
  Path_mkdir E [schema.input_dir st];;
  Path_mkdir E [schema.model_cache_dir st].

(** [setup]; [device] is not used. *)
Definition setup (fuel : nat) (device : string) : M Self unit :=
  self ← get_self;
  lift (_ensure_directories (settings self));;
  if url_given (settings self) then mret tt
  else
    s ← lift (__init__ E
                (schema.workspace_root (settings self))
                (schema.input_dir (settings self))
                None
                (Z.b2z (schema.verbose (settings self))));
    set_server s;;
    on_server s (start E fuel).

(** [predict].  The workflow handed to the executors is the string
    [request.workflow_id]; both calls leave [timeout] to its default of
    300.  Without a server object the call [self.server.execute_workflow]
    is an [AttributeError] before any argument is looked at, which the
    [except] clause catches like the exceptions of the executors. *)
Definition predict (fuel : nat) (self : ComfyLitAPI)
  (request : schema.WorkflowExecutionRequest) : M World Json :=
  let answer (call : nat → M World Json) : M World Json :=
    try_except
      (workflow ← new_object (JStr (schema.workflow_id request));
       result ← call workflow;
       mret (predict_completed request result))
      (λ e, mret (predict_failed request (str_exn e))) in
  if url_given (settings self) then
    answer (λ workflow,
      execute_remote_workflow E fuel
        (default EmptyString (schema.comfyui_server_url (settings self)))
        workflow (schema.inputs request) (schema.session_id request) 300)
  else
    match server self with
    | Some s =>
        answer (λ workflow,
          execute_workflow E fuel s workflow (schema.inputs request)
            (schema.session_id request) 300)
    | None =>
        mret (predict_failed request
                "'NoneType' object has no attribute 'execute_workflow'")
    end.

(** [cleanup] *)
Definition cleanup : M Self unit :=
  self ← get_self;
  match server self with
  | Some s => on_server s (stop E)
  | None => mret tt
  end.

End Api.

(** [__init__]; [from_environment] is what [ComfyPackSettings()] reads
    from the process environment. *)
Definition __init__ (settings : option schema.ComfyPackSettings)
  (from_environment : schema.ComfyPackSettings) : ComfyLitAPI :=
  {| settings := default from_environment settings; server := None |}.

End api.

(** ** comfy_pack.schema.workflow: the validator of [inputs] *)

(** The Python values the validator tells apart: a [pathlib.Path], a
    [dict] (with string keys, as in a decoded request), a [list], and
    what is none of these: a tuple, which may hold any value, and the
    scalars. *)
Inductive PyObj : Type :=
| PyPath (p : Path)
| PyDict (kvs : list (string * PyObj))
| PyList (xs : list PyObj)
| PyTuple (xs : list PyObj)
| PyNone
| PyBool (b : bool)
| PyInt (n : Z)
| PyStr (s : string).

Section ValidateInputs.

(** [str(p)] for a [Path]. *)
Context (Path_str : Path → string).

(** [convert_paths], the function inside [validate_inputs]. *)
Fixpoint convert_paths (obj : PyObj) : PyObj :=
  match obj with
  | PyPath p => PyStr (Path_str p)
  | PyDict kvs => PyDict (map (λ '(k, v), (k, convert_paths v)) kvs)
  | PyList xs => PyList (map convert_paths xs)
  | _ => obj
  end.

(** [WorkflowExecutionRequest.validate_inputs] *)
Definition validate_inputs (v : PyObj) : PyObj := convert_paths v.

End ValidateInputs.

(** A [Path] that is met going down through dictionaries and lists. *)
Fixpoint has_path (obj : PyObj) : bool :=
  match obj with
  | PyPath _ => true
  | PyDict kvs => existsb (λ '(_, v), has_path v) kvs
  | PyList xs => existsb has_path xs
  | _ => false
  end.



(** ** comfy_pack.cli: the inputs of [run] *)

(** [s.lstrip("-")] *)
Fixpoint lstrip_dash (s : string) : string :=
  match s with
  | String "-"%char s' => lstrip_dash s'
  | _ => s
  end.

(** [s.replace("-", "_")] *)
Fixpoint replace_dash (s : string) : string :=
  match s with
  | EmptyString => EmptyString
  | String c s' =>
      String (if Ascii.eqb c "-"%char then "_"%char else c) (replace_dash s')
  end.

(** [l[::2]] *)
Fixpoint every_other {A : Type} (l : list A) : list A :=
  match l with
  | x :: _ :: l' => x :: every_other l'
  | _ => l
  end.

(** [dict[k] = v]: a key that is there keeps its place. *)
Fixpoint dict_set {A : Type} (k : string) (v : A) (d : list (string * A))
  : list (string * A) :=
  match d with
  | [] => [(k, v)]
  | (k', v') :: d' =>
      if String.eqb k k' then (k, v) :: d' else (k', v') :: dict_set k v d'
  end.

(** [dict(pairs)] *)
Definition dict_of_pairs {A : Type} (pairs : list (string * A))
  : list (string * A) :=
  foldl (λ d kv, dict_set kv.1 kv.2 d) [] pairs.

(** [d.get(k)] *)
Fixpoint dict_lookup {A : Type} (k : string) (d : list (string * A))
  : option A :=
  match d with
  | [] => None
  | (k', v) :: d' => if String.eqb k k' then Some v else dict_lookup k d'
  end.

(** Lines 117-119 of [run]: the dictionary of inputs made of the
    arguments that follow the options, [ctx.args]. *)
Definition run_inputs (args : list string) : list (string * string) :=
  dict_of_pairs
    (zip ((λ k, replace_dash (lstrip_dash k)) <$> every_other args)
         (every_other (tail args))).

(** The characters of a string. *)
Fixpoint chars (s : string) : list Ascii.ascii :=
  match s with
  | EmptyString => []
  | String c s' => c :: chars s'
  end.

(** The arguments taken two by two; a last one left alone is not in. *)
Fixpoint arg_pairs (l : list string) : list (string * string) :=
  match l with
  | a :: b :: l' => (a, b) :: arg_pairs l'
  | _ => []
  end.

(** ** Sample environments and objects *)

(** An engine that never answers: every connection is refused, the child
    is launched and exits as soon as it is asked to. *)
Definition dead_env : Env :=
  {| latency := λ _, 0%nat;
     sock_connect := λ _ _ _, Refused;
     random_draw := λ _, 0;
     os_spawn := λ _ _, None;
     exit_delay := λ _ _, Some 0%nat;
     http := λ _ _, inl (URLError "[Errno 111] Connection refused");
     fs_mkdir := λ _ _, None;
     uuid4 := λ _, "uuid-0";
     urlparse := λ _,
       inr {| hostname := Some "engine.example"; url_port := inr (Some 8188) |};
     populate_workflow := λ _ j out kw,
       {| pw_mutated := JObj [("populated", j)]; pw_result := inr None |};
     retrieve_workflow_outputs := λ _ _ _, inr (JArr [JStr "out.png"]) |}.

Definition with_http (f : nat → Request → HttpResult) (E : Env) : Env :=
  {| latency := latency E; sock_connect := sock_connect E;
     random_draw := random_draw E; os_spawn := os_spawn E;
     exit_delay := exit_delay E; http := f; fs_mkdir := fs_mkdir E;
     uuid4 := uuid4 E; urlparse := urlparse E;
     populate_workflow := populate_workflow E;
     retrieve_workflow_outputs := retrieve_workflow_outputs E |}.

Definition with_sock_connect (f : nat → string → Z → ConnectOutcome) (E : Env)
  : Env :=
  {| latency := latency E; sock_connect := f;
     random_draw := random_draw E; os_spawn := os_spawn E;
     exit_delay := exit_delay E; http := http E; fs_mkdir := fs_mkdir E;
     uuid4 := uuid4 E; urlparse := urlparse E;
     populate_workflow := populate_workflow E;
     retrieve_workflow_outputs := retrieve_workflow_outputs E |}.

Definition with_exit_delay (f : nat → nat → option nat) (E : Env) : Env :=
  {| latency := latency E; sock_connect := sock_connect E;
     random_draw := random_draw E; os_spawn := os_spawn E;
     exit_delay := f; http := http E; fs_mkdir := fs_mkdir E;
     uuid4 := uuid4 E; urlparse := urlparse E;
     populate_workflow := populate_workflow E;
     retrieve_workflow_outputs := retrieve_workflow_outputs E |}.

(** An engine that is ready at once, accepts a job as ["abc123"] and
    reports an output from the [k]-th effect on. *)
Definition ready_http (k : nat) (n : nat) (req : Request) : HttpResult :=
  match req with
  | GetMappings _ | ObjectInfo _ => inr (Some (JObj []))
  | Prompt _ _ _ => inr (Some (JObj [("prompt_id", JStr "abc123")]))
  | History _ _ _ =>
      if (n <? k)%nat
      then inr (Some (JObj [("outputs", JObj [])]))
      else inr (Some (JObj [("outputs", JObj [("image", JArr [JStr "out.png"])])]))
  end.

Definition ready_env (k : nat) : Env := with_http (ready_http k) dead_env.

(** An engine whose readiness endpoints fail before the [k]-th effect. *)
Definition late_http (k : nat) (n : nat) (req : Request) : HttpResult :=
  match req with
  | GetMappings _ | ObjectInfo _ =>
      if (n <? k)%nat then inl (URLError "[Errno 111] Connection refused")
      else inr (Some (JObj []))
  | _ => ready_http 0 n req
  end.

Definition late_env (k : nat) : Env := with_http (late_http k) dead_env.

(** An engine that accepts a job and never reports an output. *)
Definition stuck_http (n : nat) (req : Request) : HttpResult :=
  match req with
  | GetMappings _ | ObjectInfo _ => inr (Some (JObj []))
  | Prompt _ _ _ => inr (Some (JObj [("prompt_id", JStr "abc123")]))
  | History _ _ _ => inr (Some (JObj [("outputs", JObj [])]))
  end.

Definition stuck_env : Env := with_http stuck_http dead_env.

(** An engine whose answer to a submission has no ["prompt_id"]. *)
Definition no_id_http (n : nat) (req : Request) : HttpResult :=
  match req with
  | Prompt _ _ _ => inr (Some (JObj [("error", JStr "invalid prompt")]))
  | _ => inr (Some (JObj [("outputs", JObj [("image", JArr [])])]))
  end.

Definition no_id_env : Env := with_http no_id_http dead_env.

(** An engine that answers a status poll for a job that is not finished
    with an empty record. *)
Definition pending_http (n : nat) (req : Request) : HttpResult :=
  match req with
  | History _ _ _ => inr (Some (JObj []))
  | _ => ready_http 0 n req
  end.

Definition pending_env : Env := with_http pending_http dead_env.

(** Port 45000 has a listener; the engine is ready at once. *)
Definition busy_port_env : Env :=
  with_sock_connect
    (λ _ _ p, if p =? 45000 then Accepted else Refused) (ready_env 0).

(** A child that ignores the termination signal. *)
Definition stubborn_env : Env := with_exit_delay (λ _ _, None) dead_env.

Definition world0 : World :=
  {| now := 0; trace := []; running := [];
     heap := [JObj [("3", JObj [("class_type", JStr "KSampler")])]] |}.

Definition server0 : ComfyUIServer :=
  {| workspace := "/srv/ws"; input_dir := "input"; port := 45000;
     verbose := 0; host := "127.0.0.1"; proc := None |}.

(** Settings of a service that runs its own engine, and of one that uses
    an engine at a URL. *)
Definition settings0 : schema.ComfyPackSettings :=
  {| schema.workspace_root := "/tmp/comfy_workspace";
     schema.input_dir := "/tmp/comfy_input";
     schema.model_cache_dir := "/tmp/comfy_models";
     schema.host := "0.0.0.0";
     schema.port := 8000;
     schema.request_timeout := 3600;
     schema.gpu_enabled := true;
     schema.max_batch_size := 1;
     schema.verbose := false;
     schema.log_level := "INFO";
     schema.comfyui_server_url := None |}.

Definition remote_settings : schema.ComfyPackSettings :=
  {| schema.workspace_root := "/tmp/comfy_workspace";
     schema.input_dir := "/tmp/comfy_input";
     schema.model_cache_dir := "/tmp/comfy_models";
     schema.host := "0.0.0.0";
     schema.port := 8000;
     schema.request_timeout := 3600;
     schema.gpu_enabled := true;
     schema.max_batch_size := 1;
     schema.verbose := false;
     schema.log_level := "INFO";
     schema.comfyui_server_url := Some "http://engine.example:8188" |}.

Definition api0 : api.ComfyLitAPI := api.__init__ (Some settings0) settings0.

Definition remote_api : api.ComfyLitAPI :=
  api.__init__ (Some remote_settings) settings0.

Definition request0 : schema.WorkflowExecutionRequest :=
  {| schema.workflow_id := "txt2img";
     schema.inputs := [("seed", JNum 3)];
     schema.session_id := "sess";
     schema.metadata := None |}.

(** The events of [w'] that [w] does not have yet. *)
Definition new_events (w w' : World) : list Event :=
  take (length (trace w') - length (trace w)) (trace w').

(** ** Vocabulary for traces and environments *)

Definition is_spawn (e : Event) : bool :=
  match e with EvSpawn _ => true | _ => false end.

(** The effects of [_wait_for_startup]: the two probes and the pause. *)
Definition is_probe_event (e : Event) : bool :=
  match e with
  | EvHttp (GetMappings _) _ | EvHttp (ObjectInfo _) _ | EvSleep _ => true
  | _ => false
  end.

(** A readiness request, whatever its answer. *)
Definition is_readiness_request (e : Event) : bool :=
  match e with
  | EvHttp (GetMappings _) _ | EvHttp (ObjectInfo _) _ => true
  | _ => false
  end.

(** The effects of one more turn of the port loop of [start]: a check
    that found the candidate in use, and the draw of the next one. *)
Definition is_redraw (e : Event) : bool :=
  match e with
  | EvConnect _ _ Refused => false
  | EvConnect _ _ _ => true
  | EvRandint _ => true
  | _ => false
  end.

(** The effects of [stop]. *)
Definition is_stop_event (e : Event) : bool :=
  match e with
  | EvTerminate _ | EvWait _ _ _ | EvKill _ => true
  | _ => false
  end.

(** A status poll, whatever its answer. *)
Definition is_poll (e : Event) : bool :=
  match e with EvHttp (History _ _ _) _ => true | _ => false end.

(** The effects of the poll loop of [run_workflow]. *)
Definition is_poll_event (e : Event) : bool :=
  match e with
  | EvHttp (History _ _ _) _ | EvSleep _ => true
  | _ => false
  end.


(** The effects of [run_workflow] before its [try] statement. *)
Definition is_prepare_event (e : Event) : bool :=
  match e with
  | EvUuid _ | EvMkdir _ | EvPopulate _ _ => true
  | _ => false
  end.

(** The effects of [run_workflow] after the submission. *)
Definition is_completion_event (e : Event) : bool :=
  match e with
  | EvHttp (History _ _ _) _ | EvSleep _ | EvRetrieve _ => true
  | _ => false
  end.

(** A submission, whatever its answer. *)
Definition is_submission (e : Event) : bool :=
  match e with EvHttp (Prompt _ _ _) _ => true | _ => false end.

(** The body of a response has the field ["prompt_id"]. *)
Definition has_prompt_id (body : option Json) : bool :=
  match body with
  | Some (JObj kvs) =>
      match dict_get "prompt_id" kvs with Some _ => true | None => false end
  | _ => false
  end.

(** The answer to a status poll is a record whose outputs are empty. *)
Definition reports_no_output (res : HttpResult) : bool :=
  match res with
  | inr (Some record) =>
      match getitem record "outputs" with
      | inr outputs => negb (truthy outputs)
      | inl _ => false
      end
  | _ => false
  end.


(** ** Vocabulary for counting effects *)

Definition count_events (P : Event → bool) (l : list Event) : nat :=
  length (List.filter P l).

Definition is_sleep (e : Event) : bool :=
  match e with EvSleep _ => true | _ => false end.

(** A request to the first readiness endpoint: one per probe. *)
Definition is_mappings_request (e : Event) : bool :=
  match e with EvHttp (GetMappings _) _ => true | _ => false end.

Definition is_http (e : Event) : bool :=
  match e with EvHttp _ _ => true | _ => false end.

(** The effects on child processes. *)
Definition is_process_event (e : Event) : bool :=
  match e with
  | EvSpawn _ | EvSpawnFailed _ | EvTerminate _ | EvWait _ _ _ | EvKill _ => true
  | _ => false
  end.

(** Every process that is alive was spawned by an earlier effect. *)
Definition pids_known (w : World) : Prop :=
  Forall (λ q, (q < tick w)%nat) (running w).

(** The job identifier that the answer to a submission gives, or the
    exception that reading it raises (lines 256-257 of [run_workflow]). *)
Definition submission_id (res : HttpResult) : Exn + Json :=
  match res with
  | inl e => inl e
  | inr None => inl (JSONDecodeError "Expecting value")
  | inr (Some body) => getitem body "prompt_id"
  end.

(** The exception that the answer to a status poll provokes, if any
    (lines 264-266 of [run_workflow]). *)
Definition poll_failure (res : HttpResult) : option Exn :=
  match res with
  | inl e => Some e
  | inr None => Some (JSONDecodeError "Expecting value")
  | inr (Some record) =>
      match getitem record "outputs" with
      | inl e => Some e
      | inr _ => None
      end
  end.

(** A turn of the poll loop that goes on: a poll of job [id] at [h]:[p]
    that reported no output, or the pause after it. *)
Definition poll_turn (h : string) (p : Z) (id : Json) (e : Event) : Prop :=
  e = EvSleep 1 ∨
  ∃ res, e = EvHttp (History h p id) res ∧ reports_no_output res = true.

(** The output directory that [run_workflow] works with (lines 236-240):
    the one it is given, or a directory named by a fresh UUID under the
    workspace; [n] is the number of effects before the call. *)
Definition run_workflow_output_dir (E : Env) (od ws : PyArg) (n : nat)
  : Exn + Path :=
  if is_None od then
    match to_Path ws with
    | inl e => inl e
    | inr base => inr (base ++ ["output"; uuid4 E n])
    end
  else to_Path od.

(** The directory an effect is about. *)
Definition event_dir (e : Event) : option Path :=
  match e with
  | EvMkdir d | EvPopulate d _ | EvRetrieve d => Some d
  | _ => None
  end.

(** The parameters of [run_workflow] that the call of [execute_workflow]
    fills, and those that the call of [execute_remote_workflow] fills. *)
Definition local_call_names : list string :=
  ["host"; "port"; "workflow"; "output_dir"; "timeout"; "verbose";
   "workspace"].

Definition remote_call_names : list string :=
  ["host"; "port"; "workflow"; "timeout"].

(** Lines 192-193 of [execute_remote_workflow]:
    [parsed.hostname or "localhost"] and [parsed.port or 8188]. *)
Definition remote_host (parsed : ParsedUrl) : string :=
  match hostname parsed with
  | Some h => if String.eqb h EmptyString then "localhost" else h
  | None => "localhost"
  end.

Definition remote_port (po : option Z) : Z :=
  match po with
  | Some n => if n =? 0 then 8188 else n
  | None => 8188
  end.

(** The session of [execute_workflow] (lines 136-137): the one it is
    given, or a fresh UUID when that is empty. *)
Definition session_of (E : Env) (session_id : string) (n : nat) : string :=
  if String.eqb session_id EmptyString then uuid4 E n else session_id.

(** * Properties *)

(** Unfolds the monad's operations and the effects down to pairs. *)
Ltac run :=
  unfold mbind, M_bind, mret, M_ret, raise, out_of_fuel, try_except_only,
    try_except, lift, lift_sum, get_self, set_proc, set_port, time_time,
    time_sleep, read, json_loads in *;
  cbn [fst snd] in *.

Lemma not_elem_of_remove_pid (p : nat) (l : list nat) : p ∉ remove_pid p l.
Proof.
  unfold remove_pid. rewrite list_elem_of_filter. intros [Hne _]. by apply Hne.
Qed.

Lemma new_events_app (w w' : World) (l : list Event) :
  trace w' = l ++ trace w → new_events w w' = l.
Proof.
  intros Heq. unfold new_events. rewrite Heq, length_app.
  replace (length l + length (trace w) - length (trace w))%nat
    with (length l) by lia.
  apply take_app_length.
Qed.

Lemma tick_emit (e : Event) (dt : Z) (w : World) :
  tick (emit e dt w) = S (tick w).
Proof. reflexivity. Qed.

Lemma tick_set_running (r : list nat) (w : World) :
  tick (set_running r w) = tick w.
Proof. reflexivity. Qed.

Lemma tick_set_heap (h : list Json) (w : World) :
  tick (set_heap h w) = tick w.
Proof. reflexivity. Qed.

Section Properties.

Context (E : Env).

(** ** stop *)

Lemma stop_not_running (s : ComfyUIServer) (w : World) :
  proc s = None → stop E (s, w) = (Return tt, (s, w)).
Proof. intros Hp. unfold stop. run. by rewrite Hp. Qed.

(** [stop] on an object that holds a process. *)
Lemma stop_with_process (s : ComfyUIServer) (w : World) (p : Popen) :
  proc s = Some p →
  ∃ (exited : bool) (w' : World),
    stop E (s, w) = (Return tt, (with_proc None s, w')) ∧
    trace w' =
      (if exited then [] else [EvKill (pid p)]) ++
      EvWait (pid p) 5 exited :: EvTerminate (pid p) :: trace w ∧
    now w ≤ now w' ≤ now w + 5 ∧
    heap w' = heap w ∧
    pid p ∉ running w'.
Proof.
  intros Hp. unfold stop. run. rewrite Hp.
  unfold Popen_terminate, Popen_wait, Popen_kill.
  cbn [fst snd]. rewrite tick_emit.
  destruct (exit_delay E (S (tick w)) (pid p)) as [d|] eqn:Hd;
    [destruct (Z.of_nat d <=? 5) eqn:Hle|]; cbn.
  - exists true. eexists. split; [reflexivity|]. cbn.
    split_and!; try done; try lia. apply not_elem_of_remove_pid.
  - exists false. eexists. split; [reflexivity|]. cbn.
    split_and!; try done; try lia. apply not_elem_of_remove_pid.
  - exists false. eexists. split; [reflexivity|]. cbn.
    split_and!; try done; try lia. apply not_elem_of_remove_pid.
Qed.

(** C6.  [stop] never raises.  Without a process it changes nothing.  With
    a process [p] it sends the termination signal, waits for the exit with
    a timeout of 5 seconds, kills [p] exactly when that wait timed out, and
    in both cases returns with the handle cleared, [p] no longer alive and
    at most 5 seconds spent; a second [stop] then changes nothing and
    raises nothing. *)
Theorem stop_clears_process (s : ComfyUIServer) (w : World) :
  ∃ s' w',
    stop E (s, w) = (Return tt, (s', w')) ∧
    proc s' = None ∧
    match proc s with
    | None => s' = s ∧ w' = w
    | Some p =>
        ∃ exited : bool,
          trace w' =
            (if exited then [] else [EvKill (pid p)]) ++
            EvWait (pid p) 5 exited :: EvTerminate (pid p) :: trace w ∧
          now w ≤ now w' ≤ now w + 5 ∧
          pid p ∉ running w'
    end ∧
    stop E (s', w') = (Return tt, (s', w')).
Proof.
  destruct (proc s) as [p|] eqn:Hp.
  - destruct (stop_with_process s w p Hp)
      as (exited & w' & Hstop & Htr & Hnow & _ & Hnr).
    exists (with_proc None s), w'.
    split_and!; try done; try by apply stop_not_running.
    by exists exited.
  - exists s, w. rewrite stop_not_running by done. done.
Qed.

(** ** _wait_for_startup *)

(** What the loop of [_wait_for_startup] does, whatever its outcome: it
    only probes and pauses, and it returns only from a turn in which both
    endpoints answered. *)
Lemma wait_loop_events (fuel : nat) (p st tmo : Z) :
  ∀ (w : World) (r : Outcome unit) (w' : World),
    _wait_for_startup_loop E fuel p st tmo w = (r, w') →
    ∃ new,
      trace w' = new ++ trace w ∧
      Forall (λ e, is_probe_event e = true) new ∧
      running w' = running w ∧ heap w' = heap w ∧ now w ≤ now w' ∧
      (r = Return tt →
       ∃ b1 b2 mid,
         new = EvHttp (ObjectInfo p) (inr b2) ::
               EvHttp (GetMappings p) (inr b1) :: mid).
Proof.
  induction fuel as [|fuel IH]; intros w r w' Hrun.
  - cbn in Hrun. run. injection Hrun as <- <-.
    exists []. repeat split; try done; lia.
  - cbn [_wait_for_startup_loop] in Hrun. run.
    destruct (now w - st <? tmo).
    + unfold _probe_comfyui_server, request_urlopen in Hrun. run.
      destruct (http E (tick w) (GetMappings p)) as [e1|b1] eqn:H1.
      * apply IH in Hrun as (new & Htr & Hall & Hrn & Hhp & Hnow & Hret).
        cbn in Htr, Hrn, Hhp, Hnow.
        exists (new ++ [EvSleep 1; EvHttp (GetMappings p) (inl e1)]).
        rewrite <- app_assoc. split; [done|].
        split; [apply Forall_app; split; [done|by repeat constructor]|].
        repeat split; try done; [lia|].
        intros Hr. destruct (Hret Hr) as (b1 & b2 & mid & ->).
        by eexists _, _, _.
      * rewrite tick_emit in Hrun.
        destruct (http E (S (tick w)) (ObjectInfo p)) as [e2|b2] eqn:H2.
        -- apply IH in Hrun as (new & Htr & Hall & Hrn & Hhp & Hnow & Hret).
           cbn in Htr, Hrn, Hhp, Hnow.
           exists (new ++ [EvSleep 1; EvHttp (ObjectInfo p) (inl e2);
                           EvHttp (GetMappings p) (inr b1)]).
           rewrite <- app_assoc. split; [done|].
           split; [apply Forall_app; split; [done|by repeat constructor]|].
           repeat split; try done; [lia|].
           intros Hr. destruct (Hret Hr) as (c1 & c2 & mid & ->).
           by eexists _, _, _.
        -- injection Hrun as <- <-.
           exists [EvHttp (ObjectInfo p) (inr b2); EvHttp (GetMappings p) (inr b1)].
           cbn. repeat split; try done; [by repeat constructor|lia|].
           intros _. by eexists _, _, _.
    + injection Hrun as <- <-.
      exists []. repeat split; try done; lia.
Qed.

(** With fuel for every second of the budget the loop never stops for
    lack of fuel: every turn that does not end it takes a second. *)
Lemma wait_loop_total (fuel : nat) (p st tmo : Z) :
  ∀ w : World,
    (Z.to_nat (st + tmo - now w) < fuel)%nat →
    (_wait_for_startup_loop E fuel p st tmo w).1 ≠ OutOfFuel.
Proof.
  induction fuel as [|fuel IH]; intros w Hfuel; [lia|].
  cbn [_wait_for_startup_loop]. run.
  destruct (now w - st <? tmo) eqn:Hlt; [|done].
  apply Z.ltb_lt in Hlt.
  unfold _probe_comfyui_server, request_urlopen. run.
  destruct (http E (tick w) (GetMappings p)) as [e1|b1].
  - apply IH. cbn. lia.
  - rewrite tick_emit.
    destruct (http E (S (tick w)) (ObjectInfo p)) as [e2|b2]; [|done].
    apply IH. cbn. lia.
Qed.


(** ** start *)

Lemma with_port_same (s : ComfyUIServer) : with_port (port s) s = s.
Proof. by destruct s. Qed.

(** What the port loop of [start] does, whatever its outcome: it never
    raises, it changes nothing of the object but the port, and it returns
    right after a check that found the port of the object refused. *)
Lemma port_loop_events (fuel : nat) :
  ∀ (s : ComfyUIServer) (w : World) (r : Outcome unit) (s1 : ComfyUIServer)
    (w1 : World),
    start_port_loop E fuel (s, w) = (r, (s1, w1)) →
    ∃ new,
      trace w1 = new ++ trace w ∧
      running w1 = running w ∧ heap w1 = heap w ∧ now w ≤ now w1 ∧
      s1 = with_port (port s1) s ∧
      match r with
      | Return _ =>
          ∃ pre,
            new = EvConnect (host s) (port s1) Refused :: pre ∧
            Forall (λ e, is_redraw e = true) pre
      | Raise _ => False
      | OutOfFuel => Forall (λ e, is_redraw e = true) new
      end.
Proof.
  induction fuel as [|fuel IH]; intros s w r s1 w1 Hrun.
  - cbn in Hrun. run. injection Hrun as <- <- <-.
    exists []. rewrite with_port_same. repeat split; try done; lia.
  - cbn [start_port_loop] in Hrun.
    unfold _is_port_in_use, socket_connect, random_randint in Hrun. run.
    destruct (sock_connect E (tick w) (host s) (port s)) eqn:Hc.
    + apply IH in Hrun as (new & Htr & Hrn & Hhp & Hnow & Hs1 & Hr).
      cbn in Htr, Hrn, Hhp, Hnow, Hs1, Hr.
      eexists (new ++ [_; EvConnect (host s) (port s) Accepted]).
      rewrite <- app_assoc. split; [exact Htr|].
      split_and!; try done; try lia;
        try (rewrite Hs1; by destruct s).
      destruct r as [[]|e|]; [|done|].
      * destruct Hr as (pre & -> & Hpre).
        eexists. split; [reflexivity|].
        apply Forall_app; split; [done|by repeat constructor].
      * apply Forall_app; split; [done|by repeat constructor].
    + injection Hrun as <- <- <-.
      exists [EvConnect (host s) (port s) Refused].
      rewrite with_port_same. cbn. split_and!; try done; try lia.
      by exists [].
    + apply IH in Hrun as (new & Htr & Hrn & Hhp & Hnow & Hs1 & Hr).
      cbn in Htr, Hrn, Hhp, Hnow, Hs1, Hr.
      eexists (new ++ [_; EvConnect (host s) (port s) ConnectFailed]).
      rewrite <- app_assoc. split; [exact Htr|].
      split_and!; try done; try lia;
        try (rewrite Hs1; by destruct s).
      destruct r as [[]|e|]; [|done|].
      * destruct Hr as (pre & -> & Hpre).
        eexists. split; [reflexivity|].
        apply Forall_app; split; [done|by repeat constructor].
      * apply Forall_app; split; [done|by repeat constructor].
Qed.

(** One turn of the port loop: a refused connection ends it ... *)
Lemma port_loop_free (fuel : nat) (s : ComfyUIServer) (w : World) :
  sock_connect E (tick w) (host s) (port s) = Refused →
  start_port_loop E (S fuel) (s, w) =
    (Return tt,
     (s, emit (EvConnect (host s) (port s) Refused)
           (Z.of_nat (latency E (tick w))) w)).
Proof.
  intros Hc. cbn [start_port_loop].
  unfold _is_port_in_use, socket_connect. run. by rewrite Hc.
Qed.

(** ... and any other answer makes it draw a port between 10000 and
    65535 and start over with it. *)
Lemma port_loop_redraw (fuel : nat) (s : ComfyUIServer) (w : World) :
  sock_connect E (tick w) (host s) (port s) ≠ Refused →
  ∃ v,
    10000 ≤ v ≤ 65535 ∧
    start_port_loop E (S fuel) (s, w) =
    start_port_loop E fuel
      (with_port v s,
       emit (EvRandint v) 0
         (emit (EvConnect (host s) (port s)
                  (sock_connect E (tick w) (host s) (port s)))
            (Z.of_nat (latency E (tick w))) w)).
Proof.
  intros Hc.
  exists (10000 + random_draw E (S (tick w)) `mod` (65535 - 10000 + 1)).
  split.
  - pose proof (Z.mod_pos_bound (random_draw E (S (tick w)))
                  (65535 - 10000 + 1)).
    lia.
  - cbn [start_port_loop].
    unfold _is_port_in_use, socket_connect, random_randint. run.
    by destruct (sock_connect E (tick w) (host s) (port s)).
Qed.

(** [start] on an object without a process, phase by phase: the port
    loop, the launch, the wait for readiness, and [stop] when that wait
    raised. *)
Lemma start_phases (fuel : nat) (s : ComfyUIServer) (w : World) :
  proc s = None →
  start E fuel (s, w) =
    match start_port_loop E fuel (s, w) with
    | (Return _, (s1, w1)) =>
        match subprocess_Popen E (start_popen_args s1) w1 with
        | (Return p, w2) =>
            match _wait_for_startup E fuel (host s1) (port s1) 1800 w2 with
            | (Raise e, w3) =>
                (Raise
                   (RuntimeError
                      ("Failed to start ComfyUI server: " +:+ str_exn e)
                      (Some e)),
                 (stop E (with_proc (Some p) s1, w3)).2)
            | (r, w3) => (r, (with_proc (Some p) s1, w3))
            end
        | (Raise e, w2) => (Raise e, (s1, w2))
        | (OutOfFuel, w2) => (OutOfFuel, (s1, w2))
        end
    | (Raise e, sw) => (Raise e, sw)
    | (OutOfFuel, sw) => (OutOfFuel, sw)
    end.
Proof.
  intros Hp. unfold start. run. rewrite Hp.
  destruct (start_port_loop E fuel (s, w)) as [[[]|e|] [s1 w1]]; try done.
  cbn [fst snd].
  destruct (subprocess_Popen E (start_popen_args s1) w1) as [[p|e|] w2];
    try done.
  cbn [fst snd].
  destruct (_wait_for_startup E fuel (host s1) (port s1) 1800 w2)
    as [[[]|e|] w3]; try done.
  destruct (stop_with_process (with_proc (Some p) s1) w3 p)
    as (exited & w4 & -> & _); done.
Qed.

Lemma wait_for_startup_events (fuel : nat) (h : string) (p tmo : Z)
  (w : World) (r : Outcome unit) (w' : World) :
  _wait_for_startup E fuel h p tmo w = (r, w') →
  ∃ new,
    trace w' = new ++ trace w ∧
    Forall (λ e, is_probe_event e = true) new ∧
    running w' = running w ∧ heap w' = heap w ∧ now w ≤ now w' ∧
    (r = Return tt →
     ∃ b1 b2 mid,
       new = EvHttp (ObjectInfo p) (inr b2) ::
             EvHttp (GetMappings p) (inr b1) :: mid).
Proof. unfold _wait_for_startup. run. apply wait_loop_events. Qed.

(** The anatomy of a call of [start] on an object without a process.
    [pre] are the turns of the port loop that found a candidate in use. *)
Lemma start_anatomy (fuel : nat) (s : ComfyUIServer) (w : World)
  (r : Outcome unit) (s' : ComfyUIServer) (w' : World) :
  proc s = None →
  start E fuel (s, w) = (r, (s', w')) →
  ∃ pre,
    Forall (λ e, is_redraw e = true) pre ∧
    ((r = OutOfFuel ∧ trace w' = pre ++ trace w ∧ proc s' = None) ∨
     (∃ e,
        r = Raise e ∧ proc s' = None ∧
        trace w' =
          EvSpawnFailed (start_popen_args (with_port (port s') s)) ::
          EvConnect (host s) (port s') Refused :: pre ++ trace w) ∨
     (∃ p post,
        args p = start_popen_args (with_port (port s') s) ∧
        trace w' =
          post ++ EvSpawn p ::
          EvConnect (host s) (port s') Refused :: pre ++ trace w ∧
        Forall (λ e, (is_probe_event e || is_stop_event e) = true) post ∧
        match r with
        | Return _ =>
            proc s' = Some p ∧
            ∃ b1 b2 mid,
              post = EvHttp (ObjectInfo (port s')) (inr b2) ::
                     EvHttp (GetMappings (port s')) (inr b1) :: mid
        | Raise e =>
            proc s' = None ∧ (pid p ∉ running w') ∧
            ∃ c, e = RuntimeError
                       ("Failed to start ComfyUI server: " +:+ str_exn c)
                       (Some c)
        | OutOfFuel => proc s' = Some p
        end)).
Proof.
  intros Hp Hrun. rewrite start_phases in Hrun by done.
  destruct (start_port_loop E fuel (s, w)) as [r0 [s1 w1]] eqn:Hloop.
  apply port_loop_events in Hloop
    as (new & Htr1 & Hrn1 & Hhp1 & Hnow1 & Hs1 & Hr0).
  assert (Hp1 : proc s1 = None) by (rewrite Hs1; done).
  assert (Hh1 : host s1 = host s) by (rewrite Hs1; done).
  destruct r0 as [[]|e0|]; [|done|].
  2:{ injection Hrun as <- <- <-. exists new. split; [done|]. left. done. }
  destruct Hr0 as (pre & -> & Hpre). exists pre. split; [done|].
  unfold subprocess_Popen in Hrun.
  destruct (os_spawn E (tick w1) (start_popen_args s1)) as [e|] eqn:Hsp.
  { injection Hrun as <- <- <-. right. left. exists e.
    split_and!; try done. cbn. rewrite Htr1, <- Hs1. done. }
  set (p := {| pid := tick w1; args := start_popen_args s1 |}) in *.
  destruct (_wait_for_startup E fuel (host s1) (port s1) 1800 _)
    as [r3 w3] eqn:Hwait.
  apply wait_for_startup_events in Hwait
    as (post & Htr3 & Hpost & Hrn3 & Hhp3 & Hnow3 & Hret).
  cbn in Htr3. rewrite Htr1 in Htr3.
  assert (Hpost' : Forall (λ e, (is_probe_event e || is_stop_event e) = true) post).
  { eapply Forall_impl; [exact Hpost|]. intros e ->. done. }
  right. right.
  destruct r3 as [[]|e3|].
  - injection Hrun as <- <- <-. exists p, post. cbn [port with_proc].
    rewrite <- Hs1. split_and!; try done.
    destruct Hret as (b1 & b2 & mid & ->); [done|].
    by eexists _, _, _.
  - destruct (stop_with_process (with_proc (Some p) s1) w3 p)
      as (exited & w4 & Hstop & Htr4 & _ & _ & Hnr); [done|].
    rewrite Hstop in Hrun. injection Hrun as <- <- <-.
    eexists p, (_ ++ EvWait (pid p) 5 exited :: EvTerminate (pid p) :: post).
    cbn [port with_proc]. rewrite <- Hs1. split; [done|]. split.
    { rewrite Htr4, Htr3. by rewrite <- app_assoc. }
    split.
    { apply Forall_app. split; [by destruct exited; repeat constructor|].
      by repeat constructor. }
    split_and!; try done. by eexists.
  - injection Hrun as <- <- <-. exists p, post. cbn [port with_proc].
    rewrite <- Hs1. split_and!; done.
Qed.


(** The process that a call of [start] spawns: there is one at most, it
    is launched with the arguments computed from the object as the port
    loop left it, right after the check that found that port refused. *)
Lemma start_spawned (fuel : nat) (s : ComfyUIServer) (w : World)
  (r : Outcome unit) (s' : ComfyUIServer) (w' : World) (p : Popen) :
  proc s = None →
  start E fuel (s, w) = (r, (s', w')) →
  EvSpawn p ∈ new_events w w' →
  ∃ post pre,
    new_events w w' =
      post ++ EvSpawn p :: EvConnect (host s) (port s') Refused :: pre ∧
    args p = start_popen_args (with_port (port s') s) ∧
    Forall (λ e, is_redraw e = true) pre ∧
    Forall (λ e, is_spawn e = false) post.
Proof.
  intros Hp Hrun Hin.
  destruct (start_anatomy fuel s w r s' w' Hp Hrun)
    as (pre & Hpre & [(_ & Htr & _)|[(e & _ & _ & Htr)|Hlaunched]]).
  - rewrite (new_events_app w w' pre Htr) in Hin.
    rewrite Forall_forall in Hpre. by apply Hpre in Hin.
  - rewrite (new_events_app w w' (_ :: _ :: pre) Htr) in Hin.
    rewrite !elem_of_cons in Hin. destruct Hin as [?|[?|Hin]]; try done.
    rewrite Forall_forall in Hpre. by apply Hpre in Hin.
  - destruct Hlaunched as (p0 & post & Hargs & Htr & Hpost & _).
    assert (Hnew : new_events w w' =
              post ++ EvSpawn p0 :: EvConnect (host s) (port s') Refused :: pre).
    { apply new_events_app. rewrite Htr, <- app_assoc. done. }
    assert (Hpost' : Forall (λ e, is_spawn e = false) post).
    { eapply Forall_impl; [exact Hpost|]. by intros [] ?. }
    rewrite Hnew in Hin.
    rewrite elem_of_app, !elem_of_cons in Hin.
    destruct Hin as [Hin|[Heq|[?|Hin]]]; try done.
    + rewrite Forall_forall in Hpost'. by apply Hpost' in Hin.
    + injection Heq as ->. by exists post, pre.
    + rewrite Forall_forall in Hpre. by apply Hpre in Hin.
Qed.

(** C5, as the code has it.  A [start] that returns has either found the
    object with a process already, and then has done nothing at all, or
    has spawned the engine and then probed it: its last two effects are
    the two readiness requests, both answered. *)
Theorem start_returns_after_readiness (fuel : nat) (s : ComfyUIServer)
  (w : World) (s' : ComfyUIServer) (w' : World) :
  start E fuel (s, w) = (Return tt, (s', w')) →
  match proc s with
  | Some _ => s' = s ∧ w' = w
  | None =>
      ∃ p b1 b2 mid pre,
        proc s' = Some p ∧
        trace w' =
          EvHttp (ObjectInfo (port s')) (inr b2) ::
          EvHttp (GetMappings (port s')) (inr b1) ::
          mid ++ EvSpawn p :: pre ++ trace w
  end.
Proof.
  intros Hrun. destruct (proc s) as [p0|] eqn:Hp.
  - unfold start in Hrun. run. rewrite Hp in Hrun. by injection Hrun as <- <-.
  - destruct (start_anatomy fuel s w _ s' w' Hp Hrun)
      as (pre & _ & [(? & _)|[(e & ? & _)|Hlaunched]]); try done.
    destruct Hlaunched
      as (p & post & _ & Htr & _ & Hps & b1 & b2 & mid & ->).
    exists p, b1, b2, mid, (EvConnect (host s) (port s') Refused :: pre).
    done.
Qed.

(** C7.  The process that [start] spawns gets, as [COMFY_PORT], the port
    of the object, and the effect right before the launch is the check of
    that very port, answered by a refused connection, so not by an
    accepting listener; all that [start] did before are checks that found
    a candidate in use, each followed by the draw of the next candidate,
    and [start] spawns nothing else. *)
Theorem start_spawns_on_free_port (fuel : nat) (s : ComfyUIServer)
  (w : World) (r : Outcome unit) (s' : ComfyUIServer) (w' : World)
  (p : Popen) :
  proc s = None →
  start E fuel (s, w) = (r, (s', w')) →
  EvSpawn p ∈ new_events w w' →
  ∃ post pre,
    new_events w w' =
      post ++ EvSpawn p ::
      EvConnect (host s) (env_COMFY_PORT (args p)) Refused :: pre ∧
    Forall (λ e, is_redraw e = true) pre ∧
    Forall (λ e, is_spawn e = false) post ∧
    port s' = env_COMFY_PORT (args p).
Proof.
  intros Hp Hrun Hin.
  destruct (start_spawned fuel s w r s' w' p Hp Hrun Hin)
    as (post & pre & Hnew & -> & Hpre & Hpost).
  by exists post, pre.
Qed.

(** C8, as the code has it.  The process that [start] spawns has both its
    standard output and its standard error on [subprocess.PIPE] when the
    verbosity of the object is zero, and inherits both when it is not. *)
Theorem start_redirects_to_pipes (fuel : nat) (s : ComfyUIServer) (w : World)
  (r : Outcome unit) (s' : ComfyUIServer) (w' : World) (p : Popen) :
  proc s = None →
  start E fuel (s, w) = (r, (s', w')) →
  EvSpawn p ∈ new_events w w' →
  (verbose s = 0 → stdout (args p) = PIPE ∧ stderr (args p) = PIPE) ∧
  (verbose s ≠ 0 → stdout (args p) = INHERIT ∧ stderr (args p) = INHERIT).
Proof.
  intros Hp Hrun Hin.
  destruct (start_spawned fuel s w r s' w' p Hp Hrun Hin)
    as (post & pre & _ & -> & _).
  cbn. split.
  - by intros ->.
  - intros Hv. apply Z.eqb_neq in Hv. by rewrite Hv.
Qed.

(** ** The poll loop of run_workflow *)


(** What the poll loop does, whatever its outcome: it only polls and
    pauses, and it returns only right after a poll whose record has
    non-empty outputs. *)
Lemma poll_events (fuel : nat) (h : string) (p : Z) (id : Json) (st tmo : Z) :
  ∀ (w : World) (r : Outcome unit) (w' : World),
    run_workflow_poll E fuel h p id st tmo w = (r, w') →
    ∃ new,
      trace w' = new ++ trace w ∧
      Forall (λ e, is_poll_event e = true) new ∧
      running w' = running w ∧ heap w' = heap w ∧ now w ≤ now w' ∧
      (r = Return tt →
       ∃ record outputs rest,
         new = EvHttp (History h p id) (inr (Some record)) :: rest ∧
         getitem record "outputs" = inr outputs ∧
         truthy outputs = true).
Proof.
  induction fuel as [|fuel IH]; intros w r w' Hrun.
  - cbn in Hrun. run. injection Hrun as <- <-.
    exists []. split_and!; try done; lia.
  - cbn [run_workflow_poll] in Hrun. unfold request_urlopen in Hrun. run.
    destruct (now w - st <? tmo).
    + destruct (http E (tick w) (History h p id)) as [e|[record|]] eqn:Hres;
        run.
      * injection Hrun as <- <-. exists [EvHttp (History h p id) (inl e)].
        cbn. split_and!; try done; [by repeat constructor|lia].
      * destruct (getitem record "outputs") as [e|outputs] eqn:Hget; run.
        { injection Hrun as <- <-.
          exists [EvHttp (History h p id) (inr (Some record))].
          cbn. split_and!; try done; [by repeat constructor|lia]. }
        destruct (truthy outputs) eqn:Htruthy.
        { injection Hrun as <- <-.
          exists [EvHttp (History h p id) (inr (Some record))].
          cbn. split_and!; try done; [by repeat constructor|lia|].
          intros _. by eexists _, _, _. }
        apply IH in Hrun as (new & Htr & Hall & Hrn & Hhp & Hnow & Hret).
        cbn in Htr, Hrn, Hhp, Hnow.
        exists (new ++ [EvSleep 1; EvHttp (History h p id) (inr (Some record))]).
        rewrite <- app_assoc. split; [done|].
        split; [apply Forall_app; split; [done|by repeat constructor]|].
        split_and!; try done; [lia|].
        intros Hr. destruct (Hret Hr) as (rec' & out' & rest & -> & ? & ?).
        by eexists _, _, _.
      * injection Hrun as <- <-. exists [EvHttp (History h p id) (inr None)].
        cbn. split_and!; try done; [by repeat constructor|lia].
    + injection Hrun as <- <-.
      exists []. split_and!; try done; lia.
Qed.



(** With fuel for every second of the budget the loop never stops for
    lack of fuel. *)
Lemma poll_total (fuel : nat) (h : string) (p : Z) (id : Json) (st tmo : Z) :
  ∀ w : World,
    (Z.to_nat (st + tmo - now w) < fuel)%nat →
    (run_workflow_poll E fuel h p id st tmo w).1 ≠ OutOfFuel.
Proof.
  induction fuel as [|fuel IH]; intros w Hfuel; [lia|].
  cbn [run_workflow_poll]. unfold request_urlopen. run.
  destruct (now w - st <? tmo) eqn:Hlt; [|done].
  apply Z.ltb_lt in Hlt.
  destruct (http E (tick w) (History h p id)) as [e|[record|]]; try done.
  run.
  destruct (getitem record "outputs") as [e|outputs]; try done.
  run. destruct (truthy outputs); try done.
  apply IH. cbn. lia.
Qed.


(** ** run_workflow *)

Lemma insert_fresh (h : list Json) (v m : Json) :
  <[length h := m]> (h ++ [v]) = h ++ [m].
Proof.
  rewrite insert_app_r_alt by lia.
  by replace (length h - length h)%nat with 0%nat by lia.
Qed.

(** The steps of [run_workflow] before its [try]: they create objects and
    change none that existed. *)
Lemma prepare_events (wf : nat) (od ws : PyArg) (kw : Kwargs) (w : World)
  (r : Outcome (nat * Path)) (w1 : World) :
  run_workflow_prepare E wf od ws kw w = (r, w1) →
  ∃ pre ext,
    trace w1 = pre ++ trace w ∧
    Forall (λ e, is_prepare_event e = true) pre ∧
    heap w1 = heap w ++ ext ∧
    (∀ wf' out', r = Return (wf', out') → (length (heap w) ≤ wf')%nat).
Proof.
  unfold run_workflow_prepare, uuid_uuid4, Path_mkdir, copy_deepcopy,
    utils_populate_workflow.
  intros Hrun. run.
  destruct (is_None od).
  - destruct (to_Path ws) as [e|wsp]; run.
    { injection Hrun as <- <-. exists [], []. by rewrite app_nil_r. }
    destruct (fs_mkdir E _ _) as [e|]; run.
    { injection Hrun as <- <-. eexists [_; _], [].
      split_and!; [reflexivity|by repeat constructor|by rewrite app_nil_r|done]. }
    cbn in Hrun. rewrite insert_fresh in Hrun.
    destruct (pw_result _) as [e|[j|]]; injection Hrun as <- <-; cbn.
    + eexists [_; _; _], [_].
      split_and!; [reflexivity|by repeat constructor|done|done].
    + eexists [_; _; _], [_; j]. rewrite <- app_assoc.
      split_and!; [reflexivity|by repeat constructor|done|].
      intros ? ? [= <- <-]. rewrite length_app. lia.
    + eexists [_; _; _], [_].
      split_and!; [reflexivity|by repeat constructor|done|].
      by intros ? ? [= <- <-].
  - destruct (to_Path od) as [e|odp]; run.
    { injection Hrun as <- <-. exists [], []. by rewrite app_nil_r. }
    cbn in Hrun. rewrite insert_fresh in Hrun.
    destruct (pw_result _) as [e|[j|]]; injection Hrun as <- <-; cbn.
    + eexists [_], [_].
      split_and!; [reflexivity|by repeat constructor|done|done].
    + eexists [_], [_; j]. rewrite <- app_assoc.
      split_and!; [reflexivity|by repeat constructor|done|].
      intros ? ? [= <- <-]. rewrite length_app. lia.
    + eexists [_], [_].
      split_and!; [reflexivity|by repeat constructor|done|].
      by intros ? ? [= <- <-].
Qed.

Lemma getitem_prompt_id (body : Json) :
  match getitem body "prompt_id" with
  | inr _ => has_prompt_id (Some body) = true
  | inl c =>
      has_prompt_id (Some body) = false ∧ is_TimeoutError c = false ∧
      ∀ kvs, body = JObj kvs → c = KeyError "prompt_id"
  end.
Proof.
  destruct body as [| | | | |kvs]; cbn; try done.
  destruct (dict_get "prompt_id" kvs); done.
Qed.

(** The [try] body of [run_workflow]: one submission, then polls, pauses
    and the retrieval; when the answer to the submission has no
    ["prompt_id"] the body raises at once. *)
Lemma try_events (fuel : nat) (h : string) (p : Z) (wf : nat) (out : Path)
  (tmo : Z) (w : World) (r : Outcome Json) (w' : World) :
  run_workflow_try E fuel h p wf out tmo w = (r, w') →
  ∃ res post,
    trace w' =
      post ++ EvHttp (Prompt h p (JObj [("prompt", deref w wf)])) res :: trace w ∧
    Forall (λ e, is_completion_event e = true) post ∧
    heap w' = heap w ∧
    (∀ body,
       res = inr body → has_prompt_id body = false →
       post = [] ∧
       ∃ c, r = Raise c ∧ is_TimeoutError c = false ∧
            ∀ kvs, body = Some (JObj kvs) → c = KeyError "prompt_id").
Proof.
  unfold run_workflow_try, request_urlopen, utils_retrieve_workflow_outputs.
  intros Hrun. run.
  destruct (http E (tick w) _) as [e|[body|]] eqn:Hres; run.
  - injection Hrun as <- <-. eexists _, []. split_and!; try done.
  - pose proof (getitem_prompt_id body) as Hid.
    destruct (getitem body "prompt_id") as [c|id]; run.
    { injection Hrun as <- <-. eexists _, []. split_and!; try done.
      intros ? [= <-] _. destruct Hid as (_ & Hc & Hkey).
      split; [done|]. exists c. split_and!; try done.
      intros kvs [= ->]. by eapply Hkey. }
    destruct (run_workflow_poll E fuel h p id _ tmo _) as [r1 w1] eqn:Hpoll.
    apply poll_events in Hpoll as (new & Htr & Hall & _ & Hhp & _ & _).
    cbn in Htr, Hhp.
    assert (Hall' : Forall (λ e, is_completion_event e = true) new).
    { eapply Forall_impl; [exact Hall|]. by intros [] ?. }
    destruct r1 as [[]|e|].
    + destruct (retrieve_workflow_outputs E _ _ _) as [e|v];
        injection Hrun as <- <-; cbn.
      * eexists _, (_ :: new). rewrite Htr, Hhp.
        split_and!; [reflexivity|by constructor|done|].
        intros ? [= <-] Hno. congruence.
      * eexists _, (_ :: new). rewrite Htr, Hhp.
        split_and!; [reflexivity|by constructor|done|].
        intros ? [= <-] Hno. congruence.
    + injection Hrun as <- <-. eexists _, new. rewrite Htr, Hhp.
      split_and!; try done. intros ? [= <-] Hno. congruence.
    + injection Hrun as <- <-. eexists _, new. rewrite Htr, Hhp.
      split_and!; try done. intros ? [= <-] Hno. congruence.
  - injection Hrun as <- <-. eexists _, []. split_and!; try done.
    intros ? [= <-] _. split; [done|]. eexists. split_and!; done.
Qed.

(** C9.  [run_workflow] leaves the dictionary of its caller as it found
    it, whatever the outcome: the inputs and output paths are filled into
    a deep copy, and every object that existed before the call keeps its
    content. *)
Theorem run_workflow_keeps_workflow (fuel : nat) (h : string) (p : Z)
  (workflow : nat) (od : PyArg) (tmo : Z) (vb : Json) (ws : PyArg)
  (kw : Kwargs) (w : World) (r : Outcome Json) (w' : World) (d : Json) :
  heap w !! workflow = Some d →
  run_workflow E fuel h p workflow od tmo vb ws kw w = (r, w') →
  heap w' !! workflow = Some d ∧ ∃ ext, heap w' = heap w ++ ext.
Proof.
  intros Hd Hrun.
  assert (Hext : ∃ ext, heap w' = heap w ++ ext).
  { unfold run_workflow in Hrun. run.
    destruct (run_workflow_prepare E workflow od ws kw w)
      as [r0 w1] eqn:Hprep.
    apply prepare_events in Hprep as (pre & ext & _ & _ & Hhp & _).
    destruct r0 as [[wf' out']|e|]; try (injection Hrun as <- <-; by exists ext).
    cbn [fst snd] in Hrun.
    destruct (run_workflow_try E fuel h p wf' out' tmo w1)
      as [r1 w2] eqn:Htry.
    apply try_events in Htry as (res & post & _ & _ & Hhp2 & _).
    exists ext. rewrite <- Hhp, <- Hhp2.
    destruct r1 as [v|e|]; try (by injection Hrun as <- <-).
    unfold run_workflow_except in Hrun.
    destruct (is_TimeoutError e); by injection Hrun as <- <-. }
  split; [|done]. destruct Hext as (ext & ->).
  by apply lookup_app_l_Some.
Qed.

(** C2.  When the answer to the submission of a call of [run_workflow]
    has no ["prompt_id"], the call raises the [RuntimeError] of a failed
    execution (carrying the [KeyError] when the answer is a JSON object)
    and has sent no status poll. *)
Theorem run_workflow_missing_job_id (fuel : nat) (h : string) (p : Z)
  (workflow : nat) (od : PyArg) (tmo : Z) (vb : Json) (ws : PyArg)
  (kw : Kwargs) (w : World) (r : Outcome Json) (w' : World)
  (h' : string) (p' : Z) (b : Json) (body : option Json) :
  run_workflow E fuel h p workflow od tmo vb ws kw w = (r, w') →
  EvHttp (Prompt h' p' b) (inr body) ∈ new_events w w' →
  has_prompt_id body = false →
  (∃ c,
     r = Raise (RuntimeError ("Workflow execution failed: " +:+ str_exn c)
                  (Some c)) ∧
     ∀ kvs, body = Some (JObj kvs) → c = KeyError "prompt_id") ∧
  Forall (λ e, is_poll e = false) (new_events w w').
Proof.
  intros Hrun Hin Hno. unfold run_workflow in Hrun. run.
  destruct (run_workflow_prepare E workflow od ws kw w)
    as [r0 w1] eqn:Hprep.
  apply prepare_events in Hprep as (pre & ext & Htr1 & Hpre & _ & _).
  assert (Hnopre : EvHttp (Prompt h' p' b) (inr body) ∉ pre).
  { intros Hin'. rewrite Forall_forall in Hpre. by apply Hpre in Hin'. }
  destruct r0 as [[wf' out']|e|];
    try (injection Hrun as <- <-;
         by rewrite (new_events_app w w1 pre Htr1) in Hin).
  cbn [fst snd] in Hrun.
  destruct (run_workflow_try E fuel h p wf' out' tmo w1)
    as [r1 w2] eqn:Htry.
  apply try_events in Htry as (res & post & Htr2 & Hpost & _ & Hmissing).
  assert (Hw' : w' = w2).
  { destruct r1 as [v|e|]; try (by injection Hrun as <- <-).
    unfold run_workflow_except in Hrun.
    destruct (is_TimeoutError e); by injection Hrun as <- <-. }
  subst w'. rewrite Htr1 in Htr2.
  assert (Hnew : new_events w w2 =
            post ++ EvHttp (Prompt h p (JObj [("prompt", deref w1 wf')])) res :: pre).
  { apply new_events_app. by rewrite Htr2, <- app_assoc. }
  rewrite Hnew in Hin |- *.
  rewrite elem_of_app, elem_of_cons in Hin.
  destruct Hin as [Hin|[Heq|Hin]]; [|injection Heq as -> -> -> <-|done].
  { rewrite Forall_forall in Hpost. by apply Hpost in Hin. }
  destruct (Hmissing body eq_refl Hno) as (-> & c & -> & Hc & Hkey).
  unfold run_workflow_except in Hrun. rewrite Hc in Hrun.
  injection Hrun as <-. split; [by exists c|].
  constructor; [done|]. eapply Forall_impl; [exact Hpre|]. by intros [] ?.
Qed.

(** C4, as the code has it.  A failure [e] raised inside the [try] of
    [run_workflow] (submission, polling, retrieval) leaves [run_workflow]
    unchanged when it is a [TimeoutError] and wrapped in a [RuntimeError]
    that carries it otherwise; [execute_workflow] in turn wraps whatever
    leaves [run_workflow], the [TimeoutError] included, in a
    [RuntimeError] that carries it. *)
Theorem execute_workflow_wraps_failures (fuel : nat) (self : ComfyUIServer)
  (workflow : nat) (inputs : Kwargs) (session_id : string) (tmo : Z)
  (w : World) (out : Path) (w1 : World) (wf' : nat) (out' : Path)
  (w2 : World) (e : Exn) (w3 : World) :
  execute_workflow_output_dir E self session_id w = (Return out, w1) →
  duplicate_keyword
    ["host"; "port"; "workflow"; "output_dir"; "timeout"; "verbose";
     "workspace"] inputs = None →
  run_workflow_prepare E workflow (ArgPath out)
    (ArgVal (JStr (workspace self))) inputs w1 = (Return (wf', out'), w2) →
  run_workflow_try E fuel (host self) (port self) wf' out' tmo w2
    = (Raise e, w3) →
  let surfaced :=
    if is_TimeoutError e then e
    else RuntimeError ("Workflow execution failed: " +:+ str_exn e) (Some e) in
  run_workflow E fuel (host self) (port self) workflow (ArgPath out) tmo
    (JNum (verbose self)) (ArgVal (JStr (workspace self))) inputs w1
    = (Raise surfaced, w3) ∧
  execute_workflow E fuel self workflow inputs session_id tmo w
    = (Raise (RuntimeError ("Workflow execution failed: " +:+ str_exn surfaced)
                (Some surfaced)), w3).
Proof.
  intros Hdir Hdup Hprep Htry surfaced.
  assert (Hrw :
    run_workflow E fuel (host self) (port self) workflow (ArgPath out) tmo
      (JNum (verbose self)) (ArgVal (JStr (workspace self))) inputs w1
    = (Raise surfaced, w3)).
  { unfold run_workflow. run. rewrite Hprep. cbn [fst snd]. rewrite Htry.
    unfold run_workflow_except, surfaced. by destruct (is_TimeoutError e). }
  split; [done|].
  unfold execute_workflow. run. rewrite Hdir.
  unfold execute_workflow_call, bind_inputs. run. rewrite Hdup. run.
  by rewrite Hrw.
Qed.

(** The one directory that [run_workflow] may create: the default output
    directory, named by a fresh UUID under the workspace. *)
Lemma prepare_mkdir (wf : nat) (od ws : PyArg) (kw : Kwargs) (w : World)
  (r : Outcome (nat * Path)) (w1 : World) (d : Path) :
  run_workflow_prepare E wf od ws kw w = (r, w1) →
  EvMkdir d ∈ new_events w w1 →
  is_None od = true ∧
  ∃ wsp, to_Path ws = inr wsp ∧ d = wsp ++ ["output"; uuid4 E (tick w)].
Proof.
  unfold run_workflow_prepare, uuid_uuid4, Path_mkdir, copy_deepcopy,
    utils_populate_workflow.
  intros Hrun Hin. run.
  destruct (is_None od).
  - split; [done|].
    destruct (to_Path ws) as [e|wsp]; run.
    { injection Hrun as <- <-.
      erewrite (new_events_app w _ []) in Hin by reflexivity. by inversion Hin. }
    exists wsp. split; [done|].
    destruct (fs_mkdir E _ _) as [e|]; run.
    { injection Hrun as <- <-.
      erewrite (new_events_app w _ [_; _]) in Hin by reflexivity.
      rewrite !elem_of_cons in Hin.
      destruct Hin as [[= ->]|[?|Hin]]; try done. by inversion Hin. }
    cbn in Hrun.
    destruct (pw_result _) as [e|[j|]]; injection Hrun as <- <-;
      erewrite (new_events_app w _ [_; _; _]) in Hin by reflexivity;
      rewrite !elem_of_cons in Hin;
      destruct Hin as [?|[[= ->]|[?|Hin]]]; try done; by inversion Hin.
  - destruct (to_Path od) as [e|odp]; run.
    { injection Hrun as <- <-.
      erewrite (new_events_app w _ []) in Hin by reflexivity. by inversion Hin. }
    cbn in Hrun.
    destruct (pw_result _) as [e|[j|]]; injection Hrun as <- <-;
      erewrite (new_events_app w _ [_]) in Hin by reflexivity;
      rewrite !elem_of_cons in Hin;
      destruct Hin as [?|Hin]; try done; by inversion Hin.
Qed.

(** The effects of a call of [run_workflow]: those of the preparation,
    then the submission and what follows it. *)
Lemma run_workflow_events (fuel : nat) (h : string) (p : Z) (workflow : nat)
  (od : PyArg) (tmo : Z) (vb : Json) (ws : PyArg) (kw : Kwargs) (w : World)
  (r : Outcome Json) (w' : World) :
  run_workflow E fuel h p workflow od tmo vb ws kw w = (r, w') →
  ∃ (r0 : Outcome (nat * Path)) (w1 : World) (post : list Event),
    run_workflow_prepare E workflow od ws kw w = (r0, w1) ∧
    new_events w w' = post ++ new_events w w1 ∧
    Forall (λ e, (is_completion_event e || is_submission e) = true) post.
Proof.
  intros Hrun. unfold run_workflow in Hrun. run.
  destruct (run_workflow_prepare E workflow od ws kw w)
    as [r0 w1] eqn:Hprep.
  exists r0, w1.
  destruct r0 as [[wf' out']|e|];
    try (injection Hrun as <- <-; by exists []).
  cbn [fst snd] in Hrun.
  destruct (run_workflow_try E fuel h p wf' out' tmo w1)
    as [r1 w2] eqn:Htry.
  apply try_events in Htry as (res & post & Htr2 & Hpost & _ & _).
  assert (Hw' : w' = w2).
  { destruct r1 as [v|e|]; try (by injection Hrun as <- <-).
    unfold run_workflow_except in Hrun.
    destruct (is_TimeoutError e); by injection Hrun as <- <-. }
  subst w'. apply prepare_events in Hprep as (pre & ext & Htr1 & _).
  exists (post ++ [EvHttp (Prompt h p (JObj [("prompt", deref w1 wf')])) res]).
  split; [done|].
  rewrite (new_events_app w w1 pre Htr1). split.
  - apply new_events_app. rewrite Htr2, Htr1, <- !app_assoc. done.
  - apply Forall_app. split; [|by repeat constructor].
    eapply Forall_impl; [exact Hpost|]. by intros e ->.
Qed.

(** C10.  [execute_remote_workflow] does the same and returns the same
    whatever session identifier it is given; the session names no output
    directory: the only directory the call may create is the default one
    of [run_workflow], named by a fresh UUID. *)
Theorem execute_remote_workflow_ignores_session (fuel : nat)
  (server_url : string) (workflow : nat) (inputs : Kwargs)
  (session_id1 session_id2 : string) (tmo : Z) (w : World) :
  execute_remote_workflow E fuel server_url workflow inputs session_id1 tmo w
  = execute_remote_workflow E fuel server_url workflow inputs session_id2 tmo w ∧
  ∀ d,
    EvMkdir d ∈
      new_events w
        (execute_remote_workflow E fuel server_url workflow inputs
           session_id1 tmo w).2 →
    ∃ wsp n,
      to_Path (ArgVal (default (JStr ".") (dict_get "workspace" inputs)))
        = inr wsp ∧
      d = wsp ++ ["output"; uuid4 E n].
Proof.
  split; [reflexivity|].
  intros d. unfold execute_remote_workflow, bind_inputs. run.
  destruct (urlparse E server_url) as [e|parsed]; run.
  { rewrite (new_events_app w w []) by reflexivity. by inversion 1. }
  destruct (url_port parsed) as [e|po]; run.
  { rewrite (new_events_app w w []) by reflexivity. by inversion 1. }
  destruct (duplicate_keyword _ inputs) as [k|]; run.
  { rewrite (new_events_app w w []) by reflexivity. by inversion 1. }
  destruct (run_workflow E fuel _ _ workflow _ tmo _ _ _ w)
    as [r w'] eqn:Hrun.
  apply run_workflow_events in Hrun as (r0 & w1 & post & Hprep & Hnew & Hpost).
  assert (Hdir : EvMkdir d ∈ new_events w w' →
            ∃ wsp n,
              to_Path (ArgVal (default (JStr ".") (dict_get "workspace" inputs)))
                = inr wsp ∧
              d = wsp ++ ["output"; uuid4 E n]).
  { rewrite Hnew, elem_of_app. intros [Hin|Hin].
    - rewrite Forall_forall in Hpost. by apply Hpost in Hin.
    - destruct (prepare_mkdir _ _ _ _ _ _ _ _ Hprep Hin)
        as (_ & wsp & Hws & ->).
      by exists wsp, (tick w). }
  by destruct r.
Qed.

End Properties.

(** * The properties on sample runs *)


(** A child that ignores the termination signal is killed after the five
    seconds of the wait. *)
Example stop_kills_stubborn_child :
  stop stubborn_env
    (with_proc (Some {| pid := 7; args := start_popen_args server0 |}) server0,
     world0)
  = (Return tt,
     (server0,
      {| now := 5;
         trace := [EvKill 7; EvWait 7 5 false; EvTerminate 7];
         running := [];
         heap := heap world0 |})).
Proof. reflexivity. Qed.

(** Both readiness endpoints answer at the third probe: [start] returns
    after two pauses of one second. *)
Example start_ready_on_third_probe :
  let r := start (late_env 6) 3 (server0, world0) in
  r.1 = Return tt ∧ now r.2.2 = 2 ∧
  proc r.2.1 = Some {| pid := 1; args := start_popen_args server0 |} ∧
  running r.2.2 = [1%nat].
Proof. by vm_compute. Qed.

(** C5, as stated, fails: this [start] returns, and it has probed the
    engine before returning. *)
Lemma start_probes_before_returning :
  ∃ s' w',
    start (ready_env 0) 1 (server0, world0) = (Return tt, (s', w')) ∧
    Exists (λ e, is_readiness_request e = true) (new_events world0 w').
Proof.
  eexists _, _. split; [reflexivity|].
  vm_compute. apply Exists_cons_hd. reflexivity.
Qed.

Lemma start_returns_after_readiness_ready_engine :
  ∃ p b1 b2 mid pre,
    proc (start (ready_env 0) 1 (server0, world0)).2.1 = Some p ∧
    trace (start (ready_env 0) 1 (server0, world0)).2.2 =
      EvHttp (ObjectInfo 45000) (inr b2) ::
      EvHttp (GetMappings 45000) (inr b1) ::
      mid ++ EvSpawn p :: pre ++ trace world0.
Proof.
  apply (start_returns_after_readiness (ready_env 0) 1 server0 world0
           (start (ready_env 0) 1 (server0, world0)).2.1
           (start (ready_env 0) 1 (server0, world0)).2.2).
  reflexivity.
Defined.

(** Port 45000 has a listener: [start] draws another port and spawns the
    engine there, after the check that found it free. *)
Lemma start_spawns_on_free_port_busy_45000 :
  ∃ post pre,
    new_events world0 (start busy_port_env 2 (server0, world0)).2.2 =
      post ++
      EvSpawn {| pid := 3; args := start_popen_args (with_port 10000 server0) |} ::
      EvConnect "127.0.0.1" 10000 Refused :: pre ∧
    Forall (λ e, is_redraw e = true) pre ∧
    Forall (λ e, is_spawn e = false) post ∧
    port (start busy_port_env 2 (server0, world0)).2.1 = 10000.
Proof.
  apply (start_spawns_on_free_port busy_port_env 2 server0 world0
           (start busy_port_env 2 (server0, world0)).1
           (start busy_port_env 2 (server0, world0)).2.1
           (start busy_port_env 2 (server0, world0)).2.2
           {| pid := 3; args := start_popen_args (with_port 10000 server0) |}).
  - reflexivity.
  - reflexivity.
  - vm_compute. do 2 apply list_elem_of_further. apply list_elem_of_here.
Defined.

(** C8, as stated, fails: with verbosity zero the engine is spawned with
    its output on pipes, which is not the discard sink. *)
Lemma start_quiet_uses_pipes :
  verbose server0 = 0 ∧
  ∃ p,
    EvSpawn p ∈ new_events world0 (start (ready_env 0) 1 (server0, world0)).2.2 ∧
    stdout (args p) = PIPE ∧ stderr (args p) = PIPE ∧
    stdout (args p) ≠ DEVNULL ∧ stderr (args p) ≠ DEVNULL.
Proof.
  split; [reflexivity|].
  exists {| pid := 1; args := start_popen_args server0 |}.
  split_and!; try done.
  vm_compute. do 2 apply list_elem_of_further. apply list_elem_of_here.
Qed.

Lemma start_redirects_to_pipes_quiet :
  (verbose server0 = 0 →
   stdout (start_popen_args server0) = PIPE ∧
   stderr (start_popen_args server0) = PIPE) ∧
  (verbose server0 ≠ 0 →
   stdout (start_popen_args server0) = INHERIT ∧
   stderr (start_popen_args server0) = INHERIT).
Proof.
  apply (start_redirects_to_pipes (ready_env 0) 1 server0 world0
           (start (ready_env 0) 1 (server0, world0)).1
           (start (ready_env 0) 1 (server0, world0)).2.1
           (start (ready_env 0) 1 (server0, world0)).2.2
           {| pid := 1; args := start_popen_args server0 |}).
  - reflexivity.
  - reflexivity.
  - vm_compute. do 2 apply list_elem_of_further. apply list_elem_of_here.
Defined.

(** The engine answers the submission without a ["prompt_id"]. *)
Lemma run_workflow_missing_job_id_no_id_engine :
  (∃ c,
     (run_workflow no_id_env 5 "127.0.0.1" 8188 0 (ArgVal JNull) 300 (JNum 0)
        (ArgVal (JStr ".")) [("seed", JNum 3)] world0).1 =
       Raise (RuntimeError ("Workflow execution failed: " +:+ str_exn c)
                (Some c)) ∧
     ∀ kvs,
       Some (JObj [("error", JStr "invalid prompt")]) = Some (JObj kvs) →
       c = KeyError "prompt_id") ∧
  Forall (λ e, is_poll e = false)
    (new_events world0
       (run_workflow no_id_env 5 "127.0.0.1" 8188 0 (ArgVal JNull) 300 (JNum 0)
          (ArgVal (JStr ".")) [("seed", JNum 3)] world0).2).
Proof.
  apply (run_workflow_missing_job_id no_id_env 5 "127.0.0.1" 8188 0
           (ArgVal JNull) 300 (JNum 0) (ArgVal (JStr ".")) [("seed", JNum 3)]
           world0 _ _ "127.0.0.1" 8188
           (JObj [("prompt",
                   JObj [("populated",
                          JObj [("3",
                                 JObj [("class_type", JStr "KSampler")])])])])
           (Some (JObj [("error", JStr "invalid prompt")]))).
  - reflexivity.
  - vm_compute. apply list_elem_of_here.
  - reflexivity.
Defined.


(** The job is accepted as ["abc123"]; the first two polls report empty
    outputs, the third one an image: [run_workflow] returns after the
    third poll. *)
Example run_workflow_third_poll :
  let r :=
    run_workflow (ready_env 7) 3 "127.0.0.1" 8188 0 (ArgVal JNull) 300
      (JNum 0) (ArgVal (JStr ".")) [("seed", JNum 3)] world0 in
  r.1 = Return (JArr [JStr "out.png"]) ∧
  length (List.filter is_poll (trace r.2)) = 3%nat ∧
  now r.2 = 2.
Proof. by vm_compute. Qed.

(** C4, as stated, fails: the engine never reports an output, the poll
    loop raises [TimeoutError], which leaves [run_workflow] as it is, and
    [execute_workflow] raises a [RuntimeError] instead. *)
Lemma execute_workflow_wraps_timeout :
  (run_workflow stuck_env 4 "127.0.0.1" 45000 0
     (ArgPath ["/srv/ws"; "output"; "sess"]) 3 (JNum 0)
     (ArgVal (JStr "/srv/ws")) [("seed", JNum 3)]
     (emit (EvMkdir ["/srv/ws"; "output"; "sess"]) 0 world0)).1
  = Raise (TimeoutError "Workflow execution timed out") ∧
  (execute_workflow stuck_env 4 server0 0 [("seed", JNum 3)] "sess" 3 world0).1
  = Raise (RuntimeError
             "Workflow execution failed: Workflow execution timed out"
             (Some (TimeoutError "Workflow execution timed out"))) ∧
  ∀ msg,
    (execute_workflow stuck_env 4 server0 0 [("seed", JNum 3)] "sess" 3
       world0).1
    ≠ Raise (TimeoutError msg).
Proof. split_and!; [reflexivity|reflexivity|]. intros msg. by vm_compute. Qed.

Lemma execute_workflow_wraps_failures_stuck_engine :
  let out := ["/srv/ws"; "output"; "sess"] in
  let w1 := emit (EvMkdir out) 0 world0 in
  let w2 :=
    (run_workflow_prepare stuck_env 0 (ArgPath out) (ArgVal (JStr "/srv/ws"))
       [("seed", JNum 3)] w1).2 in
  let w3 := (run_workflow_try stuck_env 4 "127.0.0.1" 45000 1 out 3 w2).2 in
  run_workflow stuck_env 4 "127.0.0.1" 45000 0 (ArgPath out) 3 (JNum 0)
    (ArgVal (JStr "/srv/ws")) [("seed", JNum 3)] w1
  = (Raise (TimeoutError "Workflow execution timed out"), w3) ∧
  execute_workflow stuck_env 4 server0 0 [("seed", JNum 3)] "sess" 3 world0
  = (Raise (RuntimeError
              "Workflow execution failed: Workflow execution timed out"
              (Some (TimeoutError "Workflow execution timed out"))), w3).
Proof.
  intros out w1 w2 w3.
  apply (execute_workflow_wraps_failures stuck_env 4 server0 0
           [("seed", JNum 3)] "sess" 3 world0 out w1 1%nat out w2
           (TimeoutError "Workflow execution timed out") w3).
  - reflexivity.
  - reflexivity.
  - reflexivity.
  - reflexivity.
Defined.

(** [populate_workflow] changes the dictionary it is given: called on the
    dictionary of the caller itself it would change it ... *)
Example populate_changes_its_argument :
  heap (utils_populate_workflow dead_env 0 ["out"] [] world0).2 !! 0%nat
  = Some (JObj [("populated",
                 JObj [("3", JObj [("class_type", JStr "KSampler")])])]).
Proof. reflexivity. Qed.

(** ... and through [run_workflow] it changes the copy only. *)
Lemma run_workflow_keeps_workflow_sample :
  heap (run_workflow (ready_env 0) 2 "127.0.0.1" 8188 0 (ArgVal JNull) 300
          (JNum 0) (ArgVal (JStr ".")) [("seed", JNum 3)] world0).2 !! 0%nat
  = Some (JObj [("3", JObj [("class_type", JStr "KSampler")])]) ∧
  ∃ ext,
    heap (run_workflow (ready_env 0) 2 "127.0.0.1" 8188 0 (ArgVal JNull) 300
            (JNum 0) (ArgVal (JStr ".")) [("seed", JNum 3)] world0).2
    = heap world0 ++ ext.
Proof.
  apply (run_workflow_keeps_workflow (ready_env 0) 2 "127.0.0.1" 8188 0
           (ArgVal JNull) 300 (JNum 0) (ArgVal (JStr ".")) [("seed", JNum 3)]
           world0
           (run_workflow (ready_env 0) 2 "127.0.0.1" 8188 0 (ArgVal JNull) 300
              (JNum 0) (ArgVal (JStr ".")) [("seed", JNum 3)] world0).1).
  - reflexivity.
  - reflexivity.
Defined.

(** The session identifier names the output directory of
    [execute_workflow]; [execute_remote_workflow] has no use for it. *)
Example execute_workflow_output_dir_of_session :
  execute_workflow_output_dir dead_env server0 "sess" world0
  = (Return ["/srv/ws"; "output"; "sess"],
     emit (EvMkdir ["/srv/ws"; "output"; "sess"]) 0 world0).
Proof. reflexivity. Qed.

(** A remote run with the default output directory: it is named by the
    UUID, not by the session. *)
Lemma execute_remote_workflow_output_dir_sample :
  ∃ wsp n,
    to_Path (ArgVal (default (JStr ".") (dict_get "workspace" [("seed", JNum 3)])))
      = inr wsp ∧
    ["."; "output"; "uuid-0"] = wsp ++ ["output"; uuid4 (ready_env 0) n].
Proof.
  apply (proj2 (execute_remote_workflow_ignores_session (ready_env 0) 2
                  "http://engine.example:8188" 0 [("seed", JNum 3)]
                  "sess" "other" 300 world0)).
  vm_compute. do 4 apply list_elem_of_further. apply list_elem_of_here.
Defined.

(** * More of the module *)

Lemma count_events_app (P : Event → bool) (l1 l2 : list Event) :
  count_events P (l1 ++ l2) = (count_events P l1 + count_events P l2)%nat.
Proof. unfold count_events. by rewrite List.filter_app, length_app. Qed.

Lemma count_events_cons (P : Event → bool) (e : Event) (l : list Event) :
  count_events P (e :: l)
  = ((if P e then 1 else 0) + count_events P l)%nat.
Proof. unfold count_events. cbn. by destruct (P e). Qed.

Lemma count_events_none (P : Event → bool) (l : list Event) :
  Forall (λ e, P e = false) l → count_events P l = 0%nat.
Proof.
  unfold count_events. induction 1 as [|e l He _ IH]; [done|].
  cbn. by rewrite He.
Qed.

Section WaitForStartup.

Context (E : Env).

(** The loop of [_wait_for_startup] from a world [w]: each turn sends one
    request to the first endpoint, each turn but the last pauses, and a
    turn only starts while the budget is not spent. *)
Lemma wait_loop_count (fuel : nat) (p st tmo : Z) :
  ∀ (w : World) (r : Outcome unit) (w' : World),
    _wait_for_startup_loop E fuel p st tmo w = (r, w') →
    ∃ new,
      trace w' = new ++ trace w ∧
      (count_events is_mappings_request new ≤ Z.to_nat (st + tmo - now w))%nat ∧
      (count_events is_sleep new ≤ Z.to_nat (st + tmo - now w))%nat ∧
      (∀ e, r = Raise e →
            e = TimeoutError "ComfyUI server failed to start" ∧
            st + tmo ≤ now w').
Proof.
  induction fuel as [|fuel IH]; intros w r w' Hrun.
  - cbn in Hrun. run. injection Hrun as <- <-.
    exists []. split_and!; try done; cbn; lia.
  - cbn [_wait_for_startup_loop] in Hrun. run.
    destruct (now w - st <? tmo) eqn:Hlt.
    + apply Z.ltb_lt in Hlt.
      unfold _probe_comfyui_server, request_urlopen in Hrun. run.
      destruct (http E (tick w) (GetMappings p)) as [e1|b1] eqn:H1.
      * apply IH in Hrun as (new & Htr & Hreq & Hsl & Hexn).
        cbn in Htr, Hreq, Hsl.
        exists (new ++ [EvSleep 1; EvHttp (GetMappings p) (inl e1)]).
        rewrite <- app_assoc, !count_events_app. cbn.
        split_and!; try done; lia.
      * rewrite tick_emit in Hrun.
        destruct (http E (S (tick w)) (ObjectInfo p)) as [e2|b2] eqn:H2.
        -- apply IH in Hrun as (new & Htr & Hreq & Hsl & Hexn).
           cbn in Htr, Hreq, Hsl.
           exists (new ++ [EvSleep 1; EvHttp (ObjectInfo p) (inl e2);
                           EvHttp (GetMappings p) (inr b1)]).
           rewrite <- app_assoc, !count_events_app. cbn.
           split_and!; try done; lia.
        -- injection Hrun as <- <-.
           exists [EvHttp (ObjectInfo p) (inr b2); EvHttp (GetMappings p) (inr b1)].
           cbn. split_and!; try done; lia.
    + apply Z.ltb_ge in Hlt. injection Hrun as <- <-.
      exists []. split_and!; try done; cbn; try lia.
      intros e [= <-]. split; [done|lia].
Qed.

(** The exception of [_wait_for_startup], when there is one. *)
Lemma wait_for_startup_exception (fuel : nat) (h : string) (p tmo : Z)
  (w : World) (e : Exn) (w' : World) :
  _wait_for_startup E fuel h p tmo w = (Raise e, w') →
  e = TimeoutError "ComfyUI server failed to start".
Proof.
  unfold _wait_for_startup. run. intros Hrun.
  apply wait_loop_count in Hrun as (new & _ & _ & _ & Hexn).
  by destruct (Hexn e eq_refl).
Qed.

(** X1.  The only exception that leaves [_wait_for_startup] is its own
    [TimeoutError], and it is raised only once [timeout] seconds have
    passed: no failure of a probe gets out of the loop. *)
Theorem wait_for_startup_raises_only_timeout (fuel : nat) (h : string)
  (p tmo : Z) (w : World) (e : Exn) (w' : World) :
  _wait_for_startup E fuel h p tmo w = (Raise e, w') →
  e = TimeoutError "ComfyUI server failed to start" ∧ now w + tmo ≤ now w'.
Proof.
  unfold _wait_for_startup. run. intros Hrun.
  apply wait_loop_count in Hrun as (new & _ & _ & _ & Hexn). by apply Hexn.
Qed.

(** X2.  [_wait_for_startup] probes at most once per second of its budget:
    it sends at most [timeout] requests to the first endpoint and pauses
    at most [timeout] times; with a budget of zero or less it sends
    nothing at all. *)
Theorem wait_for_startup_probe_bound (fuel : nat) (h : string) (p tmo : Z)
  (w : World) (r : Outcome unit) (w' : World) :
  _wait_for_startup E fuel h p tmo w = (r, w') →
  (count_events is_mappings_request (new_events w w') ≤ Z.to_nat tmo)%nat ∧
  (count_events is_sleep (new_events w w') ≤ Z.to_nat tmo)%nat ∧
  (tmo ≤ 0 → w' = w).
Proof.
  unfold _wait_for_startup. run. intros Hrun. split_and!.
  - apply wait_loop_count in Hrun as (new & Htr & Hreq & _).
    rewrite (new_events_app w w' new Htr).
    by replace (now w + tmo - now w) with tmo in Hreq by lia.
  - apply wait_loop_count in Hrun as (new & Htr & _ & Hsl & _).
    rewrite (new_events_app w w' new Htr).
    by replace (now w + tmo - now w) with tmo in Hsl by lia.
  - intros Htmo. destruct fuel as [|fuel]; cbn in Hrun; run.
    + by injection Hrun as _ <-.
    + destruct (now w - now w <? tmo) eqn:Hlt.
      * apply Z.ltb_lt in Hlt. lia.
      * by injection Hrun as _ <-.
Qed.

End WaitForStartup.

Section StartStop.

Context (E : Env).

(** The port the port loop leaves in the object is the one it found there
    or one it drew, between 10000 and 65535. *)
Lemma port_loop_port (fuel : nat) :
  ∀ (s : ComfyUIServer) (w : World) (r : Outcome unit) (s1 : ComfyUIServer)
    (w1 : World),
    start_port_loop E fuel (s, w) = (r, (s1, w1)) →
    port s1 = port s ∨ 10000 ≤ port s1 ≤ 65535.
Proof.
  induction fuel as [|fuel IH]; intros s w r s1 w1 Hrun.
  - cbn in Hrun. run. injection Hrun as _ <- _. by left.
  - assert (Hcases : sock_connect E (tick w) (host s) (port s) = Refused ∨
                     sock_connect E (tick w) (host s) (port s) ≠ Refused).
    { destruct (sock_connect E (tick w) (host s) (port s)); auto. }
    destruct Hcases as [Hc|Hc].
    + rewrite port_loop_free in Hrun by done. injection Hrun as _ <- _.
      by left.
    + destruct (port_loop_redraw E fuel s w Hc) as (v & Hv & Heq).
      rewrite Heq in Hrun. apply IH in Hrun as [->|?]; [|by right].
      by right.
Qed.

Lemma tick_grows (w w' : World) (new : list Event) :
  trace w' = new ++ trace w → (tick w ≤ tick w')%nat.
Proof. unfold tick. intros ->. rewrite length_app. lia. Qed.

Lemma remove_pid_fresh (p : nat) (l : list nat) :
  p ∉ l → remove_pid p (p :: l) = l.
Proof.
  intros Hp. unfold remove_pid. rewrite filter_cons_False by (by intros ?).
  induction l as [|q l IH]; [done|].
  rewrite not_elem_of_cons in Hp. destruct Hp as [Hne Hp].
  rewrite filter_cons_True by done. by rewrite IH.
Qed.

Lemma pids_known_fresh (w : World) (n : nat) :
  pids_known w → (tick w ≤ n)%nat → n ∉ running w.
Proof.
  unfold pids_known. rewrite Forall_forall. intros Hk Hn Hin.
  apply Hk in Hin. lia.
Qed.

(** What [stop] does to the processes that are alive. *)
Lemma stop_running (s : ComfyUIServer) (w : World) (p : Popen) :
  proc s = Some p →
  ∃ w',
    stop E (s, w) = (Return tt, (with_proc None s, w')) ∧
    running w' = remove_pid (pid p) (running w) ∧
    heap w' = heap w ∧
    (tick w ≤ tick w')%nat.
Proof.
  intros Hp. unfold stop. run. rewrite Hp.
  unfold Popen_terminate, Popen_wait, Popen_kill.
  cbn [fst snd]. rewrite tick_emit.
  destruct (exit_delay E (S (tick w)) (pid p)) as [d|];
    [destruct (Z.of_nat d <=? 5)|]; cbn.
  - eexists. split; [reflexivity|]. cbn. split_and!; try done.
    unfold tick. lia.
  - eexists. split; [reflexivity|]. cbn. split_and!; try done.
    unfold tick. lia.
  - eexists. split; [reflexivity|]. cbn. split_and!; try done.
    unfold tick. lia.
Qed.

(** The world of a call of [start] on an object without a process, by
    outcome: who is alive, and what the object holds. *)
Lemma start_world (fuel : nat) (s : ComfyUIServer) (w : World)
  (r : Outcome unit) (s' : ComfyUIServer) (w' : World) :
  proc s = None →
  pids_known w →
  start E fuel (s, w) = (r, (s', w')) →
  heap w' = heap w ∧ (tick w ≤ tick w')%nat ∧
  (port s' = port s ∨ 10000 ≤ port s' ≤ 65535) ∧
  match r with
  | Return _ =>
      ∃ p, proc s' = Some p ∧ running w' = pid p :: running w ∧
           (tick w ≤ pid p < tick w')%nat
  | Raise e =>
      proc s' = None ∧ running w' = running w ∧
      (e = RuntimeError
             "Failed to start ComfyUI server: ComfyUI server failed to start"
             (Some (TimeoutError "ComfyUI server failed to start")) ∨
       ∃ n a, os_spawn E n a = Some e)
  | OutOfFuel =>
      (proc s' = None ∧ running w' = running w) ∨
      (∃ p, proc s' = Some p ∧ running w' = pid p :: running w ∧
            (tick w ≤ pid p < tick w')%nat)
  end.
Proof.
  intros Hp Hk Hrun. rewrite start_phases in Hrun by done.
  destruct (start_port_loop E fuel (s, w)) as [r0 [s1 w1]] eqn:Hloop.
  pose proof (port_loop_port _ _ _ _ _ _ Hloop) as Hport.
  apply port_loop_events in Hloop
    as (new & Htr1 & Hrn1 & Hhp1 & _ & Hs1 & Hr0).
  assert (Hp1 : proc s1 = None) by (rewrite Hs1; done).
  pose proof (tick_grows _ _ _ Htr1) as Ht1.
  destruct r0 as [[]|e0|]; [|done|].
  2:{ injection Hrun as <- <- <-. split_and!; try done. by left. }
  unfold subprocess_Popen in Hrun.
  destruct (os_spawn E (tick w1) (start_popen_args s1)) as [e|] eqn:Hsp.
  { injection Hrun as <- <- <-. cbn. unfold tick in *. cbn.
    split_and!; try done; [lia|]. right. by eexists _, _. }
  set (p := {| pid := tick w1; args := start_popen_args s1 |}) in *.
  destruct (_wait_for_startup E fuel (host s1) (port s1) 1800 _)
    as [r3 w3] eqn:Hwait.
  pose proof Hwait as Hev.
  apply wait_for_startup_events in Hev
    as (post & Htr3 & _ & Hrn3 & Hhp3 & _ & _).
  pose proof (tick_grows _ _ _ Htr3) as Ht3.
  cbn in Hrn3, Hhp3, Ht3.
  assert (Hpid : (tick w ≤ pid p < tick w3)%nat).
  { subst p. unfold tick in *. cbn in *. lia. }
  assert (Hfresh : remove_pid (pid p) (pid p :: running w) = running w).
  { apply remove_pid_fresh. apply (pids_known_fresh w); [done|lia]. }
  assert (Hrn3' : running w3 = pid p :: running w).
  { rewrite Hrn3, Hrn1. done. }
  assert (Hhp3' : heap w3 = heap w) by congruence.
  destruct r3 as [[]|e3|].
  - injection Hrun as <- <- <-. cbn [port with_proc proc].
    split_and!; [done|lia|done|]. by exists p.
  - apply wait_for_startup_exception in Hwait as ->.
    destruct (stop_running (with_proc (Some p) s1) w3 p)
      as (w4 & Hstop & Hrn4 & Hhp4 & Ht4); [done|].
    rewrite Hstop in Hrun. injection Hrun as <- <- <-.
    cbn [port with_proc proc].
    split_and!; [congruence|lia|done|done| |by left].
    rewrite Hrn4, Hrn3'. exact Hfresh.
  - injection Hrun as <- <- <-. cbn [port with_proc proc].
    split_and!; [done|lia|done|]. right. by exists p.
Qed.

(** X3.  Starting twice spawns once: after a [start] that returned, a
    second [start] changes neither the object nor the world, with any
    fuel. *)
Theorem start_twice (fuel fuel' : nat) (s : ComfyUIServer) (w : World)
  (s' : ComfyUIServer) (w' : World) :
  start E fuel (s, w) = (Return tt, (s', w')) →
  start E fuel' (s', w') = (Return tt, (s', w')).
Proof.
  intros Hrun.
  assert (Hp' : ∃ p, proc s' = Some p).
  { destruct (proc s) as [p0|] eqn:Hp.
    - unfold start in Hrun. run. rewrite Hp in Hrun.
      injection Hrun as <- <-. by exists p0.
    - destruct (start_anatomy E fuel s w _ s' w' Hp Hrun)
        as (pre & _ & [(? & _)|[(e & ? & _)|Hl]]); try done.
      destruct Hl as (p & post & _ & _ & _ & Hps & _). by exists p. }
  destruct Hp' as (p & Hp'). unfold start. run. by rewrite Hp'.
Qed.


(** X5.  [start] then [stop] leaves things as they were: no process in
    the object, the same processes alive and the same dictionaries. *)
Theorem start_stop_round_trip (fuel : nat) (s : ComfyUIServer) (w : World)
  (s' : ComfyUIServer) (w' : World) :
  proc s = None →
  pids_known w →
  start E fuel (s, w) = (Return tt, (s', w')) →
  ∃ w'',
    stop E (s', w') = (Return tt, (with_proc None s', w'')) ∧
    running w'' = running w ∧ heap w'' = heap w ∧ pids_known w''.
Proof.
  intros Hp Hk Hrun.
  destruct (start_world fuel s w _ s' w' Hp Hk Hrun)
    as (Hhp & Ht & _ & p & Hp' & Hrn & Hpid).
  destruct (stop_running s' w' p Hp') as (w'' & Hstop & Hrn' & Hhp' & Ht').
  exists w''. split; [done|].
  assert (Hsame : running w'' = running w).
  { rewrite Hrn', Hrn. apply remove_pid_fresh.
    apply (pids_known_fresh w); [done|lia]. }
  split_and!; try congruence.
  unfold pids_known. rewrite Hsame.
  eapply Forall_impl; [exact Hk|]. cbn. intros q Hq. lia.
Qed.

(** X6.  The port of the object after [start] is the one it had or a port
    between 10000 and 65535. *)
Theorem start_port_range (fuel : nat) (s : ComfyUIServer) (w : World)
  (r : Outcome unit) (s' : ComfyUIServer) (w' : World) :
  start E fuel (s, w) = (r, (s', w')) →
  port s' = port s ∨ 10000 ≤ port s' ≤ 65535.
Proof.
  intros Hrun. destruct (proc s) as [p0|] eqn:Hp.
  - unfold start in Hrun. run. rewrite Hp in Hrun.
    injection Hrun as _ <- _. by left.
  - rewrite start_phases in Hrun by done.
    destruct (start_port_loop E fuel (s, w)) as [r0 [s1 w1]] eqn:Hloop.
    apply port_loop_port in Hloop.
    destruct r0 as [[]|e0|]; try (by injection Hrun as _ <- _).
    destruct (subprocess_Popen E (start_popen_args s1) w1) as [[p|e|] w2];
      try (by injection Hrun as _ <- _).
    destruct (_wait_for_startup E fuel (host s1) (port s1) 1800 w2)
      as [[[]|e|] w3]; try (by injection Hrun as _ <- _).
    destruct (stop_running (with_proc (Some p) s1) w3 p)
      as (w4 & Hstop & _); [done|].
    rewrite Hstop in Hrun. by injection Hrun as _ <- _.
Qed.

End StartStop.

Section RunWorkflow.

Context (E : Env).

(** The anatomy of a run of the poll loop: turns that found no output,
    then an end, which is nothing (the timeout, or no fuel) or one last
    poll (outputs, or a failure). *)
Lemma poll_anatomy (fuel : nat) (h : string) (p : Z) (id : Json) (st tmo : Z) :
  ∀ (w : World) (r : Outcome unit) (w' : World),
    run_workflow_poll E fuel h p id st tmo w = (r, w') →
    ∃ ending turns,
      trace w' = ending ++ turns ++ trace w ∧
      Forall (poll_turn h p id) turns ∧
      (count_events is_poll (ending ++ turns)
       ≤ Z.to_nat (st + tmo - now w))%nat ∧
      match r with
      | Return _ =>
          ∃ record outputs,
            ending = [EvHttp (History h p id) (inr (Some record))] ∧
            getitem record "outputs" = inr outputs ∧
            truthy outputs = true
      | Raise e =>
          (ending = [] ∧ e = TimeoutError "Workflow execution timed out" ∧
           st + tmo ≤ now w') ∨
          (∃ res, ending = [EvHttp (History h p id) res] ∧
                  poll_failure res = Some e)
      | OutOfFuel => ending = []
      end.
Proof.
  induction fuel as [|fuel IH]; intros w r w' Hrun.
  - cbn in Hrun. run. injection Hrun as <- <-.
    exists [], []. split_and!; try done. cbn. lia.
  - cbn [run_workflow_poll] in Hrun. unfold request_urlopen in Hrun. run.
    destruct (now w - st <? tmo) eqn:Hlt.
    + apply Z.ltb_lt in Hlt.
      destruct (http E (tick w) (History h p id)) as [e|[record|]] eqn:Hres;
        run.
      * injection Hrun as <- <-.
        exists [EvHttp (History h p id) (inl e)], [].
        split_and!; try done; [cbn; lia|]. right. by eexists.
      * destruct (getitem record "outputs") as [e|outputs] eqn:Hget; run.
        { injection Hrun as <- <-.
          exists [EvHttp (History h p id) (inr (Some record))], [].
          split_and!; try done; [cbn; lia|]. right. eexists. split; [done|].
          cbn. by rewrite Hget. }
        destruct (truthy outputs) eqn:Htruthy.
        { injection Hrun as <- <-.
          exists [EvHttp (History h p id) (inr (Some record))], [].
          split_and!; try done; [cbn; lia|]. by eexists _, _. }
        apply IH in Hrun as (ending & turns & Htr & Hturns & Hcount & Hr).
        cbn in Htr, Hcount.
        exists ending,
          (turns ++ [EvSleep 1; EvHttp (History h p id) (inr (Some record))]).
        rewrite <- !app_assoc. split; [done|]. split.
        { apply Forall_app. split; [done|].
          constructor; [by left|]. constructor; [|done].
          right. eexists. split; [done|]. cbn. by rewrite Hget, Htruthy. }
        split; [|done].
        rewrite count_events_app in Hcount |- *.
        rewrite (count_events_app _ turns). cbn. lia.
      * injection Hrun as <- <-.
        exists [EvHttp (History h p id) (inr None)], [].
        split_and!; try done; [cbn; lia|]. right. by eexists.
    + apply Z.ltb_ge in Hlt. injection Hrun as <- <-.
      exists [], []. split_and!; try done; [cbn; lia|]. left.
      split_and!; try done. lia.
Qed.

(** The anatomy of the [try] body of [run_workflow]: the submission; when
    it gave a job identifier, the polls of that job; and when a poll
    reported outputs, the retrieval. *)
Lemma try_anatomy (fuel : nat) (h : string) (p : Z) (wf : nat) (out : Path)
  (tmo : Z) (w : World) (r : Outcome Json) (w' : World) :
  run_workflow_try E fuel h p wf out tmo w = (r, w') →
  ∃ res post,
    trace w' =
      post ++ EvHttp (Prompt h p (JObj [("prompt", deref w wf)])) res :: trace w ∧
    match submission_id res with
    | inl e => post = [] ∧ r = Raise e
    | inr id =>
        ∃ fin ending turns,
          post = fin ++ ending ++ turns ∧
          Forall (poll_turn h p id) turns ∧
          (count_events is_poll (ending ++ turns) ≤ Z.to_nat tmo)%nat ∧
          ((∃ record outputs n,
              ending = [EvHttp (History h p id) (inr (Some record))] ∧
              getitem record "outputs" = inr outputs ∧
              truthy outputs = true ∧
              fin = [EvRetrieve out] ∧
              r = match retrieve_workflow_outputs E n (deref w wf) out with
                  | inl e => Raise e
                  | inr v => Return v
                  end) ∨
           (fin = [] ∧ ending = [] ∧
            (r = OutOfFuel ∨
             r = Raise (TimeoutError "Workflow execution timed out"))) ∨
           (fin = [] ∧
            ∃ res' e, ending = [EvHttp (History h p id) res'] ∧
                      poll_failure res' = Some e ∧ r = Raise e))
    end.
Proof.
  unfold run_workflow_try, request_urlopen, utils_retrieve_workflow_outputs.
  intros Hrun. run.
  destruct (http E (tick w) _) as [e|[body|]] eqn:Hres; run.
  - injection Hrun as <- <-. by eexists (inl e), [].
  - destruct (getitem body "prompt_id") as [c|id] eqn:Hid; run.
    { injection Hrun as <- <-. eexists (inr (Some body)), []. cbn.
      by rewrite Hid. }
    destruct (run_workflow_poll E fuel h p id _ tmo _) as [r1 w1] eqn:Hpoll.
    pose proof Hpoll as Hev.
    apply poll_events in Hev as (new & _ & _ & _ & Hhp & _ & _).
    apply poll_anatomy in Hpoll as (ending & turns & Htr & Hturns & Hcount & Hr).
    cbn in Htr, Hcount, Hhp.
    replace (now w + Z.of_nat (latency E (tick w)) + tmo
             - (now w + Z.of_nat (latency E (tick w)))) with tmo in Hcount
      by lia.
    eexists (inr (Some body)). cbn [submission_id]. rewrite Hid.
    destruct r1 as [[]|e|].
    + destruct Hr as (record & outputs & -> & Hget & Htruthy).
      assert (Hderef : deref w1 wf = deref w wf).
      { unfold deref. by rewrite Hhp. }
      exists (EvRetrieve out ::
                [EvHttp (History h p id) (inr (Some record))] ++ turns).
      split.
      { destruct (retrieve_workflow_outputs E _ _ _);
          injection Hrun as <- <-; cbn; by rewrite Htr. }
      exists [EvRetrieve out], [EvHttp (History h p id) (inr (Some record))],
        turns.
      split_and!; try done. left.
      exists record, outputs, (tick w1). split_and!; try done.
      rewrite Hderef in Hrun.
      by destruct (retrieve_workflow_outputs E _ _ _);
        injection Hrun as <- _.
    + injection Hrun as <- <-. exists (ending ++ turns).
      rewrite Htr, <- app_assoc. split; [done|].
      exists [], ending, turns. split_and!; try done.
      destruct Hr as [(-> & -> & _)|(res' & -> & Hfail)].
      * right. left. split_and!; try done. by right.
      * right. right. split; [done|]. by eexists _, _.
    + injection Hrun as <- <-. exists (ending ++ turns).
      rewrite Htr, <- app_assoc. split; [done|].
      exists [], ending, turns. split_and!; try done.
      right. left. split_and!; try done. by left.
  - injection Hrun as <- <-. by eexists (inr None), [].
Qed.

(** [run_workflow] is its preparation, then its [try] body under its
    [except] clause. *)
Lemma run_workflow_split (fuel : nat) (h : string) (p : Z) (workflow : nat)
  (od : PyArg) (tmo : Z) (vb : Json) (ws : PyArg) (kw : Kwargs) (w : World)
  (r : Outcome Json) (w' : World) :
  run_workflow E fuel h p workflow od tmo vb ws kw w = (r, w') →
  (∃ e, run_workflow_prepare E workflow od ws kw w = (Raise e, w') ∧
        r = Raise e) ∨
  (run_workflow_prepare E workflow od ws kw w = (OutOfFuel, w') ∧
   r = OutOfFuel) ∨
  (∃ wf' out' w1 r1,
     run_workflow_prepare E workflow od ws kw w = (Return (wf', out'), w1) ∧
     run_workflow_try E fuel h p wf' out' tmo w1 = (r1, w') ∧
     r = match r1 with
         | Raise e =>
             Raise (if is_TimeoutError e then e
                    else RuntimeError
                           ("Workflow execution failed: " +:+ str_exn e)
                           (Some e))
         | _ => r1
         end).
Proof.
  unfold run_workflow. run. intros Hrun.
  destruct (run_workflow_prepare E workflow od ws kw w)
    as [[[wf' out']|e|] w1].
  - right. right. cbn [fst snd] in Hrun.
    destruct (run_workflow_try E fuel h p wf' out' tmo w1)
      as [r1 w2] eqn:Htry.
    exists wf', out', w1, r1.
    destruct r1 as [v|e|]; try (injection Hrun as <- <-; done).
    unfold run_workflow_except in Hrun.
    destruct (is_TimeoutError e); by injection Hrun as <- <-.
  - left. injection Hrun as <- <-. by exists e.
  - right. left. by injection Hrun as <- <-.
Qed.

Lemma poll_turn_kinds (h : string) (p : Z) (id : Json) (l : list Event) :
  Forall (poll_turn h p id) l →
  Forall (λ e, is_submission e = false) l ∧
  Forall (λ e, is_process_event e = false) l ∧
  Forall (λ e, is_completion_event e = true) l.
Proof.
  intros Hl. split_and!; (eapply Forall_impl; [exact Hl|]);
    by intros e [->|(res & -> & _)].
Qed.

Lemma prepare_event_kinds (l : list Event) :
  Forall (λ e, is_prepare_event e = true) l →
  Forall (λ e, is_submission e = false) l ∧
  Forall (λ e, is_poll e = false) l ∧
  Forall (λ e, is_http e = false) l ∧
  Forall (λ e, is_process_event e = false) l.
Proof.
  intros Hl. split_and!; (eapply Forall_impl; [exact Hl|]); by intros [].
Qed.

(** The requests of the [try] body: one submission, and no more polls
    than the timeout has seconds. *)
Lemma try_counts (fuel : nat) (h : string) (p : Z) (wf : nat) (out : Path)
  (tmo : Z) (w : World) (r : Outcome Json) (w' : World) :
  run_workflow_try E fuel h p wf out tmo w = (r, w') →
  ∃ res post,
    trace w' =
      post ++ EvHttp (Prompt h p (JObj [("prompt", deref w wf)])) res :: trace w ∧
    count_events is_submission post = 0%nat ∧
    (count_events is_poll post ≤ Z.to_nat tmo)%nat ∧
    Forall (λ e, is_process_event e = false) post.
Proof.
  intros Hrun. apply try_anatomy in Hrun as (res & post & Htr & Hcase).
  exists res, post. split; [done|].
  destruct (submission_id res) as [e|id].
  - destruct Hcase as (-> & _). cbn. split_and!; try done. lia.
  - destruct Hcase as (fin & ending & turns & -> & Hturns & Hcount & Hend).
    destruct (poll_turn_kinds _ _ _ _ Hturns) as (Hsub & Hproc & _).
    assert (Hfin : fin = [] ∨ fin = [EvRetrieve out]).
    { destruct Hend as [(? & ? & ? & _ & _ & _ & -> & _)|[(-> & _)|(-> & _)]];
        auto. }
    assert (Hending : ending = [] ∨ ∃ res', ending = [EvHttp (History h p id) res']).
    { destruct Hend as [(? & ? & ? & -> & _)|[(_ & -> & _)|(_ & ? & ? & -> & _)]];
        eauto. }
    rewrite !count_events_app, (count_events_none _ turns Hsub).
    rewrite count_events_app in Hcount.
    destruct Hfin as [->| ->], Hending as [->|(res' & ->)]; cbn in *;
      split_and!; try lia;
      repeat (apply Forall_cons; split; [done|]); done.
Qed.

(** The requests of a call, counted. *)
Lemma run_workflow_counts (fuel : nat) (h : string) (p : Z)
  (workflow : nat) (od : PyArg) (tmo : Z) (vb : Json) (ws : PyArg)
  (kw : Kwargs) (w : World) (r : Outcome Json) (w' : World) :
  run_workflow E fuel h p workflow od tmo vb ws kw w = (r, w') →
  ∃ l,
    trace w' = l ++ trace w ∧
    (count_events is_submission l ≤ 1)%nat ∧
    (count_events is_poll l ≤ Z.to_nat tmo)%nat.
Proof.
  intros Hrun.
  destruct (run_workflow_split _ _ _ _ _ _ _ _ _ _ _ _ Hrun)
    as [(e & Hprep & _)|[(Hprep & _)|(wf' & out' & w1 & r1 & Hprep & Htry & _)]].
  - apply prepare_events in Hprep as (pre & ext & Htr & Hpre & _).
    destruct (prepare_event_kinds _ Hpre) as (Hsub & Hpoll & _).
    exists pre. split; [done|].
    rewrite (count_events_none _ pre Hsub), (count_events_none _ pre Hpoll).
    lia.
  - apply prepare_events in Hprep as (pre & ext & Htr & Hpre & _).
    destruct (prepare_event_kinds _ Hpre) as (Hsub & Hpoll & _).
    exists pre. split; [done|].
    rewrite (count_events_none _ pre Hsub), (count_events_none _ pre Hpoll).
    lia.
  - apply prepare_events in Hprep as (pre & ext & Htr & Hpre & _).
    destruct (prepare_event_kinds _ Hpre) as (Hsub & Hpoll & _).
    apply try_counts in Htry as (res & post & Htr' & Hsub' & Hpoll' & _).
    rewrite Htr in Htr'.
    exists (post ++ EvHttp (Prompt h p (JObj [("prompt", deref w1 wf')])) res
              :: pre).
    split; [by rewrite Htr', <- app_assoc|].
    rewrite !count_events_app, !count_events_cons. cbn.
    rewrite (count_events_none _ pre Hsub), (count_events_none _ pre Hpoll).
    lia.
Qed.

(** X7.  A call of [run_workflow] submits the job at most once (it never
    submits again) and polls at most once per second of its timeout. *)
Theorem run_workflow_request_bound (fuel : nat) (h : string) (p : Z)
  (workflow : nat) (od : PyArg) (tmo : Z) (vb : Json) (ws : PyArg)
  (kw : Kwargs) (w : World) (r : Outcome Json) (w' : World) :
  run_workflow E fuel h p workflow od tmo vb ws kw w = (r, w') →
  (count_events is_submission (new_events w w') ≤ 1)%nat ∧
  (count_events is_poll (new_events w w') ≤ Z.to_nat tmo)%nat.
Proof.
  intros Hrun.
  apply run_workflow_counts in Hrun as (l & Htr & Hsub & Hpoll).
  rewrite (new_events_app w w' l Htr).
  by split.
Qed.

(** X8.  An exception that leaves [run_workflow] is a [TimeoutError], or
    the [RuntimeError] of a failed execution carrying its cause, or it
    was raised before the [try] (by [Path], [mkdir] or
    [populate_workflow]): then it leaves as it is and nothing has been
    sent to the engine. *)
Theorem run_workflow_exception_kinds (fuel : nat) (h : string) (p : Z)
  (workflow : nat) (od : PyArg) (tmo : Z) (vb : Json) (ws : PyArg)
  (kw : Kwargs) (w : World) (e : Exn) (w' : World) :
  run_workflow E fuel h p workflow od tmo vb ws kw w = (Raise e, w') →
  is_TimeoutError e = true ∨
  (∃ c, e = RuntimeError ("Workflow execution failed: " +:+ str_exn c)
              (Some c) ∧
        is_TimeoutError c = false) ∨
  (run_workflow_prepare E workflow od ws kw w = (Raise e, w') ∧
   Forall (λ ev, is_http ev = false) (new_events w w')).
Proof.
  intros Hrun.
  destruct (run_workflow_split _ _ _ _ _ _ _ _ _ _ _ _ Hrun)
    as [(e' & Hprep & [= <-])|[(_ & ?)|(wf' & out' & w1 & r1 & _ & _ & Hr)]];
    [|done|].
  - right. right. split; [done|].
    apply prepare_events in Hprep as (pre & ext & Htr & Hpre & _).
    rewrite (new_events_app w w' pre Htr).
    by destruct (prepare_event_kinds _ Hpre) as (_ & _ & ? & _).
  - destruct r1 as [v|c|]; try done. injection Hr as ->.
    destruct (is_TimeoutError c) eqn:Hc; [by left|].
    right. left. by exists c.
Qed.

(** X9.  What [run_workflow] returns is what [retrieve_workflow_outputs]
    gave for the populated copy and the output directory, and by then the
    call has submitted that copy once, got a job identifier, polled that
    job and no other, at the host and port it was given, and the last
    poll reported outputs. *)
Theorem run_workflow_returns (fuel : nat) (h : string) (p : Z)
  (workflow : nat) (od : PyArg) (tmo : Z) (vb : Json) (ws : PyArg)
  (kw : Kwargs) (w : World) (v : Json) (w' : World) :
  run_workflow E fuel h p workflow od tmo vb ws kw w = (Return v, w') →
  ∃ wf' out' w1 body id record outputs turns n,
    run_workflow_prepare E workflow od ws kw w = (Return (wf', out'), w1) ∧
    trace w' =
      EvRetrieve out' ::
      EvHttp (History h p id) (inr (Some record)) ::
      turns ++
      EvHttp (Prompt h p (JObj [("prompt", deref w1 wf')])) (inr (Some body)) ::
      trace w1 ∧
    getitem body "prompt_id" = inr id ∧
    Forall (poll_turn h p id) turns ∧
    getitem record "outputs" = inr outputs ∧
    truthy outputs = true ∧
    retrieve_workflow_outputs E n (deref w1 wf') out' = inr v.
Proof.
  intros Hrun.
  destruct (run_workflow_split _ _ _ _ _ _ _ _ _ _ _ _ Hrun)
    as [(e' & _ & ?)|[(_ & ?)|(wf' & out' & w1 & r1 & Hprep & Htry & Hr)]];
    try done.
  assert (r1 = Return v) as -> by (by destruct r1).
  apply try_anatomy in Htry as (res & post & Htr & Hcase).
  destruct res as [e|[body|]]; cbn in Hcase; try (by destruct Hcase).
  destruct (getitem body "prompt_id") as [c|id] eqn:Hid;
    [by destruct Hcase|].
  destruct Hcase as (fin & ending & turns & -> & Hturns & _ & Hend).
  destruct Hend as [(record & outputs & n & -> & Hget & Htruthy & -> & Hret)
                   |[(_ & _ & [?|?])|(_ & ? & ? & _ & _ & ?)]]; try done.
  exists wf', out', w1, body, id, record, outputs, turns, n.
  split_and!; try done.
  destruct (retrieve_workflow_outputs E n (deref w1 wf') out'); [done|].
  by injection Hret as ->.
Qed.

Lemma reports_no_output_no_failure (res : HttpResult) :
  reports_no_output res = true → poll_failure res = None.
Proof.
  destruct res as [e|[record|]]; cbn; try done.
  by destruct (getitem record "outputs").
Qed.

(** X10.  A status poll whose answer cannot be used (a transport error, a
    body that is not JSON, a record without ["outputs"]) ends the call
    at once: it is the last effect of [run_workflow], which raises the
    exception of that poll, wrapped in the [RuntimeError] of a failed
    execution unless it is a [TimeoutError]. *)
Theorem run_workflow_bad_status (fuel : nat) (h : string) (p : Z)
  (workflow : nat) (od : PyArg) (tmo : Z) (vb : Json) (ws : PyArg)
  (kw : Kwargs) (w : World) (r : Outcome Json) (w' : World)
  (h' : string) (p' : Z) (id' : Json) (res : HttpResult) (c : Exn) :
  run_workflow E fuel h p workflow od tmo vb ws kw w = (r, w') →
  EvHttp (History h' p' id') res ∈ new_events w w' →
  poll_failure res = Some c →
  r = Raise (if is_TimeoutError c then c
             else RuntimeError ("Workflow execution failed: " +:+ str_exn c)
                    (Some c)) ∧
  ∃ rest, trace w' = EvHttp (History h' p' id') res :: rest.
Proof.
  intros Hrun Hin Hfail.
  destruct (run_workflow_split _ _ _ _ _ _ _ _ _ _ _ _ Hrun)
    as [(e' & Hprep & _)|[(Hprep & _)|(wf' & out' & w1 & r1 & Hprep & Htry & Hr)]].
  - apply prepare_events in Hprep as (pre & ext & Htr & Hpre & _).
    rewrite (new_events_app w w' pre Htr) in Hin.
    rewrite Forall_forall in Hpre. by apply Hpre in Hin.
  - apply prepare_events in Hprep as (pre & ext & Htr & Hpre & _).
    rewrite (new_events_app w w' pre Htr) in Hin.
    rewrite Forall_forall in Hpre. by apply Hpre in Hin.
  - apply prepare_events in Hprep as (pre & ext & Htr & Hpre & _).
    apply try_anatomy in Htry as (res0 & post & Htr' & Hcase).
    rewrite Htr in Htr'.
    rewrite (new_events_app w w' (post ++ _ :: pre)) in Hin
      by (by rewrite Htr', <- app_assoc).
    rewrite elem_of_app, elem_of_cons in Hin.
    destruct Hin as [Hin|[?|Hin]]; [|done|].
    2:{ rewrite Forall_forall in Hpre. by apply Hpre in Hin. }
    destruct (submission_id res0) as [e|id].
    { destruct Hcase as (-> & _). by inversion Hin. }
    destruct Hcase as (fin & ending & turns & -> & Hturns & _ & Hend).
    assert (Hnot_turn : EvHttp (History h' p' id') res ∉ turns).
    { intros Hin'. rewrite Forall_forall in Hturns.
      destruct (Hturns _ Hin') as [?|(res' & [= _ _ _ <-] & Hno)]; [done|].
      apply reports_no_output_no_failure in Hno. congruence. }
    rewrite !elem_of_app in Hin.
    destruct Hend as [(record & outputs & n & -> & Hget & _ & -> & _)
                     |[(-> & -> & _)|(-> & res' & e & -> & Hfail' & ->)]].
    + destruct Hin as [Hin|[Hin|Hin]]; [|  |done].
      * rewrite elem_of_cons in Hin. destruct Hin as [?|Hin]; [done|].
        by inversion Hin.
      * rewrite elem_of_cons in Hin. destruct Hin as [[= _ _ _ ->]|Hin];
          [|by inversion Hin].
        cbn in Hfail. by rewrite Hget in Hfail.
    + destruct Hin as [Hin|[Hin|Hin]]; [by inversion Hin|by inversion Hin|done].
    + destruct Hin as [Hin|[Hin|Hin]]; [by inversion Hin| |done].
      rewrite elem_of_cons in Hin. destruct Hin as [[= -> -> -> ->]|Hin];
        [|by inversion Hin].
      assert (e = c) as -> by congruence.
      split; [done|]. rewrite Htr'. cbn. by eexists.
Qed.

(** [run_workflow] leaves the child processes alone. *)
Lemma run_workflow_processes (fuel : nat) (h : string) (p : Z)
  (workflow : nat) (od : PyArg) (tmo : Z) (vb : Json) (ws : PyArg)
  (kw : Kwargs) (w : World) (r : Outcome Json) (w' : World) :
  run_workflow E fuel h p workflow od tmo vb ws kw w = (r, w') →
  running w' = running w ∧
  Forall (λ e, is_process_event e = false) (new_events w w').
Proof.
  intros Hrun. split.
  - clear -Hrun.
    unfold run_workflow, run_workflow_prepare, uuid_uuid4, Path_mkdir,
      copy_deepcopy, utils_populate_workflow in Hrun.
    run.
    assert (Htry : ∀ wf' out' w1 r' w'',
      try_except (run_workflow_try E fuel h p wf' out' tmo)
        run_workflow_except w1 = (r', w'') → running w'' = running w1).
    { intros wf' out' w1 r' w''.
      unfold try_except, run_workflow_try, request_urlopen,
        utils_retrieve_workflow_outputs, run_workflow_except.
      run. intros H.
      destruct (http E (tick w1) _) as [e|[body|]]; run;
        try (destruct (is_TimeoutError _); by injection H as _ <-).
      destruct (getitem body "prompt_id") as [c|id]; run;
        try (destruct (is_TimeoutError _); by injection H as _ <-).
      destruct (run_workflow_poll E fuel h p id _ tmo _) as [r1 w2] eqn:Hpoll.
      apply poll_events in Hpoll as (new & _ & _ & Hrn & _).
      destruct r1 as [[]|e|].
      - destruct (retrieve_workflow_outputs E _ _ _);
          try (destruct (is_TimeoutError _)); by injection H as _ <-.
      - destruct (is_TimeoutError _); by injection H as _ <-.
      - by injection H as _ <-. }
    destruct (is_None od).
    + destruct (to_Path ws) as [e|wsp]; run; [by injection Hrun as _ <-|].
      destruct (fs_mkdir E _ _) as [e|]; run; [by injection Hrun as _ <-|].
      cbn in Hrun.
      destruct (pw_result _) as [e|[j|]]; cbn in Hrun;
        try (by injection Hrun as _ <-);
        by apply Htry in Hrun.
    + destruct (to_Path od) as [e|odp]; run; [by injection Hrun as _ <-|].
      cbn in Hrun.
      destruct (pw_result _) as [e|[j|]]; cbn in Hrun;
        try (by injection Hrun as _ <-);
        by apply Htry in Hrun.
  - destruct (run_workflow_split _ _ _ _ _ _ _ _ _ _ _ _ Hrun)
      as [(e' & Hprep & _)|[(Hprep & _)|(wf' & out' & w1 & r1 & Hprep & Htry & _)]];
      apply prepare_events in Hprep as (pre & ext & Htr & Hpre & _);
      destruct (prepare_event_kinds _ Hpre) as (_ & _ & _ & Hproc).
    + by rewrite (new_events_app w w' pre Htr).
    + by rewrite (new_events_app w w' pre Htr).
    + apply try_counts in Htry as (res & post & Htr' & _ & _ & Hpost).
      rewrite Htr in Htr'.
      rewrite (new_events_app w w' (post ++ _ :: pre))
        by (by rewrite Htr', <- app_assoc).
      apply Forall_app. split; [done|]. by constructor.
Qed.

(** The directory of the preparation, and the keyword arguments that
    [populate_workflow] gets. *)
Lemma prepare_dirs (wf : nat) (od ws : PyArg) (kw : Kwargs) (w : World)
  (r : Outcome (nat * Path)) (w1 : World) :
  run_workflow_prepare E wf od ws kw w = (r, w1) →
  (∀ e d, e ∈ new_events w w1 → event_dir e = Some d →
          run_workflow_output_dir E od ws (tick w) = inr d) ∧
  (∀ wf' out', r = Return (wf', out') →
               run_workflow_output_dir E od ws (tick w) = inr out') ∧
  (∀ d k, EvPopulate d k ∈ new_events w w1 → k = kw) ∧
  (is_None od = false → Forall (λ e, ∃ d k, e = EvPopulate d k) (new_events w w1)).
Proof.
  unfold run_workflow_prepare, run_workflow_output_dir, uuid_uuid4,
    Path_mkdir, copy_deepcopy, utils_populate_workflow.
  intros Hrun. run.
  destruct (is_None od).
  - destruct (to_Path ws) as [e|wsp]; run.
    { injection Hrun as <- <-.
      rewrite (new_events_app w w []) by reflexivity.
      split_and!; intros; decompose_list_elem_of; by simplify_eq/=. }
    destruct (fs_mkdir E _ _) as [e|]; run.
    { injection Hrun as <- <-.
      erewrite (new_events_app w _ [_; _]) by reflexivity.
      split_and!; intros; decompose_list_elem_of; by simplify_eq/=. }
    cbn in Hrun.
    destruct (pw_result _) as [e|[j|]]; injection Hrun as <- <-;
      erewrite (new_events_app w _ [_; _; _]) by reflexivity;
      split_and!; intros; decompose_list_elem_of; by simplify_eq/=.
  - destruct (to_Path od) as [e|odp]; run.
    { injection Hrun as <- <-.
      rewrite (new_events_app w w []) by reflexivity.
      split_and!; intros; decompose_list_elem_of; by simplify_eq/=. }
    cbn in Hrun.
    destruct (pw_result _) as [e|[j|]]; injection Hrun as <- <-;
      erewrite (new_events_app w _ [_]) by reflexivity;
      split_and!; intros; decompose_list_elem_of; simplify_eq/=; try done;
      repeat constructor; by eexists _, _.
Qed.

(** The effects of a call of [run_workflow], sorted: those of the
    preparation, the submission, and what follows it. *)
Lemma run_workflow_anatomy (fuel : nat) (h : string) (p : Z) (workflow : nat)
  (od : PyArg) (tmo : Z) (vb : Json) (ws : PyArg) (kw : Kwargs) (w : World)
  (r : Outcome Json) (w' : World) :
  run_workflow E fuel h p workflow od tmo vb ws kw w = (r, w') →
  ∃ r0 w1,
    run_workflow_prepare E workflow od ws kw w = (r0, w1) ∧
    ((w' = w1 ∧ ∀ x, r0 ≠ Return x) ∨
     (∃ wf' out' body res post,
        r0 = Return (wf', out') ∧
        new_events w w' =
          post ++ EvHttp (Prompt h p body) res :: new_events w w1 ∧
        Forall (λ e, e = EvRetrieve out' ∨ e = EvSleep 1 ∨
                     ∃ id res', e = EvHttp (History h p id) res') post)).
Proof.
  intros Hrun.
  destruct (run_workflow_split _ _ _ _ _ _ _ _ _ _ _ _ Hrun)
    as [(e' & Hprep & _)|[(Hprep & _)|(wf' & out' & w1 & r1 & Hprep & Htry & _)]].
  - eexists _, _. split; [done|]. left. done.
  - eexists _, _. split; [done|]. left. done.
  - eexists _, _. split; [done|]. right.
    pose proof Hprep as Hev.
    apply prepare_events in Hev as (pre & ext & Htr & _).
    apply try_anatomy in Htry as (res & post & Htr' & Hcase).
    exists wf', out', (JObj [("prompt", deref w1 wf')]), res, post.
    split; [done|]. split.
    { rewrite (new_events_app w w1 pre Htr). apply new_events_app.
      by rewrite Htr', Htr, <- app_assoc. }
    destruct (submission_id res) as [e|id].
    { by destruct Hcase as (-> & _). }
    destruct Hcase as (fin & ending & turns & -> & Hturns & _ & Hend).
    assert (Hturns' : Forall (λ e, e = EvRetrieve out' ∨ e = EvSleep 1 ∨
                       ∃ id res', e = EvHttp (History h p id) res') turns).
    { eapply Forall_impl; [exact Hturns|].
      intros e [->|(res' & -> & _)]; [by right; left|].
      right. right. by eexists _, _. }
    destruct Hend as [(record & outputs & n & -> & _ & _ & -> & _)
                     |[(-> & -> & _)|(-> & res' & e & -> & _)]]; cbn.
    + constructor; [by left|]. constructor; [|done].
      right. right. by eexists _, _.
    + done.
    + constructor; [|done]. right. right. by eexists _, _.
Qed.

(** The directories [run_workflow] works with are one: its output
    directory. *)
Lemma run_workflow_dirs (fuel : nat) (h : string) (p : Z) (workflow : nat)
  (od : PyArg) (tmo : Z) (vb : Json) (ws : PyArg) (kw : Kwargs) (w : World)
  (r : Outcome Json) (w' : World) (e : Event) (d : Path) :
  run_workflow E fuel h p workflow od tmo vb ws kw w = (r, w') →
  e ∈ new_events w w' →
  event_dir e = Some d →
  run_workflow_output_dir E od ws (tick w) = inr d.
Proof.
  intros Hrun Hin Hd.
  destruct (run_workflow_anatomy _ _ _ _ _ _ _ _ _ _ _ _ Hrun)
    as (r0 & w1 & Hprep & [(-> & _)|Hsent]).
  - by destruct (prepare_dirs _ _ _ _ _ _ _ Hprep) as (Hdirs & _);
      eapply Hdirs.
  - destruct Hsent as (wf' & out' & body & res & post & -> & Hnew & Hpost).
    destruct (prepare_dirs _ _ _ _ _ _ _ Hprep) as (Hdirs & Hout & _).
    rewrite Hnew, elem_of_app, elem_of_cons in Hin.
    destruct Hin as [Hin|[->|Hin]]; [|done|by eapply Hdirs].
    rewrite Forall_forall in Hpost.
    destruct (Hpost _ Hin) as [->|[->|(id & res' & ->)]]; try done.
    injection Hd as <-. by eapply Hout.
Qed.

(** The requests of [run_workflow] go to the host and port it is given. *)
Lemma run_workflow_addressed (fuel : nat) (h : string) (p : Z)
  (workflow : nat) (od : PyArg) (tmo : Z) (vb : Json) (ws : PyArg)
  (kw : Kwargs) (w : World) (r : Outcome Json) (w' : World)
  (req : Request) (res : HttpResult) :
  run_workflow E fuel h p workflow od tmo vb ws kw w = (r, w') →
  EvHttp req res ∈ new_events w w' →
  (∃ body, req = Prompt h p body) ∨ (∃ id, req = History h p id).
Proof.
  intros Hrun Hin.
  destruct (run_workflow_anatomy _ _ _ _ _ _ _ _ _ _ _ _ Hrun)
    as (r0 & w1 & Hprep & Hcase).
  pose proof Hprep as Hev.
  apply prepare_events in Hev as (pre & ext & Htr & Hpre & _).
  rewrite (new_events_app w w1 pre Htr) in Hcase.
  assert (Hnopre : EvHttp req res ∉ pre).
  { intros Hin'. rewrite Forall_forall in Hpre. by apply Hpre in Hin'. }
  destruct Hcase as [(-> & _)|Hsent].
  - by rewrite (new_events_app w w1 pre Htr) in Hin.
  - destruct Hsent as (wf' & out' & body & res0 & post & -> & Hnew & Hpost).
    rewrite Hnew, elem_of_app, elem_of_cons in Hin.
    destruct Hin as [Hin|[[= -> ->]|Hin]]; [|left; by eexists|done].
    rewrite Forall_forall in Hpost.
    destruct (Hpost _ Hin) as [?|[?|(id & res' & [= -> ->])]]; try done.
    right. by eexists.
Qed.

(** The dictionaries that existed before a call of [run_workflow] are
    the same after it. *)
Lemma run_workflow_heap (fuel : nat) (h : string) (p : Z) (workflow : nat)
  (od : PyArg) (tmo : Z) (vb : Json) (ws : PyArg) (kw : Kwargs) (w : World)
  (r : Outcome Json) (w' : World) :
  run_workflow E fuel h p workflow od tmo vb ws kw w = (r, w') →
  ∃ ext, heap w' = heap w ++ ext.
Proof.
  intros Hrun.
  destruct (run_workflow_split _ _ _ _ _ _ _ _ _ _ _ _ Hrun)
    as [(e' & Hprep & _)|[(Hprep & _)|(wf' & out' & w1 & r1 & Hprep & Htry & _)]];
    apply prepare_events in Hprep as (pre & ext & _ & _ & Hhp & _);
    try (by exists ext).
  apply try_events in Htry as (res & post & _ & _ & Hhp' & _).
  exists ext. congruence.
Qed.

End RunWorkflow.

Section Callers.

Context (E : Env).

(** Lines 136-140 of [execute_workflow], in full. *)
Lemma output_dir_anatomy (self : ComfyUIServer) (session_id : string)
  (w : World) (r : Outcome Path) (w1 : World) :
  execute_workflow_output_dir E self session_id w = (r, w1) →
  let out := [workspace self; "output"; session_of E session_id (tick w)] in
  trace w1 =
    (EvMkdir out ::
     (if String.eqb session_id EmptyString
      then [EvUuid (uuid4 E (tick w))] else [])) ++ trace w ∧
  heap w1 = heap w ∧ running w1 = running w ∧
  (∀ o, r = Return o → o = out) ∧
  (∀ e, r = Raise e → ∃ n, fs_mkdir E n out = Some e) ∧
  r ≠ OutOfFuel.
Proof.
  unfold execute_workflow_output_dir, session_of, uuid_uuid4, Path_mkdir.
  run. intros Hrun.
  destruct (String.eqb session_id EmptyString); run;
    destruct (fs_mkdir E _ _) as [e|] eqn:Hmk; injection Hrun as <- <-;
    split_and!; try done; intros; simplify_eq; by eexists.
Qed.

Lemma new_events_trans (w w1 w' : World) (l0 l1 : list Event) :
  trace w1 = l0 ++ trace w →
  trace w' = l1 ++ trace w1 →
  new_events w w' = new_events w1 w' ++ new_events w w1.
Proof.
  intros H0 H1.
  rewrite (new_events_app w w1 l0 H0), (new_events_app w1 w' l1 H1).
  apply new_events_app. by rewrite H1, H0, <- app_assoc.
Qed.

(** A call of [run_workflow] only adds to the trace. *)
Lemma run_workflow_trace (fuel : nat) (h : string) (p : Z) (workflow : nat)
  (od : PyArg) (tmo : Z) (vb : Json) (ws : PyArg) (kw : Kwargs) (w : World)
  (r : Outcome Json) (w' : World) :
  run_workflow E fuel h p workflow od tmo vb ws kw w = (r, w') →
  ∃ l, trace w' = l ++ trace w.
Proof.
  intros Hrun.
  destruct (run_workflow_split _ _ _ _ _ _ _ _ _ _ _ _ _ Hrun)
    as [(? & Hp & _)|[(Hp & _)|(? & ? & w3 & ? & Hp & Htry & _)]];
    apply prepare_events in Hp as (pre & ? & Hpre & _);
    try (by exists pre).
  apply try_events in Htry as (? & post & Hpost & _).
  eexists (post ++ _ :: pre). rewrite Hpost, Hpre. by rewrite <- app_assoc.
Qed.

(** [execute_workflow], stage by stage. *)
Lemma execute_workflow_split (fuel : nat) (self : ComfyUIServer)
  (workflow : nat) (inputs : Kwargs) (session_id : string) (tmo : Z)
  (w : World) (r : Outcome Json) (w' : World) :
  execute_workflow E fuel self workflow inputs session_id tmo w = (r, w') →
  (∃ e, execute_workflow_output_dir E self session_id w = (Raise e, w') ∧
        r = Raise e) ∨
  (∃ out w1,
     execute_workflow_output_dir E self session_id w = (Return out, w1) ∧
     ((∃ k, duplicate_keyword local_call_names inputs = Some k ∧ w' = w1 ∧
            ∃ c, c = TypeError
                       ("run_workflow() got multiple values for keyword argument '"
                          +:+ k +:+ "'") ∧
                 r = Raise (RuntimeError
                              ("Workflow execution failed: " +:+ str_exn c)
                              (Some c))) ∨
      (duplicate_keyword local_call_names inputs = None ∧
       ∃ r1,
         run_workflow E fuel (host self) (port self) workflow (ArgPath out)
           tmo (JNum (verbose self)) (ArgVal (JStr (workspace self))) inputs w1
         = (r1, w') ∧
         r = match r1 with
             | Raise c =>
                 Raise (RuntimeError
                          ("Workflow execution failed: " +:+ str_exn c)
                          (Some c))
             | _ => r1
             end))).
Proof.
  unfold execute_workflow. run. intros Hrun.
  destruct (execute_workflow_output_dir E self session_id w)
    as [[out|e|] w1] eqn:Hdir.
  - right. exists out, w1. split; [done|].
    unfold execute_workflow_call, bind_inputs, local_call_names in *. run.
    destruct (duplicate_keyword _ inputs) as [k|]; run.
    + left. injection Hrun as <- <-. exists k. split_and!; try done.
      by eexists.
    + right. split; [done|].
      destruct (run_workflow E fuel _ _ workflow _ tmo _ _ inputs w1)
        as [r1 w2].
      exists r1. by destruct r1; injection Hrun as <- <-.
  - left. injection Hrun as <- <-. by exists e.
  - by destruct (output_dir_anatomy _ _ _ _ _ Hdir) as (_ & _ & _ & _ & _ & ?).
Qed.

(** X11.  An exception that leaves [execute_workflow] is the
    [RuntimeError] of a failed execution carrying its cause, unless it
    is the one that [mkdir] of the output directory raised, before the
    [try]: no other kind gets out, a [TimeoutError] neither. *)
Theorem execute_workflow_exception_kinds (fuel : nat) (self : ComfyUIServer)
  (workflow : nat) (inputs : Kwargs) (session_id : string) (tmo : Z)
  (w : World) (e : Exn) (w' : World) :
  execute_workflow E fuel self workflow inputs session_id tmo w = (Raise e, w') →
  (∃ c, e = RuntimeError ("Workflow execution failed: " +:+ str_exn c)
              (Some c)) ∨
  (∃ n, fs_mkdir E n
          [workspace self; "output"; session_of E session_id (tick w)]
        = Some e).
Proof.
  intros Hrun.
  destruct (execute_workflow_split _ _ _ _ _ _ _ _ _ Hrun)
    as [(e' & Hdir & [= <-])|(out & w1 & Hdir & Hcall)].
  - right.
    destruct (output_dir_anatomy _ _ _ _ _ Hdir) as (_ & _ & _ & _ & Hmk & _).
    by apply Hmk.
  - left. destruct Hcall as [(k & _ & _ & c & _ & [= ->])|(_ & r1 & _ & Hr)].
    + by exists c.
    + destruct r1 as [v|c|]; try done. injection Hr as ->. by exists c.
Qed.



(** X13.  The directories a call of [execute_workflow] creates, populates
    and retrieves from are one: [output/<session>] under the workspace
    of the object, where the session is the one given or, when that is
    empty, a fresh UUID. *)
Theorem execute_workflow_session_dir (fuel : nat) (self : ComfyUIServer)
  (workflow : nat) (inputs : Kwargs) (session_id : string) (tmo : Z)
  (w : World) (r : Outcome Json) (w' : World) (e : Event) (d : Path) :
  execute_workflow E fuel self workflow inputs session_id tmo w = (r, w') →
  e ∈ new_events w w' →
  event_dir e = Some d →
  d = [workspace self; "output"; session_of E session_id (tick w)].
Proof.
  intros Hrun Hin Hd.
  assert (Hfirst : ∀ (r0 : Outcome Path) (w1 : World) (e0 : Event),
            execute_workflow_output_dir E self session_id w = (r0, w1) →
            e0 ∈ new_events w w1 → event_dir e0 = Some d →
            d = [workspace self; "output"; session_of E session_id (tick w)]).
  { intros r0 w1 e0 Hdir Hin0 Hd0.
    destruct (output_dir_anatomy _ _ _ _ _ Hdir) as (Htr & _).
    rewrite (new_events_app w w1 _ Htr) in Hin0.
    destruct (String.eqb session_id EmptyString);
      decompose_list_elem_of; by simplify_eq/=. }
  destruct (execute_workflow_split _ _ _ _ _ _ _ _ _ Hrun)
    as [(e' & Hdir & _)|(out & w1 & Hdir & Hcall)]; [by eapply Hfirst|].
  destruct (output_dir_anatomy _ _ _ _ _ Hdir) as (Htr & _ & _ & Hout & _).
  specialize (Hout _ eq_refl). subst out.
  destruct Hcall as [(k & _ & -> & _)|(_ & r1 & Hrw & _)]; [by eapply Hfirst|].
  destruct (run_workflow_trace _ _ _ _ _ _ _ _ _ _ _ _ Hrw) as (l1 & Hl1).
  rewrite (new_events_trans w w1 w' _ l1 Htr Hl1), elem_of_app in Hin.
  destruct Hin as [Hin|Hin]; [|by eapply Hfirst].
  pose proof (run_workflow_dirs E _ _ _ _ _ _ _ _ _ _ _ _ _ _ Hrw Hin Hd) as Hrd.
  cbn in Hrd. by injection Hrd as <-.
Qed.

(** X14.  Whatever its outcome, a timeout included, [execute_workflow]
    leaves the engine alone: it spawns, signals and waits for no process,
    the processes alive stay alive, every dictionary that existed keeps
    its content, and all its requests go to the host and port of the
    object. *)
Theorem execute_workflow_leaves_engine (fuel : nat) (self : ComfyUIServer)
  (workflow : nat) (inputs : Kwargs) (session_id : string) (tmo : Z)
  (w : World) (r : Outcome Json) (w' : World) :
  execute_workflow E fuel self workflow inputs session_id tmo w = (r, w') →
  running w' = running w ∧
  Forall (λ e, is_process_event e = false) (new_events w w') ∧
  (∃ ext, heap w' = heap w ++ ext) ∧
  ∀ req res,
    EvHttp req res ∈ new_events w w' →
    (∃ body, req = Prompt (host self) (port self) body) ∨
    (∃ id, req = History (host self) (port self) id).
Proof.
  intros Hrun.
  assert (Hfirst : ∀ (r0 : Outcome Path) (w1 : World),
            execute_workflow_output_dir E self session_id w = (r0, w1) →
            running w1 = running w ∧ heap w1 = heap w ∧
            Forall (λ e, is_process_event e = false) (new_events w w1) ∧
            ∀ req res, EvHttp req res ∉ new_events w w1).
  { intros r0 w1 Hdir.
    destruct (output_dir_anatomy _ _ _ _ _ Hdir) as (Htr & Hhp & Hrn & _).
    rewrite (new_events_app w w1 _ Htr). split_and!; try done.
    - destruct (String.eqb session_id EmptyString); by repeat constructor.
    - intros req res Hin.
      destruct (String.eqb session_id EmptyString);
        decompose_list_elem_of; by simplify_eq/=. }
  destruct (execute_workflow_split _ _ _ _ _ _ _ _ _ Hrun)
    as [(e' & Hdir & _)|(out & w1 & Hdir & Hcall)].
  - destruct (Hfirst _ _ Hdir) as (Hrn & Hhp & Hproc & Hnoreq).
    split_and!; try done.
    + exists []. by rewrite app_nil_r.
    + intros req res Hin. by apply Hnoreq in Hin.
  - destruct (Hfirst _ _ Hdir) as (Hrn & Hhp & Hproc & Hnoreq).
    destruct Hcall as [(k & _ & -> & _)|(_ & r1 & Hrw & _)].
    + split_and!; try done.
      * exists []. by rewrite app_nil_r.
      * intros req res Hin. by apply Hnoreq in Hin.
    + destruct (output_dir_anatomy _ _ _ _ _ Hdir) as (Htr & _).
      destruct (run_workflow_trace _ _ _ _ _ _ _ _ _ _ _ _ Hrw) as (l1 & Hl1).
      destruct (run_workflow_processes E _ _ _ _ _ _ _ _ _ _ _ _ Hrw)
        as (Hrn' & Hproc').
      destruct (run_workflow_heap E _ _ _ _ _ _ _ _ _ _ _ _ Hrw)
        as (ext & Hext).
      rewrite (new_events_trans w w1 w' _ l1 Htr Hl1).
      split_and!.
      * congruence.
      * by apply Forall_app.
      * exists ext. congruence.
      * intros req res Hin. rewrite elem_of_app in Hin.
        destruct Hin as [Hin|Hin]; [|by apply Hnoreq in Hin].
        by eapply run_workflow_addressed.
Qed.

(** [execute_remote_workflow], stage by stage. *)
Lemma execute_remote_workflow_split (fuel : nat) (server_url : string)
  (workflow : nat) (inputs : Kwargs) (session_id : string) (tmo : Z)
  (w : World) (r : Outcome Json) (w' : World) :
  execute_remote_workflow E fuel server_url workflow inputs session_id tmo w
  = (r, w') →
  (w' = w ∧
   ∃ c, r = Raise (RuntimeError
                     ("Remote workflow execution failed: " +:+ str_exn c)
                     (Some c)) ∧
        (urlparse E server_url = inl c ∨
         (∃ parsed, urlparse E server_url = inr parsed ∧
                    url_port parsed = inl c) ∨
         (∃ k, duplicate_keyword remote_call_names inputs = Some k ∧
               c = TypeError
                     ("run_workflow() got multiple values for keyword argument '"
                        +:+ k +:+ "'")))) ∨
  (∃ parsed po r1,
     urlparse E server_url = inr parsed ∧
     url_port parsed = inr po ∧
     duplicate_keyword remote_call_names inputs = None ∧
     run_workflow E fuel (remote_host parsed) (remote_port po) workflow
       (ArgVal (default JNull (dict_get "output_dir" inputs)))
       tmo
       (default (JNum 0) (dict_get "verbose" inputs))
       (ArgVal (default (JStr ".") (dict_get "workspace" inputs)))
       (rest_kwargs ["output_dir"; "verbose"; "workspace"] inputs) w
     = (r1, w') ∧
     r = match r1 with
         | Raise c =>
             Raise (RuntimeError
                      ("Remote workflow execution failed: " +:+ str_exn c)
                      (Some c))
         | _ => r1
         end).
Proof.
  unfold execute_remote_workflow, bind_inputs, remote_call_names,
    remote_host, remote_port.
  run. intros Hrun.
  destruct (urlparse E server_url) as [e|parsed]; run.
  { injection Hrun as <- <-. left. split; [done|]. exists e. by split; [|left]. }
  destruct (url_port parsed) as [e|po] eqn:Hport; run.
  { injection Hrun as <- <-. left. split; [done|]. exists e.
    split; [done|]. right. left. by exists parsed. }
  destruct (duplicate_keyword _ inputs) as [k|] eqn:Hdup; run.
  { injection Hrun as <- <-. left. split; [done|]. eexists (TypeError _).
    split; [reflexivity|]. right. right. by exists k. }
  right.
  destruct (run_workflow E fuel _ _ workflow _ tmo _ _ _ w) as [r1 w1] eqn:Hrw.
  exists parsed, po, r1. split_and!; try done.
  - by destruct r1; injection Hrun as _ <-.
  - by destruct r1; injection Hrun as <- _.
Qed.

(** X15.  Every exception that leaves [execute_remote_workflow] is a
    [RuntimeError] of a failed remote execution carrying its cause: a URL
    that cannot be parsed, a clash of an input with a parameter, a
    failure of the preparation and the [TimeoutError] of the poll loop
    are all wrapped alike. *)
Theorem execute_remote_workflow_raises (fuel : nat) (server_url : string)
  (workflow : nat) (inputs : Kwargs) (session_id : string) (tmo : Z)
  (w : World) (e : Exn) (w' : World) :
  execute_remote_workflow E fuel server_url workflow inputs session_id tmo w
  = (Raise e, w') →
  ∃ c, e = RuntimeError ("Remote workflow execution failed: " +:+ str_exn c)
             (Some c).
Proof.
  intros Hrun.
  destruct (execute_remote_workflow_split _ _ _ _ _ _ _ _ _ Hrun)
    as [(_ & c & [= ->] & _)|(parsed & po & r1 & _ & _ & _ & _ & Hr)].
  - by exists c.
  - destruct r1 as [v|c|]; try done. injection Hr as ->. by exists c.
Qed.

(** X16.  The requests of [execute_remote_workflow] are a submission and
    status polls, all to the host and port of the URL, with [localhost]
    for a missing or empty host and 8188 for a missing or zero port; no
    process is spawned, signalled or waited for, and the processes alive
    stay alive. *)
Theorem execute_remote_workflow_requests (fuel : nat) (server_url : string)
  (workflow : nat) (inputs : Kwargs) (session_id : string) (tmo : Z)
  (w : World) (r : Outcome Json) (w' : World) :
  execute_remote_workflow E fuel server_url workflow inputs session_id tmo w
  = (r, w') →
  running w' = running w ∧
  Forall (λ e, is_process_event e = false) (new_events w w') ∧
  ∀ req res,
    EvHttp req res ∈ new_events w w' →
    ∃ parsed po,
      urlparse E server_url = inr parsed ∧ url_port parsed = inr po ∧
      ((∃ body, req = Prompt (remote_host parsed) (remote_port po) body) ∨
       (∃ id, req = History (remote_host parsed) (remote_port po) id)).
Proof.
  intros Hrun.
  destruct (execute_remote_workflow_split _ _ _ _ _ _ _ _ _ Hrun)
    as [(-> & _)|(parsed & po & r1 & Hparse & Hport & _ & Hrw & _)].
  - rewrite (new_events_app w w []) by reflexivity.
    split_and!; try done. intros req res Hin. by inversion Hin.
  - destruct (run_workflow_processes E _ _ _ _ _ _ _ _ _ _ _ _ Hrw)
      as (Hrn & Hproc).
    split_and!; try done.
    intros req res Hin. exists parsed, po. split_and!; try done.
    by eapply run_workflow_addressed.
Qed.

(** X17.  The directories a call of [execute_remote_workflow] works with
    are one, decided by the inputs alone: the input [output_dir] when
    there is one, else [output/<fresh UUID>] under the input [workspace]
    or under the current directory. *)
Theorem execute_remote_workflow_dirs (fuel : nat) (server_url : string)
  (workflow : nat) (inputs : Kwargs) (session_id : string) (tmo : Z)
  (w : World) (r : Outcome Json) (w' : World) (e : Event) (d : Path) :
  execute_remote_workflow E fuel server_url workflow inputs session_id tmo w
  = (r, w') →
  e ∈ new_events w w' →
  event_dir e = Some d →
  run_workflow_output_dir E
    (ArgVal (default JNull (dict_get "output_dir" inputs)))
    (ArgVal (default (JStr ".") (dict_get "workspace" inputs)))
    (tick w)
  = inr d.
Proof.
  intros Hrun Hin Hd.
  destruct (execute_remote_workflow_split _ _ _ _ _ _ _ _ _ Hrun)
    as [(-> & _)|(parsed & po & r1 & _ & _ & _ & Hrw & _)].
  - rewrite (new_events_app w w []) in Hin by reflexivity. by inversion Hin.
  - by eapply run_workflow_dirs.
Qed.

End Callers.

(** * The service

    [ComfyLitAPI]: what [predict] answers, and what [setup] and [cleanup]
    do to the engine. *)

Section Service.
Context (E : Env).

Lemma prepare_total (wf : nat) (od ws : PyArg) (kw : Kwargs) (w : World) :
  (run_workflow_prepare E wf od ws kw w).1 ≠ OutOfFuel.
Proof.
  unfold run_workflow_prepare, uuid_uuid4, Path_mkdir, copy_deepcopy,
    utils_populate_workflow.
  run.
  destruct (is_None od).
  - destruct (to_Path ws) as [e|wsp]; run; [done|].
    destruct (fs_mkdir E _ _) as [e|]; run; [done|].
    destruct (pw_result _) as [e|[j|]]; done.
  - destruct (to_Path od) as [e|odp]; run; [done|].
    destruct (pw_result _) as [e|[j|]]; done.
Qed.

Lemma try_total (fuel : nat) (h : string) (p : Z) (wf : nat) (out : Path)
  (tmo : Z) (w : World) :
  (Z.to_nat tmo < fuel)%nat →
  (run_workflow_try E fuel h p wf out tmo w).1 ≠ OutOfFuel.
Proof.
  intros Hfuel.
  unfold run_workflow_try, request_urlopen, utils_retrieve_workflow_outputs.
  run.
  destruct (http E (tick w) _) as [e|[body|]]; run; try done.
  destruct (getitem body "prompt_id") as [e|id]; run; try done.
  match goal with
  | |- context [run_workflow_poll E fuel h p id ?st tmo ?w1] =>
      pose proof (poll_total E fuel h p id st tmo w1) as Hpoll;
      destruct (run_workflow_poll E fuel h p id st tmo w1) as [[[]|e|] w2]
  end; try done.
  - by destruct (retrieve_workflow_outputs E _ _ _).
  - exfalso. apply Hpoll; [|done].
    replace (now _ + tmo - now _) with tmo by (cbn; lia). done.
Qed.

Lemma run_workflow_total (fuel : nat) (h : string) (p : Z) (workflow : nat)
  (od : PyArg) (tmo : Z) (vb : Json) (ws : PyArg) (kw : Kwargs) (w : World) :
  (Z.to_nat tmo < fuel)%nat →
  (run_workflow E fuel h p workflow od tmo vb ws kw w).1 ≠ OutOfFuel.
Proof.
  intros Hfuel. unfold run_workflow. run.
  pose proof (prepare_total workflow od ws kw w) as Hprep.
  destruct (run_workflow_prepare E workflow od ws kw w) as [[[wf' out']|e|] w1];
    try done.
  pose proof (try_total fuel h p wf' out' tmo w1 Hfuel) as Htry.
  cbn [fst snd].
  destruct (run_workflow_try E fuel h p wf' out' tmo w1) as [[v|e|] w2];
    try done.
  unfold run_workflow_except. by destruct (is_TimeoutError e).
Qed.


Lemma execute_workflow_total (fuel : nat) (self : ComfyUIServer)
  (workflow : nat) (inputs : Kwargs) (session_id : string) (tmo : Z)
  (w : World) :
  (Z.to_nat tmo < fuel)%nat →
  (execute_workflow E fuel self workflow inputs session_id tmo w).1 ≠ OutOfFuel.
Proof.
  intros Hfuel. unfold execute_workflow. run.
  pose proof (output_dir_anatomy E self session_id w) as Hdir.
  destruct (execute_workflow_output_dir E self session_id w) as [[out|e|] w1];
    try done.
  - unfold execute_workflow_call, bind_inputs. run.
    destruct (duplicate_keyword _ inputs) as [k|]; [done|].
    match goal with
    | |- context [run_workflow E fuel ?h ?p ?wf ?od ?t ?vb ?ws ?kw ?w0] =>
        pose proof (run_workflow_total fuel h p wf od t vb ws kw w0 Hfuel)
          as Hrw;
        destruct (run_workflow E fuel h p wf od t vb ws kw w0) as [[v|e|] w2]
    end; unfold execute_workflow_except; run; try done; by destruct Hrw.
  - by destruct (Hdir _ _ eq_refl) as (_ & _ & _ & _ & _ & ?).
Qed.

Lemma execute_remote_workflow_total (fuel : nat) (server_url : string)
  (workflow : nat) (inputs : Kwargs) (session_id : string) (tmo : Z)
  (w : World) :
  (Z.to_nat tmo < fuel)%nat →
  (execute_remote_workflow E fuel server_url workflow inputs session_id tmo w).1
  ≠ OutOfFuel.
Proof.
  intros Hfuel. unfold execute_remote_workflow, bind_inputs. run.
  destruct (urlparse E server_url) as [e|parsed]; run; [done|].
  destruct (url_port parsed) as [e|po]; run; [done|].
  destruct (duplicate_keyword _ inputs) as [k|]; run; [done|].
  match goal with
  | |- context [run_workflow E fuel ?h ?p ?wf ?od ?t ?vb ?ws ?kw ?w0] =>
      pose proof (run_workflow_total fuel h p wf od t vb ws kw w0 Hfuel)
        as Hrw;
      destruct (run_workflow E fuel h p wf od t vb ws kw w0) as [[v|e|] w2]
  end; try done; by destruct Hrw.
Qed.

(** [predict] by cases: what it computes with an engine at a URL, with
    an engine of its own, and without one. *)
Lemma predict_remote (fuel : nat) (self : api.ComfyLitAPI)
  (request : schema.WorkflowExecutionRequest) (w : World) :
  api.url_given (api.settings self) = true →
  api.predict E fuel self request w =
    match execute_remote_workflow E fuel
            (default EmptyString
               (schema.comfyui_server_url (api.settings self)))
            (length (heap w)) (schema.inputs request)
            (schema.session_id request) 300
            (set_heap (heap w ++ [JStr (schema.workflow_id request)]) w) with
    | (Return v, w') => (Return (api.predict_completed request v), w')
    | (Raise e, w') => (Return (api.predict_failed request (str_exn e)), w')
    | (OutOfFuel, w') => (OutOfFuel, w')
    end.
Proof.
  intros Hurl. unfold api.predict, api.new_object. rewrite Hurl. run.
  by destruct (execute_remote_workflow _ _ _ _ _ _ _ _) as [[v|e|] w'].
Qed.

Lemma predict_local (fuel : nat) (self : api.ComfyLitAPI)
  (request : schema.WorkflowExecutionRequest) (s : ComfyUIServer)
  (w : World) :
  api.url_given (api.settings self) = false →
  api.server self = Some s →
  api.predict E fuel self request w =
    match execute_workflow E fuel s (length (heap w)) (schema.inputs request)
            (schema.session_id request) 300
            (set_heap (heap w ++ [JStr (schema.workflow_id request)]) w) with
    | (Return v, w') => (Return (api.predict_completed request v), w')
    | (Raise e, w') => (Return (api.predict_failed request (str_exn e)), w')
    | (OutOfFuel, w') => (OutOfFuel, w')
    end.
Proof.
  intros Hurl Hs. unfold api.predict, api.new_object. rewrite Hurl, Hs. run.
  by destruct (execute_workflow _ _ _ _ _ _ _ _) as [[v|e|] w'].
Qed.

Lemma predict_no_server (fuel : nat) (self : api.ComfyLitAPI)
  (request : schema.WorkflowExecutionRequest) (w : World) :
  api.url_given (api.settings self) = false →
  api.server self = None →
  api.predict E fuel self request w =
    (Return (api.predict_failed request
               "'NoneType' object has no attribute 'execute_workflow'"), w).
Proof.
  intros Hurl Hs. unfold api.predict. by rewrite Hurl, Hs.
Qed.

(** X18.  [predict] never raises: whatever the executor raises, a timeout
    included, comes back as a dictionary, and with fuel for the 300
    seconds of polling the call returns one of its two dictionaries, the
    one of a completed or the one of a failed execution. *)
Theorem predict_always_answers (fuel : nat) (self : api.ComfyLitAPI)
  (request : schema.WorkflowExecutionRequest) (w : World) :
  (∀ e w', api.predict E fuel self request w ≠ (Raise e, w')) ∧
  ((300 < fuel)%nat →
   ∃ d w',
     api.predict E fuel self request w = (Return d, w') ∧
     ((∃ result, d = api.predict_completed request result) ∨
      (∃ error, d = api.predict_failed request error))).
Proof.
  destruct (api.url_given (api.settings self)) eqn:Hurl;
    [|destruct (api.server self) as [s|] eqn:Hs].
  - rewrite predict_remote by done.
    pose proof (execute_remote_workflow_total fuel
                  (default EmptyString
                     (schema.comfyui_server_url (api.settings self)))
                  (length (heap w)) (schema.inputs request)
                  (schema.session_id request) 300
                  (set_heap (heap w ++ [JStr (schema.workflow_id request)]) w))
      as Htot.
    destruct (execute_remote_workflow _ _ _ _ _ _ _ _) as [[v|e|] w1];
      (split; [done|]); intros Hfuel.
    + eexists _, _. split; [done|]. left. by eexists.
    + eexists _, _. split; [done|]. right. by eexists.
    + exfalso. apply Htot; [lia|done].
  - rewrite (predict_local _ _ _ s) by done.
    pose proof (execute_workflow_total fuel s (length (heap w))
                  (schema.inputs request) (schema.session_id request) 300
                  (set_heap (heap w ++ [JStr (schema.workflow_id request)]) w))
      as Htot.
    destruct (execute_workflow _ _ _ _ _ _ _ _) as [[v|e|] w1];
      (split; [done|]); intros Hfuel.
    + eexists _, _. split; [done|]. left. by eexists.
    + eexists _, _. split; [done|]. right. by eexists.
    + exfalso. apply Htot; [lia|done].
  - rewrite predict_no_server by done. split; [done|]. intros _.
    eexists _, _. split; [done|]. right. by eexists.
Qed.

(** X19.  The error text of a failed answer of [predict]: with an engine
    at a URL it is that of the [RuntimeError] of a failed remote
    execution; with an engine of its own it is that of the
    [RuntimeError] of a failed execution, or of the exception that
    [mkdir] of the session's output directory raised; and without a
    server object it is the text of the [AttributeError], and nothing was
    done. *)
Theorem predict_error_text (fuel : nat) (self : api.ComfyLitAPI)
  (request : schema.WorkflowExecutionRequest) (w : World) (error : string)
  (w' : World) :
  api.predict E fuel self request w
  = (Return (api.predict_failed request error), w') →
  if api.url_given (api.settings self) then
    ∃ c, error = "Remote workflow execution failed: " +:+ str_exn c
  else
    match api.server self with
    | Some s =>
        (∃ c, error = "Workflow execution failed: " +:+ str_exn c) ∨
        (∃ n e,
           fs_mkdir E n
             [workspace s; "output";
              session_of E (schema.session_id request) (tick w)] = Some e ∧
           error = str_exn e)
    | None =>
        error = "'NoneType' object has no attribute 'execute_workflow'" ∧
        w' = w
    end.
Proof.
  intros Hrun.
  destruct (api.url_given (api.settings self)) eqn:Hurl;
    [|destruct (api.server self) as [s|] eqn:Hs].
  - rewrite predict_remote in Hrun by done.
    destruct (execute_remote_workflow _ _ _ _ _ _ _ _) as [[v|e|] w1] eqn:Hex;
      try done.
    injection Hrun as <- _.
    destruct (execute_remote_workflow_split _ _ _ _ _ _ _ _ _ _ Hex)
      as [(_ & c & [= ->] & _)|(parsed & po & r1 & _ & _ & _ & _ & Hr)].
    + by exists c.
    + destruct r1 as [v|c|]; try done. injection Hr as ->. by exists c.
  - rewrite (predict_local _ _ _ s) in Hrun by done.
    destruct (execute_workflow _ _ _ _ _ _ _ _) as [[v|e|] w1] eqn:Hex;
      try done.
    injection Hrun as <- _.
    destruct (execute_workflow_split _ _ _ _ _ _ _ _ _ _ Hex)
      as [(e' & Hdir & [= <-])|(out & w2 & Hdir & Hcall)].
    + right.
      destruct (output_dir_anatomy _ _ _ _ _ _ Hdir)
        as (_ & _ & _ & _ & Hmk & _).
      destruct (Hmk e eq_refl) as (n & Hn). by exists n, e.
    + left. destruct Hcall as [(k & _ & _ & c & _ & [= ->])|(_ & r1 & _ & Hr)].
      * by exists c.
      * destruct r1 as [v|c|]; try done. injection Hr as ->. by exists c.
  - rewrite predict_no_server in Hrun by done. by injection Hrun as <- <-.
Qed.

Lemma output_dir_counts (self : ComfyUIServer) (session_id : string)
  (w : World) (r : Outcome Path) (w1 : World) :
  execute_workflow_output_dir E self session_id w = (r, w1) →
  count_events is_submission (new_events w w1) = 0%nat ∧
  count_events is_poll (new_events w w1) = 0%nat.
Proof.
  intros Hdir.
  destruct (output_dir_anatomy _ _ _ _ _ _ Hdir) as (Htr & _).
  rewrite (new_events_app w w1 _ Htr).
  by destruct (String.eqb session_id EmptyString).
Qed.

Lemma execute_workflow_counts (fuel : nat) (self : ComfyUIServer)
  (workflow : nat) (inputs : Kwargs) (session_id : string) (tmo : Z)
  (w : World) (r : Outcome Json) (w' : World) :
  execute_workflow E fuel self workflow inputs session_id tmo w = (r, w') →
  (count_events is_submission (new_events w w') ≤ 1)%nat ∧
  (count_events is_poll (new_events w w') ≤ Z.to_nat tmo)%nat.
Proof.
  intros Hrun.
  destruct (execute_workflow_split _ _ _ _ _ _ _ _ _ _ Hrun)
    as [(e' & Hdir & _)|(out & w1 & Hdir & Hcall)].
  - destruct (output_dir_counts _ _ _ _ _ Hdir) as (-> & ->). lia.
  - destruct (output_dir_counts _ _ _ _ _ Hdir) as (Hsub & Hpoll).
    destruct Hcall as [(k & _ & -> & _)|(_ & r1 & Hrw & _)].
    + rewrite Hsub, Hpoll. lia.
    + destruct (output_dir_anatomy _ _ _ _ _ _ Hdir) as (Htr & _).
      destruct (run_workflow_counts _ _ _ _ _ _ _ _ _ _ _ _ _ Hrw)
        as (l1 & Hl1 & Hsub' & Hpoll').
      rewrite (new_events_trans w w1 w' _ l1 Htr Hl1), !count_events_app.
      rewrite (new_events_app w1 w' l1 Hl1). lia.
Qed.

Lemma execute_remote_workflow_counts (fuel : nat) (server_url : string)
  (workflow : nat) (inputs : Kwargs) (session_id : string) (tmo : Z)
  (w : World) (r : Outcome Json) (w' : World) :
  execute_remote_workflow E fuel server_url workflow inputs session_id tmo w
  = (r, w') →
  (count_events is_submission (new_events w w') ≤ 1)%nat ∧
  (count_events is_poll (new_events w w') ≤ Z.to_nat tmo)%nat.
Proof.
  intros Hrun.
  destruct (execute_remote_workflow_split _ _ _ _ _ _ _ _ _ _ Hrun)
    as [(-> & _)|(parsed & po & r1 & _ & _ & _ & Hrw & _)].
  - rewrite (new_events_app w w []) by reflexivity. cbn. lia.
  - destruct (run_workflow_counts _ _ _ _ _ _ _ _ _ _ _ _ _ Hrw)
      as (l & Hl & Hsub & Hpoll).
    by rewrite (new_events_app w w' l Hl).
Qed.

(** X20.  A call of [predict] submits at most one job and polls at most
    300 times, whatever its outcome and whatever the settings say. *)
Theorem predict_request_bound (fuel : nat) (self : api.ComfyLitAPI)
  (request : schema.WorkflowExecutionRequest) (w : World)
  (r : Outcome Json) (w' : World) :
  api.predict E fuel self request w = (r, w') →
  (count_events is_submission (new_events w w') ≤ 1)%nat ∧
  (count_events is_poll (new_events w w') ≤ 300)%nat.
Proof.
  intros Hrun.
  destruct (api.url_given (api.settings self)) eqn:Hurl;
    [|destruct (api.server self) as [s|] eqn:Hs].
  - rewrite predict_remote in Hrun by done.
    destruct (execute_remote_workflow _ _ _ _ _ _ _ _) as [r1 w1] eqn:Hex.
    apply execute_remote_workflow_counts in Hex.
    assert (w1 = w') as -> by (by destruct r1; injection Hrun).
    exact Hex.
  - rewrite (predict_local _ _ _ s) in Hrun by done.
    destruct (execute_workflow _ _ _ _ _ _ _ _) as [r1 w1] eqn:Hex.
    apply execute_workflow_counts in Hex.
    assert (w1 = w') as -> by (by destruct r1; injection Hrun).
    exact Hex.
  - rewrite predict_no_server in Hrun by done. injection Hrun as _ <-.
    rewrite (new_events_app w w []) by reflexivity. cbn. lia.
Qed.

(** ** setup and cleanup *)

Lemma pids_known_later (w w1 : World) :
  pids_known w → running w1 = running w → (tick w ≤ tick w1)%nat →
  pids_known w1.
Proof.
  unfold pids_known. intros Hk -> Ht.
  eapply Forall_impl; [exact Hk|]. cbn. intros q Hq. lia.
Qed.

Lemma api_ensure_directories_anatomy (st : schema.ComfyPackSettings)
  (w : World) (r : Outcome unit) (w1 : World) :
  api._ensure_directories E st w = (r, w1) →
  ∃ new,
    trace w1 = new ++ trace w ∧
    running w1 = running w ∧ heap w1 = heap w ∧
    Forall (λ e, ∃ d, e = EvMkdir d) new ∧
    match r with
    | Return _ =>
        new = [EvMkdir [schema.model_cache_dir st];
               EvMkdir [schema.input_dir st];
               EvMkdir [schema.workspace_root st]]
    | Raise e => ∃ n d, fs_mkdir E n d = Some e
    | OutOfFuel => False
    end.
Proof.
  unfold api._ensure_directories, Path_mkdir. run. intros Hrun.
  destruct (fs_mkdir E (tick w) _) as [e1|] eqn:H1; run.
  { injection Hrun as <- <-. eexists [_]. split_and!; try done.
    - repeat constructor. by eexists.
    - by eexists _, _. }
  rewrite tick_emit in Hrun.
  destruct (fs_mkdir E (S (tick w)) _) as [e2|] eqn:H2; run.
  { injection Hrun as <- <-. eexists [_; _]. split_and!; try done.
    - repeat constructor; by eexists.
    - by eexists _, _. }
  rewrite !tick_emit in Hrun.
  destruct (fs_mkdir E (S (S (tick w))) _) as [e3|] eqn:H3; run.
  { injection Hrun as <- <-. eexists [_; _; _]. split_and!; try done.
    - repeat constructor; by eexists.
    - by eexists _, _. }
  injection Hrun as <- <-. eexists [_; _; _]. split_and!; try done.
  repeat constructor; by eexists.
Qed.

Lemma server_init_anatomy (ws inp : string) (v : Z) (w : World)
  (r : Outcome ComfyUIServer) (w1 : World) :
  __init__ E ws inp None v w = (r, w1) →
  ∃ new,
    trace w1 = new ++ trace w ∧
    running w1 = running w ∧ heap w1 = heap w ∧
    Forall (λ e, is_process_event e = false) new ∧
    match r with
    | Return s =>
        workspace s = ws ∧ input_dir s = inp ∧ verbose s = v ∧
        host s = "127.0.0.1" ∧ proc s = None ∧ 10000 ≤ port s ≤ 65535
    | Raise e => ∃ n d, fs_mkdir E n d = Some e
    | OutOfFuel => False
    end.
Proof.
  unfold __init__, _ensure_directories, random_randint, Path_mkdir. run.
  intros Hrun. rewrite tick_emit in Hrun.
  destruct (fs_mkdir E (S (tick w)) _) as [e1|] eqn:H1; run.
  { injection Hrun as <- <-. eexists [_; _]. split_and!; try done.
    - by repeat constructor.
    - by eexists _, _. }
  rewrite !tick_emit in Hrun.
  destruct (fs_mkdir E (S (S (tick w))) _) as [e2|] eqn:H2; run.
  { injection Hrun as <- <-. eexists [_; _; _]. split_and!; try done.
    - by repeat constructor.
    - by eexists _, _. }
  injection Hrun as <- <-. eexists [_; _; _].
  split_and!; try done; [by repeat constructor|..]; cbn;
    pose proof (Z.mod_pos_bound (random_draw E (tick w)) (65535 - 10000 + 1));
    lia.
Qed.

(** [start] changes the port and the process of the object only. *)
Lemma start_fields (fuel : nat) (s : ComfyUIServer) (w : World)
  (r : Outcome unit) (s' : ComfyUIServer) (w' : World) :
  proc s = None →
  start E fuel (s, w) = (r, (s', w')) →
  workspace s' = workspace s ∧ input_dir s' = input_dir s ∧
  verbose s' = verbose s ∧ host s' = host s.
Proof.
  intros Hp Hrun. rewrite start_phases in Hrun by done.
  destruct (start_port_loop E fuel (s, w)) as [r0 [s1 w1]] eqn:Hloop.
  apply port_loop_events in Hloop as (new & _ & _ & _ & _ & Hs1 & _).
  assert (Hf : workspace s1 = workspace s ∧ input_dir s1 = input_dir s ∧
               verbose s1 = verbose s ∧ host s1 = host s)
    by (by rewrite Hs1).
  destruct r0 as [[]|e0|]; try (by injection Hrun as _ <- _).
  destruct (subprocess_Popen E (start_popen_args s1) w1) as [[p|e|] w2];
    try (by injection Hrun as _ <- _).
  destruct (_wait_for_startup E fuel (host s1) (port s1) 1800 w2)
    as [[[]|e|] w3]; try (by injection Hrun as _ <- _).
  destruct (stop_running E (with_proc (Some p) s1) w3 p)
    as (w4 & Hstop & _); [done|].
  rewrite Hstop in Hrun. by injection Hrun as _ <- _.
Qed.

(** [setup], stage by stage. *)
Lemma setup_phases (fuel : nat) (device : string) (self : api.ComfyLitAPI)
  (w : World) :
  api.setup E fuel device (self, w) =
    match api._ensure_directories E (api.settings self) w with
    | (Return _, w1) =>
        if api.url_given (api.settings self) then (Return tt, (self, w1))
        else
          match __init__ E (schema.workspace_root (api.settings self))
                  (schema.input_dir (api.settings self)) None
                  (Z.b2z (schema.verbose (api.settings self))) w1 with
          | (Return s, w2) =>
              let '(r, (s', w3)) := start E fuel (s, w2) in
              (r, (api.with_server (Some s') self, w3))
          | (Raise e, w2) => (Raise e, (self, w2))
          | (OutOfFuel, w2) => (OutOfFuel, (self, w2))
          end
    | (Raise e, w1) => (Raise e, (self, w1))
    | (OutOfFuel, w1) => (OutOfFuel, (self, w1))
    end.
Proof.
  unfold api.setup, api.get_self, api.lift, api.set_server, api.on_server.
  unfold mbind, M_bind, mret, M_ret. cbn [fst snd].
  destruct (api._ensure_directories E (api.settings self) w) as [[[]|e|] w1];
    try done.
  destruct (api.url_given (api.settings self)); [done|].
  cbn [fst snd].
  destruct (__init__ E _ _ None _ w1) as [[s|e|] w2]; try done;
    cbn [fst snd]; by destruct (start E fuel (s, w2)) as [r [s' w3]].
Qed.

(** The world and the object after [setup], by outcome. *)
Lemma setup_world (fuel : nat) (device : string) (self : api.ComfyLitAPI)
  (w : World) (r : Outcome unit) (self1 : api.ComfyLitAPI) (w1 : World) :
  api.server self = None →
  pids_known w →
  api.setup E fuel device (self, w) = (r, (self1, w1)) →
  api.settings self1 = api.settings self ∧ heap w1 = heap w ∧
  (tick w ≤ tick w1)%nat ∧
  match api.server self1 with
  | None => running w1 = running w ∧ r ≠ OutOfFuel
  | Some s =>
      api.url_given (api.settings self) = false ∧
      workspace s = schema.workspace_root (api.settings self) ∧
      input_dir s = schema.input_dir (api.settings self) ∧
      verbose s = Z.b2z (schema.verbose (api.settings self)) ∧
      host s = "127.0.0.1" ∧
      10000 ≤ port s ≤ 65535 ∧
      match proc s with
      | Some p =>
          running w1 = pid p :: running w ∧ (tick w ≤ pid p < tick w1)%nat ∧
          ∀ e, r ≠ Raise e
      | None => running w1 = running w ∧ r ≠ Return tt
      end
  end ∧
  match r with
  | Return _ =>
      if api.url_given (api.settings self)
      then api.server self1 = None ∧
           new_events w w1 =
             [EvMkdir [schema.model_cache_dir (api.settings self)];
              EvMkdir [schema.input_dir (api.settings self)];
              EvMkdir [schema.workspace_root (api.settings self)]]
      else ∃ s p, api.server self1 = Some s ∧ proc s = Some p
  | Raise e =>
      (∃ n d, fs_mkdir E n d = Some e) ∨
      (∃ n a, os_spawn E n a = Some e) ∨
      e = RuntimeError
            "Failed to start ComfyUI server: ComfyUI server failed to start"
            (Some (TimeoutError "ComfyUI server failed to start"))
  | OutOfFuel => True
  end.
Proof.
  intros Hs Hk Hrun. rewrite setup_phases in Hrun.
  destruct (api._ensure_directories E (api.settings self) w) as [r0 w0]
    eqn:Hdirs.
  apply api_ensure_directories_anatomy in Hdirs
    as (new0 & Htr0 & Hrn0 & Hhp0 & _ & Hr0).
  pose proof (tick_grows _ _ _ Htr0) as Ht0.
  destruct r0 as [[]|e0|]; [|injection Hrun as <- <- <-|done].
  2:{ rewrite Hs. split_and!; try done. by left. }
  destruct (api.url_given (api.settings self)) eqn:Hurl.
  { injection Hrun as <- <- <-. rewrite Hs. split_and!; try done.
    rewrite (new_events_app w w0 new0 Htr0). by rewrite Hr0. }
  destruct (__init__ E _ _ None _ w0) as [r2 w2] eqn:Hinit.
  apply server_init_anatomy in Hinit as (new2 & Htr2 & Hrn2 & Hhp2 & _ & Hr2).
  pose proof (tick_grows _ _ _ Htr2) as Ht2.
  destruct r2 as [s|e2|]; [|injection Hrun as <- <- <-|done].
  2:{ rewrite Hs. split_and!; try done; try congruence; [lia|by left]. }
  destruct Hr2 as (Hws & Hinp & Hvb & Hhost & Hproc & Hport).
  destruct (start E fuel (s, w2)) as [r3 [s3 w3]] eqn:Hstart.
  injection Hrun as <- <- <-.
  assert (Hk2 : pids_known w2).
  { apply (pids_known_later w); [done|congruence|lia]. }
  destruct (start_fields _ _ _ _ _ _ Hproc Hstart) as (Hws3 & Hinp3 & Hvb3 & Hhost3).
  destruct (start_world E _ _ _ _ _ _ Hproc Hk2 Hstart)
    as (Hhp3 & Ht3 & Hport3 & Hr3).
  cbn [api.server api.settings api.with_server].
  split_and!; try done; try congruence; try lia.
  - destruct r3 as [[]|e3|].
    + destruct Hr3 as (p & -> & Hrn3 & Hpid).
      split_and!; try done; try congruence; lia.
    + destruct Hr3 as (-> & Hrn3 & _). split; [congruence|done].
    + destruct Hr3 as [(-> & Hrn3)|(p & -> & Hrn3 & Hpid)].
      * split; [congruence|done].
      * split_and!; try done; try congruence; lia.
  - destruct r3 as [[]|e3|]; try done.
    + destruct Hr3 as (p & Hp & _). by exists s3, p.
    + destruct Hr3 as (_ & _ & [->|He]); [by right; right|by right; left].
Qed.

Lemma with_server_same (a : api.ComfyLitAPI) (s : ComfyUIServer) :
  api.server a = Some s → api.with_server (Some s) a = a.
Proof. destruct a as [st sv]. cbn. by intros ->. Qed.

Lemma cleanup_no_process (self : api.ComfyLitAPI) (w : World) :
  match api.server self with
  | Some s => proc s = None
  | None => True
  end →
  api.cleanup E (self, w) = (Return tt, (self, w)).
Proof.
  unfold api.cleanup, api.get_self, api.on_server.
  unfold mbind, M_bind, mret, M_ret. cbn [fst snd].
  destruct (api.server self) as [s|] eqn:Hs; [|done].
  intros Hp. cbn [fst snd]. rewrite (stop_not_running E s w Hp).
  by rewrite with_server_same.
Qed.

(** X21.  [setup] then [cleanup] leaves no process behind, whatever the
    outcome of [setup]: [cleanup] returns, the processes alive are those
    that were alive before [setup], the dictionaries are unchanged, and
    the server object, if there is one, holds no process. *)
Theorem setup_cleanup_leaves_no_process (fuel : nat) (device : string)
  (self : api.ComfyLitAPI) (w : World) (r : Outcome unit)
  (self1 : api.ComfyLitAPI) (w1 : World) :
  api.server self = None →
  pids_known w →
  api.setup E fuel device (self, w) = (r, (self1, w1)) →
  ∃ self2 w2,
    api.cleanup E (self1, w1) = (Return tt, (self2, w2)) ∧
    running w2 = running w ∧ heap w2 = heap w ∧
    match api.server self2 with
    | Some s => proc s = None
    | None => True
    end.
Proof.
  intros Hs Hk Hrun.
  destruct (setup_world _ _ _ _ _ _ _ Hs Hk Hrun)
    as (_ & Hhp & Ht & Hsrv & _).
  destruct (api.server self1) as [s|] eqn:Hs1.
  - destruct Hsrv as (_ & _ & _ & _ & _ & _ & Hproc).
    destruct (proc s) as [p|] eqn:Hp.
    + destruct Hproc as (Hrn & Hpid & _).
      destruct (stop_running E s w1 p Hp) as (w2 & Hstop & Hrn2 & Hhp2 & _).
      exists (api.with_server (Some (with_proc None s)) self1), w2.
      split_and!; try done; try congruence.
      * unfold api.cleanup, api.get_self, api.on_server.
        unfold mbind, M_bind, mret, M_ret. cbn [fst snd].
        rewrite Hs1. cbn [fst snd]. by rewrite Hstop.
      * rewrite Hrn2, Hrn. apply remove_pid_fresh.
        apply (pids_known_fresh w); [done|lia].
    + destruct Hproc as (Hrn & _). exists self1, w1.
      split_and!; try done.
      * apply cleanup_no_process. by rewrite Hs1.
      * by rewrite Hs1.
  - destruct Hsrv as (Hrn & _). exists self1, w1.
    split_and!; try done.
    + apply cleanup_no_process. by rewrite Hs1.
    + by rewrite Hs1.
Qed.

(** X22.  When [setup] raises, no process of its own is alive and
    [cleanup] has nothing to do; the exception is the one of a [mkdir],
    the one of [Popen], or the [RuntimeError] of a failed start. *)
Theorem setup_failure_holds_nothing (fuel : nat) (device : string)
  (self : api.ComfyLitAPI) (w : World) (e : Exn)
  (self1 : api.ComfyLitAPI) (w1 : World) :
  api.server self = None →
  pids_known w →
  api.setup E fuel device (self, w) = (Raise e, (self1, w1)) →
  running w1 = running w ∧
  api.cleanup E (self1, w1) = (Return tt, (self1, w1)) ∧
  ((∃ n d, fs_mkdir E n d = Some e) ∨
   (∃ n a, os_spawn E n a = Some e) ∨
   e = RuntimeError
         "Failed to start ComfyUI server: ComfyUI server failed to start"
         (Some (TimeoutError "ComfyUI server failed to start"))).
Proof.
  intros Hs Hk Hrun.
  destruct (setup_world _ _ _ _ _ _ _ Hs Hk Hrun)
    as (_ & _ & _ & Hsrv & Hkind).
  assert (Hnone : running w1 = running w ∧
                  match api.server self1 with
                  | Some s => proc s = None
                  | None => True
                  end).
  { destruct (api.server self1) as [s|].
    - destruct Hsrv as (_ & _ & _ & _ & _ & _ & Hproc).
      destruct (proc s) as [p|]; [|by destruct Hproc].
      destruct Hproc as (_ & _ & Hne). by destruct (Hne e).
    - by destruct Hsrv. }
  destruct Hnone as (Hrn & Hp). split_and!; try done.
  by apply cleanup_no_process.
Qed.

(** X23.  When [setup] returns: with an engine at a URL it has created
    the three directories of the settings and nothing else, and there is
    no server object; otherwise the server object holds a new process
    that is alive, works in [workspace_root] with the input directory and
    the verbosity of the settings, on host 127.0.0.1 and a port between
    10000 and 65535. *)
Theorem setup_returns (fuel : nat) (device : string)
  (self : api.ComfyLitAPI) (w : World) (self1 : api.ComfyLitAPI)
  (w1 : World) :
  api.server self = None →
  pids_known w →
  api.setup E fuel device (self, w) = (Return tt, (self1, w1)) →
  api.settings self1 = api.settings self ∧
  if api.url_given (api.settings self) then
    api.server self1 = None ∧ running w1 = running w ∧
    new_events w w1 =
      [EvMkdir [schema.model_cache_dir (api.settings self)];
       EvMkdir [schema.input_dir (api.settings self)];
       EvMkdir [schema.workspace_root (api.settings self)]]
  else
    ∃ s p,
      api.server self1 = Some s ∧ proc s = Some p ∧
      running w1 = pid p :: running w ∧ (pid p ∉ running w) ∧
      workspace s = schema.workspace_root (api.settings self) ∧
      input_dir s = schema.input_dir (api.settings self) ∧
      verbose s = Z.b2z (schema.verbose (api.settings self)) ∧
      host s = "127.0.0.1" ∧
      10000 ≤ port s ≤ 65535.
Proof.
  intros Hs Hk Hrun.
  destruct (setup_world _ _ _ _ _ _ _ Hs Hk Hrun)
    as (Hst & _ & _ & Hsrv & Hret).
  split; [done|].
  destruct (api.url_given (api.settings self)) eqn:Hurl.
  - destruct Hret as (Hs1 & Hnew). rewrite Hs1 in Hsrv.
    by destruct Hsrv.
  - destruct Hret as (s & p & Hs1 & Hp). rewrite Hs1 in Hsrv.
    destruct Hsrv as (_ & Hws & Hinp & Hvb & Hhost & Hport & Hproc).
    rewrite Hp in Hproc. destruct Hproc as (Hrn & Hpid & _).
    exists s, p. split_and!; try done; try lia.
    apply (pids_known_fresh w); [done|lia].
Qed.

End Service.

(** * More sample runs *)

Lemma wait_for_startup_raises_only_timeout_sample :
  TimeoutError "ComfyUI server failed to start"
  = TimeoutError "ComfyUI server failed to start" ∧
  now world0 + 2 ≤ now (_wait_for_startup dead_env 3 "127.0.0.1" 45000 2 world0).2.
Proof.
  apply (wait_for_startup_raises_only_timeout dead_env 3 "127.0.0.1" 45000 2
           world0).
  reflexivity.
Defined.

Lemma wait_for_startup_probe_bound_sample :
  let w' := (_wait_for_startup dead_env 3 "127.0.0.1" 45000 2 world0).2 in
  (count_events is_mappings_request (new_events world0 w') ≤ Z.to_nat 2)%nat ∧
  (count_events is_sleep (new_events world0 w') ≤ Z.to_nat 2)%nat ∧
  (2 ≤ 0 → w' = world0).
Proof.
  intros w'.
  apply (wait_for_startup_probe_bound dead_env 3 "127.0.0.1" 45000 2 world0
           (_wait_for_startup dead_env 3 "127.0.0.1" 45000 2 world0).1).
  reflexivity.
Defined.

Lemma start_twice_sample :
  let sw := (start (ready_env 0) 1 (server0, world0)).2 in
  start (ready_env 0) 5 sw = (Return tt, sw).
Proof.
  intros sw.
  apply (start_twice (ready_env 0) 1 5 server0 world0 sw.1 sw.2).
  reflexivity.
Defined.


Lemma start_stop_round_trip_sample :
  let sw := (start (ready_env 0) 1 (server0, world0)).2 in
  ∃ w'',
    stop (ready_env 0) sw = (Return tt, (with_proc None sw.1, w'')) ∧
    running w'' = running world0 ∧ heap w'' = heap world0 ∧ pids_known w''.
Proof.
  intros sw.
  apply (start_stop_round_trip (ready_env 0) 1 server0 world0 sw.1 sw.2).
  - reflexivity.
  - constructor.
  - reflexivity.
Defined.

Lemma start_port_range_sample :
  let sw := (start busy_port_env 2 (server0, world0)).2 in
  port sw.1 = port server0 ∨ 10000 ≤ port sw.1 ≤ 65535.
Proof.
  intros sw.
  apply (start_port_range busy_port_env 2 server0 world0
           (start busy_port_env 2 (server0, world0)).1 sw.1 sw.2).
  reflexivity.
Defined.

Lemma run_workflow_request_bound_sample :
  let rw :=
    run_workflow (ready_env 7) 3 "127.0.0.1" 8188 0 (ArgVal JNull) 300
      (JNum 0) (ArgVal (JStr ".")) [("seed", JNum 3)] world0 in
  (count_events is_submission (new_events world0 rw.2) ≤ 1)%nat ∧
  (count_events is_poll (new_events world0 rw.2) ≤ Z.to_nat 300)%nat.
Proof.
  intros rw.
  apply (run_workflow_request_bound (ready_env 7) 3 "127.0.0.1" 8188 0
           (ArgVal JNull) 300 (JNum 0) (ArgVal (JStr ".")) [("seed", JNum 3)]
           world0 rw.1).
  reflexivity.
Defined.

Lemma run_workflow_exception_kinds_sample :
  let rw :=
    run_workflow no_id_env 3 "127.0.0.1" 8188 0 (ArgVal JNull) 300
      (JNum 0) (ArgVal (JStr ".")) [("seed", JNum 3)] world0 in
  let e :=
    RuntimeError "Workflow execution failed: 'prompt_id'"
      (Some (KeyError "prompt_id")) in
  is_TimeoutError e = true ∨
  (∃ c, e = RuntimeError ("Workflow execution failed: " +:+ str_exn c)
              (Some c) ∧
        is_TimeoutError c = false) ∨
  (run_workflow_prepare no_id_env 0 (ArgVal JNull) (ArgVal (JStr "."))
     [("seed", JNum 3)] world0 = (Raise e, rw.2) ∧
   Forall (λ ev, is_http ev = false) (new_events world0 rw.2)).
Proof.
  intros rw e.
  apply (run_workflow_exception_kinds no_id_env 3 "127.0.0.1" 8188 0
           (ArgVal JNull) 300 (JNum 0) (ArgVal (JStr ".")) [("seed", JNum 3)]
           world0 e rw.2).
  reflexivity.
Defined.

Lemma run_workflow_returns_sample :
  let rw :=
    run_workflow (ready_env 7) 3 "127.0.0.1" 8188 0 (ArgVal JNull) 300
      (JNum 0) (ArgVal (JStr ".")) [("seed", JNum 3)] world0 in
  ∃ wf' out' w1 body id record outputs turns n,
    run_workflow_prepare (ready_env 7) 0 (ArgVal JNull) (ArgVal (JStr "."))
      [("seed", JNum 3)] world0 = (Return (wf', out'), w1) ∧
    trace rw.2 =
      EvRetrieve out' ::
      EvHttp (History "127.0.0.1" 8188 id) (inr (Some record)) ::
      turns ++
      EvHttp (Prompt "127.0.0.1" 8188 (JObj [("prompt", deref w1 wf')]))
        (inr (Some body)) ::
      trace w1 ∧
    getitem body "prompt_id" = inr id ∧
    Forall (poll_turn "127.0.0.1" 8188 id) turns ∧
    getitem record "outputs" = inr outputs ∧
    truthy outputs = true ∧
    retrieve_workflow_outputs (ready_env 7) n (deref w1 wf') out'
    = inr (JArr [JStr "out.png"]).
Proof.
  intros rw.
  apply (run_workflow_returns (ready_env 7) 3 "127.0.0.1" 8188 0
           (ArgVal JNull) 300 (JNum 0) (ArgVal (JStr ".")) [("seed", JNum 3)]
           world0 (JArr [JStr "out.png"]) rw.2).
  reflexivity.
Defined.

(** The engine answers the first poll with an empty record: the call
    fails on the missing ["outputs"], at that poll. *)
Lemma run_workflow_bad_status_sample :
  let rw :=
    run_workflow pending_env 3 "127.0.0.1" 8188 0 (ArgVal JNull) 300
      (JNum 0) (ArgVal (JStr ".")) [("seed", JNum 3)] world0 in
  rw.1 = Raise (RuntimeError "Workflow execution failed: 'outputs'"
                  (Some (KeyError "outputs"))) ∧
  ∃ rest,
    trace rw.2 =
      EvHttp (History "127.0.0.1" 8188 (JStr "abc123"))
        (inr (Some (JObj []))) :: rest.
Proof.
  intros rw.
  apply (run_workflow_bad_status pending_env 3 "127.0.0.1" 8188 0
           (ArgVal JNull) 300 (JNum 0) (ArgVal (JStr ".")) [("seed", JNum 3)]
           world0 rw.1 rw.2 "127.0.0.1" 8188 (JStr "abc123")
           (inr (Some (JObj []))) (KeyError "outputs")).
  - reflexivity.
  - vm_compute. apply list_elem_of_here.
  - reflexivity.
Defined.

Lemma execute_workflow_exception_kinds_sample :
  let e :=
    RuntimeError "Workflow execution failed: Workflow execution timed out"
      (Some (TimeoutError "Workflow execution timed out")) in
  (∃ c, e = RuntimeError ("Workflow execution failed: " +:+ str_exn c)
              (Some c)) ∨
  (∃ n, fs_mkdir stuck_env n
          ["/srv/ws"; "output"; session_of stuck_env "sess" (tick world0)]
        = Some e).
Proof.
  intros e.
  apply (execute_workflow_exception_kinds stuck_env 4 server0 0
           [("seed", JNum 3)] "sess" 3 world0 e
           (execute_workflow stuck_env 4 server0 0 [("seed", JNum 3)] "sess" 3
              world0).2).
  reflexivity.
Defined.


Lemma execute_workflow_session_dir_sample :
  ["/srv/ws"; "output"; "sess"]
  = [workspace server0; "output"; session_of (ready_env 0) "sess" (tick world0)].
Proof.
  apply (execute_workflow_session_dir (ready_env 0) 3 server0 0
           [("seed", JNum 3)] "sess" 300 world0
           (execute_workflow (ready_env 0) 3 server0 0 [("seed", JNum 3)]
              "sess" 300 world0).1
           (execute_workflow (ready_env 0) 3 server0 0 [("seed", JNum 3)]
              "sess" 300 world0).2
           (EvRetrieve ["/srv/ws"; "output"; "sess"])).
  - reflexivity.
  - vm_compute. apply list_elem_of_here.
  - reflexivity.
Defined.

(** A timeout of [execute_workflow] while a process is alive. *)
Lemma execute_workflow_leaves_engine_sample :
  let w := set_running [7%nat] world0 in
  let w' :=
    (execute_workflow stuck_env 4 server0 0 [("seed", JNum 3)] "sess" 3 w).2 in
  running w' = running w ∧
  Forall (λ e, is_process_event e = false) (new_events w w') ∧
  (∃ ext, heap w' = heap w ++ ext) ∧
  ∀ req res,
    EvHttp req res ∈ new_events w w' →
    (∃ body, req = Prompt (host server0) (port server0) body) ∨
    (∃ id, req = History (host server0) (port server0) id).
Proof.
  intros w w'.
  apply (execute_workflow_leaves_engine stuck_env 4 server0 0
           [("seed", JNum 3)] "sess" 3 w
           (execute_workflow stuck_env 4 server0 0 [("seed", JNum 3)] "sess" 3
              w).1).
  reflexivity.
Defined.

Lemma execute_remote_workflow_raises_sample :
  ∃ c,
    RuntimeError
      "Remote workflow execution failed: Workflow execution timed out"
      (Some (TimeoutError "Workflow execution timed out"))
    = RuntimeError ("Remote workflow execution failed: " +:+ str_exn c)
        (Some c).
Proof.
  apply (execute_remote_workflow_raises stuck_env 4
           "http://engine.example:8188" 0 [("seed", JNum 3)] "sess" 3 world0
           _
           (execute_remote_workflow stuck_env 4 "http://engine.example:8188" 0
              [("seed", JNum 3)] "sess" 3 world0).2).
  reflexivity.
Defined.

Lemma execute_remote_workflow_requests_sample :
  let w' :=
    (execute_remote_workflow (ready_env 0) 2 "http://engine.example:8188" 0
       [("seed", JNum 3)] "sess" 300 world0).2 in
  running w' = running world0 ∧
  Forall (λ e, is_process_event e = false) (new_events world0 w') ∧
  ∀ req res,
    EvHttp req res ∈ new_events world0 w' →
    ∃ parsed po,
      urlparse (ready_env 0) "http://engine.example:8188" = inr parsed ∧
      url_port parsed = inr po ∧
      ((∃ body, req = Prompt (remote_host parsed) (remote_port po) body) ∨
       (∃ id, req = History (remote_host parsed) (remote_port po) id)).
Proof.
  intros w'.
  apply (execute_remote_workflow_requests (ready_env 0) 2
           "http://engine.example:8188" 0 [("seed", JNum 3)] "sess" 300 world0
           (execute_remote_workflow (ready_env 0) 2
              "http://engine.example:8188" 0 [("seed", JNum 3)] "sess" 300
              world0).1).
  reflexivity.
Defined.

(** An input [output_dir] names the directory of a remote execution. *)
Lemma execute_remote_workflow_dirs_sample :
  run_workflow_output_dir (ready_env 0)
    (ArgVal (default JNull
               (dict_get "output_dir"
                  [("seed", JNum 3); ("output_dir", JStr "/data/out")])))
    (ArgVal (default (JStr ".")
               (dict_get "workspace"
                  [("seed", JNum 3); ("output_dir", JStr "/data/out")])))
    (tick world0)
  = inr ["/data/out"].
Proof.
  apply (execute_remote_workflow_dirs (ready_env 0) 2
           "http://engine.example:8188" 0
           [("seed", JNum 3); ("output_dir", JStr "/data/out")] "sess" 300
           world0
           (execute_remote_workflow (ready_env 0) 2
              "http://engine.example:8188" 0
              [("seed", JNum 3); ("output_dir", JStr "/data/out")] "sess" 300
              world0).1
           (execute_remote_workflow (ready_env 0) 2
              "http://engine.example:8188" 0
              [("seed", JNum 3); ("output_dir", JStr "/data/out")] "sess" 300
              world0).2
           (EvPopulate ["/data/out"] [("seed", JNum 3)])).
  - reflexivity.
  - vm_compute. do 3 apply list_elem_of_further. apply list_elem_of_here.
  - reflexivity.
Defined.

(** ** The service on sample runs *)

(** A timeout of the job comes back as a failed answer. *)
Lemma predict_always_answers_sample :
  ∃ d w',
    api.predict stuck_env 301 (api.with_server (Some server0) api0) request0
      world0 = (Return d, w') ∧
    ((∃ result, d = api.predict_completed request0 result) ∨
     (∃ error, d = api.predict_failed request0 error)).
Proof.
  apply (proj2 (predict_always_answers stuck_env 301
                  (api.with_server (Some server0) api0) request0 world0)).
  lia.
Defined.


Lemma predict_error_text_sample :
  (∃ c, "Workflow execution failed: Workflow execution timed out"
        = "Workflow execution failed: " +:+ str_exn c) ∨
  (∃ n e,
     fs_mkdir stuck_env n ["/srv/ws"; "output"; "sess"] = Some e ∧
     "Workflow execution failed: Workflow execution timed out" = str_exn e).
Proof.
  apply (predict_error_text stuck_env 301
           (api.with_server (Some server0) api0) request0 world0
           "Workflow execution failed: Workflow execution timed out"
           (api.predict stuck_env 301 (api.with_server (Some server0) api0)
              request0 world0).2).
  vm_compute. reflexivity.
Defined.


Lemma predict_request_bound_sample :
  let w' :=
    (api.predict (ready_env 9) 301 (api.with_server (Some server0) api0)
       request0 world0).2 in
  (count_events is_submission (new_events world0 w') ≤ 1)%nat ∧
  (count_events is_poll (new_events world0 w') ≤ 300)%nat.
Proof.
  intros w'.
  apply (predict_request_bound (ready_env 9) 301
           (api.with_server (Some server0) api0) request0 world0
           (api.predict (ready_env 9) 301
              (api.with_server (Some server0) api0) request0 world0).1).
  reflexivity.
Defined.


Lemma setup_cleanup_leaves_no_process_sample :
  let aw := (api.setup (ready_env 0) 5 "cpu" (api0, world0)).2 in
  ∃ self2 w2,
    api.cleanup (ready_env 0) (aw.1, aw.2) = (Return tt, (self2, w2)) ∧
    running w2 = running world0 ∧ heap w2 = heap world0 ∧
    match api.server self2 with
    | Some s => proc s = None
    | None => True
    end.
Proof.
  intros aw.
  apply (setup_cleanup_leaves_no_process (ready_env 0) 5 "cpu" api0 world0
           (api.setup (ready_env 0) 5 "cpu" (api0, world0)).1 aw.1 aw.2).
  - reflexivity.
  - constructor.
  - vm_compute. reflexivity.
Defined.


(** The engine never gets ready: [setup] gives up after 1800 seconds. *)
Lemma setup_failure_holds_nothing_sample :
  let aw := (api.setup dead_env 1801 "cpu" (api0, world0)).2 in
  let e :=
    RuntimeError
      "Failed to start ComfyUI server: ComfyUI server failed to start"
      (Some (TimeoutError "ComfyUI server failed to start")) in
  running aw.2 = running world0 ∧
  api.cleanup dead_env (aw.1, aw.2) = (Return tt, (aw.1, aw.2)) ∧
  ((∃ n d, fs_mkdir dead_env n d = Some e) ∨
   (∃ n a, os_spawn dead_env n a = Some e) ∨
   e = RuntimeError
         "Failed to start ComfyUI server: ComfyUI server failed to start"
         (Some (TimeoutError "ComfyUI server failed to start"))).
Proof.
  intros aw e.
  apply (setup_failure_holds_nothing dead_env 1801 "cpu" api0 world0 e
           aw.1 aw.2).
  - reflexivity.
  - constructor.
  - vm_compute. reflexivity.
Defined.


Lemma setup_returns_sample :
  let aw := (api.setup (ready_env 0) 5 "cpu" (api0, world0)).2 in
  api.settings aw.1 = api.settings api0 ∧
  ∃ s p,
    api.server aw.1 = Some s ∧ proc s = Some p ∧
    running aw.2 = pid p :: running world0 ∧ (pid p ∉ running world0) ∧
    workspace s = "/tmp/comfy_workspace" ∧
    input_dir s = "/tmp/comfy_input" ∧
    verbose s = 0 ∧
    host s = "127.0.0.1" ∧
    10000 ≤ port s ≤ 65535.
Proof.
  intros aw.
  apply (setup_returns (ready_env 0) 5 "cpu" api0 world0 aw.1 aw.2).
  - reflexivity.
  - constructor.
  - vm_compute. reflexivity.
Defined.

(** * The validator of inputs *)

(** Induction on a value, with the property at hand for the members of
    its dictionaries and lists. *)
Lemma PyObj_nested_ind (P : PyObj → Prop) :
  (∀ kvs, Forall (λ kv, P kv.2) kvs → P (PyDict kvs)) →
  (∀ xs, Forall P xs → P (PyList xs)) →
  (∀ obj, (∀ kvs, obj ≠ PyDict kvs) → (∀ xs, obj ≠ PyList xs) → P obj) →
  ∀ obj, P obj.
Proof.
  intros Hdict Hlist Hother.
  fix IH 1. intros [p|kvs|xs|xs| |b|n|s]; try (by apply Hother).
  - apply Hdict.
    induction kvs as [|[k v] kvs IHk]; constructor; [apply IH|done].
  - apply Hlist.
    induction xs as [|x xs IHx]; constructor; [apply IH|done].
Qed.

Section ValidateInputsProps.

Context (Path_str : Path → string).


(** X25.  [validate_inputs] leaves a value as it is exactly when no
    [Path] is met going down through its dictionaries and lists, and
    validating twice is validating once. *)
Theorem validate_inputs_fixed_point (v : PyObj) :
  (validate_inputs Path_str v = v ↔ has_path v = false) ∧
  validate_inputs Path_str (validate_inputs Path_str v)
  = validate_inputs Path_str v.
Proof.
  unfold validate_inputs.
  induction v as [kvs IH|xs IH|obj Hd Hl] using PyObj_nested_ind.
  - cbn. split; [split; [intros [= Heq]|intros Hno; f_equal]|f_equal].
    + induction IH as [|[k x] kvs [Hx _] _ IHk]; [done|].
      cbn in *. injection Heq as Hx' Hk'.
      apply orb_false_intro; [by apply Hx|by apply IHk].
    + induction IH as [|[k x] kvs [Hx _] _ IHk]; [done|].
      cbn in *. apply orb_false_elim in Hno as [Hx' Hk'].
      f_equal; [f_equal; by apply Hx|by apply IHk].
    + induction IH as [|[k x] kvs [_ Hx] _ IHk]; [done|].
      cbn in *. by rewrite Hx, IHk.
  - cbn. split; [split; [intros [= Heq]|intros Hno; f_equal]|f_equal].
    + induction IH as [|x xs [Hx _] _ IHx]; [done|].
      cbn in *. injection Heq as Hx' Hk'.
      apply orb_false_intro; [by apply Hx|by apply IHx].
    + induction IH as [|x xs [Hx _] _ IHx]; [done|].
      cbn in *. apply orb_false_elim in Hno as [Hx' Hk'].
      f_equal; [by apply Hx|by apply IHx].
    + induction IH as [|x xs [_ Hx] _ IHx]; [done|].
      cbn. by rewrite Hx, IHx.
  - destruct obj as [p|kvs|xs|xs| |b|n|s];
      try (by destruct (Hd kvs)); try (by destruct (Hl xs));
      by repeat split.
Qed.

End ValidateInputsProps.

(** * The inputs of the command line *)

Lemma replace_dash_chars (s : string) : "-"%char ∉ chars (replace_dash s).
Proof.
  induction s as [|c s IH]; cbn; [by intros ?%elem_of_nil|].
  intros [Hc|Hin]%elem_of_cons; [|done].
  destruct (Ascii.eqb c "-"%char) eqn:Heq; [done|].
  apply Ascii.eqb_neq in Heq. congruence.
Qed.

Lemma dict_set_keys {A : Type} (k : string) (v : A) (d : list (string * A))
  (k0 : string) (v0 : A) :
  (k0, v0) ∈ dict_set k v d → (k0, v0) = (k, v) ∨ (k0, v0) ∈ d.
Proof.
  induction d as [|[k' v'] d IH]; cbn.
  - intros ->%list_elem_of_singleton. by left.
  - destruct (String.eqb k k').
    + intros [->|Hin]%elem_of_cons; [by left|right; by apply list_elem_of_further].
    + intros [->|Hin]%elem_of_cons; [right; apply list_elem_of_here|].
      destruct (IH Hin) as [->|Hd]; [by left|right; by apply list_elem_of_further].
Qed.

Lemma dict_set_NoDup {A : Type} (k : string) (v : A) (d : list (string * A)) :
  NoDup d.*1 → NoDup (dict_set k v d).*1 ∧
  ∀ k0, k0 ∈ (dict_set k v d).*1 → k0 = k ∨ k0 ∈ d.*1.
Proof.
  induction d as [|[k' v'] d IH]; cbn.
  - intros _. split; [apply NoDup_singleton|].
    intros k0 ->%list_elem_of_singleton. by left.
  - intros [Hk' Hd]%NoDup_cons. destruct (String.eqb k k') eqn:Heq.
    + apply String.eqb_eq in Heq as ->. cbn. split; [by apply NoDup_cons|].
      intros k0 Hin. by right.
    + destruct (IH Hd) as (Hnd & Hkeys). cbn. split.
      * apply NoDup_cons. split; [|done]. intros Hin.
        destruct (Hkeys _ Hin) as [->|?]; [|done].
        by rewrite String.eqb_refl in Heq.
      * intros k0 [->|Hin]%elem_of_cons; [right; apply list_elem_of_here|].
        destruct (Hkeys _ Hin) as [->|?]; [by left|right].
        by apply list_elem_of_further.
Qed.

Lemma dict_of_pairs_spec {A : Type} (pairs : list (string * A)) :
  NoDup (dict_of_pairs pairs).*1 ∧
  ∀ k v, (k, v) ∈ dict_of_pairs pairs → (k, v) ∈ pairs.
Proof.
  unfold dict_of_pairs.
  induction pairs as [|[k v] pairs IH] using rev_ind; cbn.
  - split; [constructor|done].
  - rewrite foldl_app. cbn. destruct IH as (Hnd & Hin). split.
    + by apply dict_set_NoDup.
    + intros k0 v0 [->|Hd]%dict_set_keys; apply elem_of_app.
      * right. apply list_elem_of_here.
      * left. by apply Hin.
Qed.

(** X26.  The inputs of [run]: no key is there twice, no key has a dash,
    every key is an argument at an even place without its leading
    dashes and with [_] for every other dash, and every value is an
    argument at an odd place. *)
Theorem run_inputs_keys (args : list string) :
  NoDup (run_inputs args).*1 ∧
  ∀ k v,
    (k, v) ∈ run_inputs args →
    ("-"%char ∉ chars k) ∧
    (∃ a, a ∈ every_other args ∧ k = replace_dash (lstrip_dash a)) ∧
    v ∈ every_other (tail args).
Proof.
  unfold run_inputs.
  destruct (dict_of_pairs_spec
              (zip ((λ k, replace_dash (lstrip_dash k)) <$> every_other args)
                 (every_other (tail args)))) as (Hnd & Hin).
  split; [done|]. intros k v Hkv. apply Hin in Hkv.
  apply elem_of_zip_l in Hkv as Hk. apply elem_of_zip_r in Hkv as Hv.
  apply list_elem_of_fmap in Hk as (a & -> & Ha).
  split_and!; [apply replace_dash_chars|by exists a|done].
Qed.

Lemma every_other_tail {A : Type} (b : A) (l : list A) :
  every_other (b :: l) = b :: every_other (tail l).
Proof. by destruct l. Qed.

(** The dictionary is made of the arguments taken two by two. *)
Lemma run_inputs_pairs (args : list string) :
  run_inputs args =
    dict_of_pairs
      ((λ ab, (replace_dash (lstrip_dash ab.1), ab.2)) <$> arg_pairs args).
Proof.
  unfold run_inputs. f_equal.
  remember (length args) as n eqn:Hn.
  revert args Hn. induction (lt_wf n) as [n _ IH]. intros args Hn.
  destruct args as [|a [|b l]]; [done|done|].
  change (every_other (a :: b :: l)) with (a :: every_other l).
  cbn [tail arg_pairs]. rewrite (every_other_tail b l). cbn. f_equal.
  apply (IH (length l)); [subst n; cbn; lia|done].
Qed.

Lemma arg_pairs_app (args l : list string) :
  Nat.Even (length args) →
  arg_pairs (args ++ l) = arg_pairs args ++ arg_pairs l.
Proof.
  intros [n Hn]. revert args Hn.
  induction n as [|n IH]; intros args Hn.
  - by destruct args.
  - destruct args as [|a [|b args]]; cbn in Hn; try lia.
    cbn. f_equal. apply IH. lia.
Qed.

Lemma dict_lookup_set {A : Type} (k : string) (v : A) (d : list (string * A)) :
  dict_lookup k (dict_set k v d) = Some v.
Proof.
  induction d as [|[k' v'] d IH]; cbn.
  - by rewrite String.eqb_refl.
  - destruct (String.eqb k k') eqn:Heq; cbn.
    + by rewrite String.eqb_refl.
    + by rewrite Heq.
Qed.

(** X27.  The arguments are taken two by two: a last argument left
    without a value is dropped, and the value given last to an input is
    the one it has, under any spelling of the option that gives the same
    key. *)
Theorem run_inputs_pairing (args : list string) (x k v : string) :
  Nat.Even (length args) →
  run_inputs (args ++ [x]) = run_inputs args ∧
  dict_lookup (replace_dash (lstrip_dash k)) (run_inputs (args ++ [k; v]))
  = Some v.
Proof.
  intros Heven. rewrite !run_inputs_pairs, !arg_pairs_app by done. split.
  - cbn. by rewrite app_nil_r.
  - cbn. rewrite fmap_app. unfold dict_of_pairs. rewrite foldl_app. cbn.
    apply dict_lookup_set.
Qed.

(** Two spellings of one input, and an option without a value. *)
Lemma run_inputs_pairing_sample :
  run_inputs (["--seed"; "3"; "--my-key"; "a"] ++ ["--steps"])
  = run_inputs ["--seed"; "3"; "--my-key"; "a"] ∧
  dict_lookup (replace_dash (lstrip_dash "--my_key"))
    (run_inputs (["--seed"; "3"; "--my-key"; "a"] ++ ["--my_key"; "b"]))
  = Some "b".
Proof.
  apply (run_inputs_pairing ["--seed"; "3"; "--my-key"; "a"] "--steps"
           "--my_key" "b").
  exists 2%nat. reflexivity.
Defined.
